(** * incrementalmd5: the incremental checksum scanner of [main.go]

    A shallow embedding of [main.go] and the properties of its
    incremental-update algorithm.

    - Go strings are byte sequences: they are [string] (lists of 8-bit
      [ascii]).
    - [map[string]string] is [gmap string string]; reading a missing key
      yields the empty string, as in Go.
    - [time.Time] is an integer count of nanoseconds since Go's zero
      instant, so [time.Time{}] is [0] and [After] is [<].
    - The file system is a finite map from paths to nodes. One run sees
      one instant [now]: it is what [time.Now()] returns and the time the
      system gives to the files the run creates.
    - The system calls that can fail without the file system telling why
      fail when a flag of the environment says so. The flags are free, so
      what is proved for every environment holds for the failures of a
      real system. *)

From Stdlib Require Import ZArith Ascii String List Lia.
From stdpp Require Import base option list strings sorting gmap fin_maps.

Local Open Scope string_scope.
Local Open Scope Z_scope.

(** ** crypto/md5 and encoding/hex *)

Module MD5.

Definition mask32 : Z := 0xffffffff.
Definition add32 (a b : Z) : Z := Z.land (a + b) mask32.
Definition not32 (a : Z) : Z := Z.lxor a mask32.
Definition rotl32 (x c : Z) : Z :=
  Z.land (Z.lor (Z.shiftl x c) (Z.shiftr x (32 - c))) mask32.

Definition shifts : list Z :=
  [7; 12; 17; 22; 7; 12; 17; 22; 7; 12; 17; 22; 7; 12; 17; 22;
   5;  9; 14; 20; 5;  9; 14; 20; 5;  9; 14; 20; 5;  9; 14; 20;
   4; 11; 16; 23; 4; 11; 16; 23; 4; 11; 16; 23; 4; 11; 16; 23;
   6; 10; 15; 21; 6; 10; 15; 21; 6; 10; 15; 21; 6; 10; 15; 21].

Definition table : list Z :=
  [0xd76aa478; 0xe8c7b756; 0x242070db; 0xc1bdceee;
   0xf57c0faf; 0x4787c62a; 0xa8304613; 0xfd469501;
   0x698098d8; 0x8b44f7af; 0xffff5bb1; 0x895cd7be;
   0x6b901122; 0xfd987193; 0xa679438e; 0x49b40821;
   0xf61e2562; 0xc040b340; 0x265e5a51; 0xe9b6c7aa;
   0xd62f105d; 0x02441453; 0xd8a1e681; 0xe7d3fbc8;
   0x21e1cde6; 0xc33707d6; 0xf4d50d87; 0x455a14ed;
   0xa9e3e905; 0xfcefa3f8; 0x676f02d9; 0x8d2a4c8a;
   0xfffa3942; 0x8771f681; 0x6d9d6122; 0xfde5380c;
   0xa4beea44; 0x4bdecfa9; 0xf6bb4b60; 0xbebfbc70;
   0x289b7ec6; 0xeaa127fa; 0xd4ef3085; 0x04881d05;
   0xd9d4d039; 0xe6db99e5; 0x1fa27cf8; 0xc4ac5665;
   0xf4292244; 0x432aff97; 0xab9423a7; 0xfc93a039;
   0x655b59c3; 0x8f0ccc92; 0xffeff47d; 0x85845dd1;
   0x6fa87e4f; 0xfe2ce6e0; 0xa3014314; 0x4e0811a1;
   0xf7537e82; 0xbd3af235; 0x2ad7d2bb; 0xeb86d391].

(** The four chaining words. *)
Record digest := Digest { dA : Z; dB : Z; dC : Z; dD : Z }.

Definition init : digest :=
  Digest 0x67452301 0xefcdab89 0x98badcfe 0x10325476.

Definition nthZ (l : list Z) (i : Z) : Z := nth (Z.to_nat i) l 0.

(** One of the 64 operations of a block, on message words [m]. *)
Definition round (m : list Z) (d : digest) (i : Z) : digest :=
  let '(Digest a b c e) := d in
  let '(f, g) :=
    if i <? 16 then (Z.lor (Z.land b c) (Z.land (not32 b) e), i)
    else if i <? 32 then
      (Z.lor (Z.land e b) (Z.land (not32 e) c), (5 * i + 1) mod 16)
    else if i <? 48 then (Z.lxor (Z.lxor b c) e, (3 * i + 5) mod 16)
    else (Z.lxor c (Z.lor b (not32 e)), (7 * i) mod 16) in
  let f' := add32 (add32 (add32 f a) (nthZ table i)) (nthZ m g) in
  Digest e (add32 b (rotl32 f' (nthZ shifts i))) b c.

Definition block (d : digest) (m : list Z) : digest :=
  let r := fold_left (round m) (map Z.of_nat (seq 0 64)) d in
  Digest (add32 (dA d) (dA r)) (add32 (dB d) (dB r))
         (add32 (dC d) (dC r)) (add32 (dD d) (dD r)).

(** Little-endian words of a byte list. *)
Fixpoint words (bs : list Z) : list Z :=
  match bs with
  | b0 :: b1 :: b2 :: b3 :: rest =>
      (b0 + 256 * b1 + 65536 * b2 + 16777216 * b3) :: words rest
  | _ => []
  end.

Definition le_bytes (n : nat) (w : Z) : list Z :=
  map (fun k => Z.land (Z.shiftr w (8 * Z.of_nat k)) 255) (seq 0 n).

Definition pad (bs : list Z) : list Z :=
  let len := Z.of_nat (length bs) in
  let zeros := Z.to_nat ((55 - len) mod 64) in
  bs ++ [128] ++ repeat 0 zeros ++ le_bytes 8 ((8 * len) mod 2 ^ 64).

Fixpoint blocks (fuel : nat) (d : digest) (ws : list Z) : digest :=
  match fuel with
  | O => d
  | S fuel' =>
      match ws with
      | [] => d
      | _ => blocks fuel' (block d (firstn 16 ws)) (skipn 16 ws)
      end
  end.

(** [md5.New()], [Write] of all the bytes, [Sum(nil)]: 16 bytes. *)
Definition sum (bs : list Z) : list Z :=
  let ws := words (pad bs) in
  let d := blocks (length ws) init ws in
  le_bytes 4 (dA d) ++ le_bytes 4 (dB d) ++ le_bytes 4 (dC d)
    ++ le_bytes 4 (dD d).

End MD5.

Definition byte_of_ascii (c : ascii) : Z := Z.of_N (N_of_ascii c).

Definition bytes_of_string (s : string) : list Z :=
  map byte_of_ascii (list_ascii_of_string s).

Definition hexdigit (n : Z) : ascii :=
  match String.get (Z.to_nat n) "0123456789abcdef" with
  | Some c => c
  | None => "0"%char
  end.

(** [hex.EncodeToString] *)
Fixpoint EncodeToString (bs : list Z) : string :=
  match bs with
  | [] => ""
  | b :: rest =>
      String (hexdigit (Z.shiftr b 4))
        (String (hexdigit (Z.land b 15)) (EncodeToString rest))
  end.

Definition md5hex (s : string) : string :=
  EncodeToString (MD5.sum (bytes_of_string s)).

(** ** The [strings] and [bufio] functions the program calls *)

(** [strings.HasSuffix] *)
Definition HasSuffix (s suffix : string) : bool :=
  (String.length suffix <=? String.length s)%nat
  && String.eqb
       (substring (String.length s - String.length suffix)
                  (String.length suffix) s)
       suffix.

(** [strings.Index]: position of the first occurrence of [sep]. *)
Fixpoint Index (s sep : string) : option nat :=
  if String.prefix sep s then Some O
  else match s with
       | EmptyString => None
       | String _ r => S <$> Index r sep
       end.

(** [strings.SplitN(s, sep, 2)] for a non-empty separator. *)
Definition SplitN2 (s sep : string) : list string :=
  match Index s sep with
  | None => [s]
  | Some i =>
      [substring 0 i s;
       substring (i + String.length sep)
                 (String.length s - (i + String.length sep)) s]
  end.

(** The six ASCII white-space bytes of [strings.TrimSpace]. *)
Definition asciiSpace (c : ascii) : bool :=
  match c with
  | "009" | "010" | "011" | "012" | "013" | " " => true
  | _ => false
  end%char.

(** [unicode.IsSpace] on the UTF-8 encodings of two and three bytes:
    U+0085, U+00A0; U+1680, U+2000..U+200A, U+2028, U+2029, U+202F,
    U+205F, U+3000. *)
Definition space2 (c d : ascii) : bool :=
  (byte_of_ascii c =? 0xC2)
  && ((byte_of_ascii d =? 0x85) || (byte_of_ascii d =? 0xA0)).

Definition space3 (c d e : ascii) : bool :=
  let '(c, d, e) := (byte_of_ascii c, byte_of_ascii d, byte_of_ascii e) in
  ((c =? 0xE1) && (d =? 0x9A) && (e =? 0x80))
  || ((c =? 0xE2) && (d =? 0x80)
      && (((0x80 <=? e) && (e <=? 0x8A))
          || (e =? 0xA8) || (e =? 0xA9) || (e =? 0xAF)))
  || ((c =? 0xE2) && (d =? 0x81) && (e =? 0x9F))
  || ((c =? 0xE3) && (d =? 0x80) && (e =? 0x80)).

(** Strip leading white-space runes.  With [back], the string is read
    back to front (it is a reversed string), so that the bytes of a rune
    arrive last byte first. *)
Fixpoint trimFront (back : bool) (s : string) : string :=
  match s with
  | EmptyString => EmptyString
  | String c r1 =>
      if asciiSpace c then trimFront back r1
      else
        match r1 with
        | String d r2 =>
            if (if back then space2 d c else space2 c d)
            then trimFront back r2
            else
              match r2 with
              | String e r3 =>
                  if (if back then space3 e d c else space3 c d e)
                  then trimFront back r3
                  else s
              | EmptyString => s
              end
        | EmptyString => s
        end
  end.

(** [strings.TrimSpace] *)
Definition TrimSpace (s : string) : string :=
  String.rev (trimFront true (String.rev (trimFront false s))).

(** [bufio.ScanLines] over the whole input: the text between line feeds;
    a last line without line feed counts when it is not empty. *)
Fixpoint splitLines (s : string) : list string :=
  match s with
  | EmptyString => []
  | String c r =>
      if Ascii.eqb c "010" then EmptyString :: splitLines r
      else match splitLines r with
           | [] => [String c EmptyString]
           | l :: ls => String c l :: ls
           end
  end.

(** [dropCR] *)
Definition dropCR (s : string) : string :=
  match String.rev s with
  | String "013" r => String.rev r
  | _ => s
  end.

(** [bufio.MaxScanTokenSize]: a line that does not fit the scanner's
    buffer ends the scan. *)
Definition MaxScanTokenSize : N := 65536.

Definition fitsBuffer (line : string) : bool :=
  (N.of_nat (String.length line) <? MaxScanTokenSize)%N.

Fixpoint whilst {A} (p : A -> bool) (l : list A) : list A :=
  match l with
  | [] => []
  | x :: r => if p x then x :: whilst p r else []
  end.

(** The tokens [scanner.Scan()]/[scanner.Text()] deliver. *)
Definition scanLines (text : string) : list string :=
  map dropCR (whilst fitsBuffer (splitLines text)).

(** [sort.Strings]: ascending byte order. *)
Definition sortStrings (l : list string) : list string :=
  merge_sort String.le l.

(** ** The file system and the environment of a run *)

(** [time.Time.After] *)
Definition After (t u : Z) : bool := u <? t.

(** The zero instant [time.Time{}]. *)
Definition zeroTime : Z := 0.

(** A regular file: its modification time and its bytes; [None] when
    the file cannot be opened or read. *)
Record File := mkFile { modTime : Z; content : option string }.

(** What [os.Stat] and [filepath.Walk] report at a path: a file (or any
    other entry that is not a directory), a directory, or an error. *)
Inductive Node :=
| Regular (f : File)
| Directory (mtime : Z)
| Broken.

(** Absolute paths: below the scanned directory [targetDir], by their
    relative path, or elsewhere. *)
Inductive Path :=
| Inside (rel : string)
| Outside (abs : string).

(** The scanned directory, when it exists, and the rest of the file
    system. The path given as [--dir] is taken to be a directory. *)
Record FS := mkFS {
  rootExists : bool;
  inside : gmap string Node;
  outside : gmap string Node
}.

Definition statFS (fs : FS) (p : Path) : option Node :=
  match p with
  | Inside rel => inside fs !! rel
  | Outside abs => outside fs !! abs
  end.

Definition putFS (fs : FS) (p : Path) (n : Node) : FS :=
  match p with
  | Inside rel => mkFS (rootExists fs) (<[rel := n]> (inside fs)) (outside fs)
  | Outside abs => mkFS (rootExists fs) (inside fs) (<[abs := n]> (outside fs))
  end.

Definition removeFS (fs : FS) (p : Path) : FS :=
  match p with
  | Inside rel => mkFS (rootExists fs) (delete rel (inside fs)) (outside fs)
  | Outside abs => mkFS (rootExists fs) (inside fs) (delete abs (outside fs))
  end.

(** [path + suffix] *)
Definition pathAppend (p : Path) (suffix : string) : Path :=
  match p with
  | Inside rel => Inside (rel ++ suffix)
  | Outside abs => Outside (abs ++ suffix)
  end.

(** [os.ReadFile], and the bytes [os.Open] followed by reads delivers. *)
Definition ReadFile (fs : FS) (p : Path) : option string :=
  match statFS fs p with
  | Some (Regular f) => content f
  | _ => None
  end.

(** The system calls that fail in a run. [printfFails = Some k]: the
    [k]-th [Fprintf] of [writeChecksums] (from 0) fails. *)
Record Faults := mkFaults {
  createFails : bool;
  printfFails : option nat;
  renameFails : bool;
  mkdirFails : bool;
  openFails : bool;
  chtimesFails : bool
}.

Definition noFaults : Faults := mkFaults false None false false false false.

(** The environment of a run: the instant [time.Now()] returns and the
    faults. *)
Record Env := mkEnv { now : Z; faults : Faults }.

(** What a run does that leaves no mark in the file system: the lines it
    logs or prints, and the files it opens to hash. *)
Inductive Event :=
| LogChecking (rel : string)
| LogSkipping
| LogRelError (rel : string)
| LogChecksumFailed (path : Path)
| LogNoChanges (outputPath : Path)
| LogTotalDuration
| LogUpdatedLastRun (timestampPath : Path)
| LogFatal
| LogUpdatedChecksums
| PrintContent (text : string)
| LogReadFailed
| LogProcessed (count : Z)
| LogEntries (entries : nat)
| OpenToHash (path : Path)
| CreateFile (path : Path).

(** [filepath.Walk] visits the entries of a directory in byte order of
    their names, a directory before its entries: the order of the
    relative paths once the separator sorts before every other byte. *)
Definition walkKey (rel : string) : string :=
  string_of_list_ascii
    (map (fun c => if Ascii.eqb c "/" then "000"%char else c)
         (list_ascii_of_string rel)).

Definition walkLe (a b : string * Node) : Prop :=
  String.le (walkKey a.1) (walkKey b.1).

#[global] Instance walkLe_dec : RelDecision walkLe.
Proof. intros a b. unfold walkLe. apply _. Defined.

(** The calls [filepath.Walk(targetDir, ...)] makes to its callback, but
    the first one, on [targetDir] itself, which is a directory. *)
Definition Walk (fs : FS) : list (string * Node) :=
  merge_sort walkLe (map_to_list (inside fs)).

(** [filepath.Rel(targetDir, path)] of a path [Walk] reports. *)
Definition Rel (rel : string) : option string := Some rel.

(** ** The program *)

Definition MD5TimestampFile : string := ".md5sum-timestamp".

(** Reading a Go map: the zero value for a missing key. *)
Definition mapGet (m : gmap string string) (k : string) : string :=
  default "" (m !! k).

(** [fileMD5]: [None] is the error. *)
Definition fileMD5 (fs : FS) (path : Path) : option string :=
  match ReadFile fs path with
  | Some bytes => Some (md5hex bytes)
  | None => None
  end.

(** One line of [readChecksums]. *)
Definition readLine (checksums : gmap string string) (text : string)
  : gmap string string :=
  let line := TrimSpace text in
  match SplitN2 line "  " with
  | [sum; path] => <[path := sum]> checksums
  | _ => checksums
  end.

Definition parseChecksums (text : string) : gmap string string :=
  fold_left readLine (scanLines text) ∅.

(** [readChecksums] *)
Definition readChecksums (fs : FS) (path : Path) : gmap string string :=
  match ReadFile fs path with
  | None => ∅
  | Some text => parseChecksums text
  end.

(** The line [writeChecksums] prints for a path. *)
Definition formatLine (checksums : gmap string string) (path : string)
  : string :=
  mapGet checksums path ++ "  " ++ path ++ String "010" "".

Definition sortedPaths (checksums : gmap string string) : list string :=
  sortStrings (map_to_list checksums).*1.

Definition printLines (checksums : gmap string string) (paths : list string)
  : string :=
  String.concat "" (map (formatLine checksums) paths).

(** [writeChecksums]: the file system it leaves and whether it returned
    [nil]. The temporary file is created, the lines are printed to it one
    by one, and it is renamed over [path]. *)
Definition writeChecksums (env : Env) (fs : FS) (path : Path)
    (checksums : gmap string string) : FS * bool :=
  let tmpPath := pathAppend path ".tmp" in
  if createFails (faults env) then (fs, false)
  else
    let paths := sortedPaths checksums in
    let file text := Regular (mkFile (now env) (Some text)) in
    let printed :=
      match printfFails (faults env) with
      | Some k => if (k <? length paths)%nat then Some k else None
      | None => None
      end in
    match printed with
    | Some k =>
        (putFS fs tmpPath (file (printLines checksums (firstn k paths))),
         false)
    | None =>
        let fs1 := putFS fs tmpPath (file (printLines checksums paths)) in
        if renameFails (faults env) then (fs1, false)
        else (putFS (removeFS fs1 tmpPath) path
                (file (printLines checksums paths)), true)
    end.

(** [getLastRunTime] *)
Definition getLastRunTime (fs : FS) (path : Path) : Z :=
  match statFS fs path with
  | Some (Regular f) => modTime f
  | Some (Directory t) => t
  | _ => zeroTime
  end.

(** [updateLastRun]: the file system it leaves and whether it returned
    (it ends the process otherwise). The directory of [path] is taken to
    exist, as it does where [main] calls it, on a path of the scanned
    directory: [os.MkdirAll] then creates nothing, and can only fail. *)
Definition updateLastRun (env : Env) (fs : FS) (path : Path) : FS * bool :=
  if mkdirFails (faults env) then (fs, false)
  else if openFails (faults env) then (fs, false)
  else
    let fs1 := putFS fs path (Regular (mkFile (now env) (Some ""))) in
    if chtimesFails (faults env) then (fs1, false) else (fs1, true).

(** [mapsEqual] *)
Definition mapsEqual (a b : gmap string string) : bool :=
  if negb (size a =? size b)%nat then false
  else
    forallb
      (fun '(k, av) =>
         match b !! k with
         | Some bv => String.eqb bv av
         | None => false
         end)
      (map_to_list a).

(** [fileExistsInChecksums] *)
Definition fileExistsInChecksums (path : string)
    (checksums : gmap string string) : bool :=
  match checksums !! path with
  | Some _ => true
  | None => false
  end.

(** [processedCount++] on a 64-bit [int]. *)
Definition incr (n : Z) : Z := (n + 1 + 2 ^ 63) mod 2 ^ 64 - 2 ^ 63.

(** The variables of [main] the callback of the walk updates, and the
    events so far. *)
Record Scan := mkScan {
  changed : bool;
  neededUpdate : bool;
  processedCount : Z;
  newChecksums : gmap string string;
  events : list Event
}.

Definition emit (st : Scan) (evs : list Event) : Scan :=
  mkScan (changed st) (neededUpdate st) (processedCount st)
         (newChecksums st) (events st ++ evs)%list.

(** The test [needsUpdate] of the callback. *)
Definition needsUpdate (existingChecksums : gmap string string)
    (lastRun : Z) (relPath : string) (info : File) : bool :=
  After (modTime info) lastRun
  || negb (fileExistsInChecksums relPath existingChecksums).

(** The callback given to [filepath.Walk], on one entry. *)
Definition walkFn (fs : FS) (existingChecksums : gmap string string)
    (lastRun : Z) (st : Scan) (entry : string * Node) : Scan :=
  let '(rel, node) := entry in
  match node with
  | Broken => st
  | Directory _ => st
  | Regular info =>
      match Rel rel with
      | None => emit st [LogRelError rel]
      | Some relPath =>
          let st := emit st [LogChecking relPath] in
          if HasSuffix relPath MD5TimestampFile then emit st [LogSkipping]
          else
            if needsUpdate existingChecksums lastRun relPath info then
              let st := emit st [OpenToHash (Inside rel)] in
              match fileMD5 fs (Inside rel) with
              | None => emit st [LogChecksumFailed (Inside rel)]
              | Some sum =>
                  if negb (String.eqb (mapGet existingChecksums relPath) sum)
                  then mkScan true true (incr (processedCount st))
                         (<[relPath := sum]> (newChecksums st)) (events st)
                  else mkScan (changed st) true (processedCount st)
                         (newChecksums st) (events st)
              end
            else st
      end
  end.

(** The copy loop of [main]. *)
Definition copyMap (m : gmap string string) : gmap string string :=
  foldr (fun '(k, v) acc => <[k := v]> acc) ∅ (map_to_list m).

Definition startScan (existingChecksums : gmap string string) : Scan :=
  mkScan false false 0 (copyMap existingChecksums) [].

(** The state of [main] when [filepath.Walk] returns. *)
Definition scan (fs : FS) (outputPath : Path) : Scan :=
  let existingChecksums := readChecksums fs outputPath in
  let lastRun := getLastRunTime fs (Inside MD5TimestampFile) in
  fold_left (walkFn fs existingChecksums lastRun) (Walk fs)
            (startScan existingChecksums).

(** How the process ends. *)
Inductive Exit := Returned | Fatal.

Record Outcome := mkOutcome {
  finalFS : FS;
  output : list Event;
  exit : Exit
}.

(** [main], from the resolved paths on. *)
Definition main (env : Env) (outputPath : Path) (fs : FS) : Outcome :=
  if negb (rootExists fs) then mkOutcome fs [LogFatal] Fatal
  else
    let existingChecksums := readChecksums fs outputPath in
    let timestampPath := Inside MD5TimestampFile in
    let st := scan fs outputPath in
    if negb (changed st) && mapsEqual existingChecksums (newChecksums st)
    then
      let out :=
        (events st ++ [LogNoChanges outputPath; LogTotalDuration])%list in
      if neededUpdate st then
        let out := (out ++ [LogUpdatedLastRun timestampPath])%list in
        match updateLastRun env fs timestampPath with
        | (fs1, true) => mkOutcome fs1 out Returned
        | (fs1, false) => mkOutcome fs1 (out ++ [LogFatal])%list Fatal
        end
      else mkOutcome fs out Returned
    else
      (* [os.Create(tmpPath)], the first step of [writeChecksums] *)
      let out :=
        (events st ++ [CreateFile (pathAppend outputPath ".tmp")])%list in
      match writeChecksums env fs outputPath (newChecksums st) with
      | (fs1, false) => mkOutcome fs1 (out ++ [LogFatal])%list Fatal
      | (fs1, true) =>
          match updateLastRun env fs1 timestampPath with
          | (fs2, false) => mkOutcome fs2 (out ++ [LogFatal])%list Fatal
          | (fs2, true) =>
              let shown :=
                match ReadFile fs2 outputPath with
                | Some text => PrintContent text
                | None => LogReadFailed
                end in
              mkOutcome fs2
                (out ++ [LogUpdatedChecksums; shown;
                         LogProcessed (processedCount st);
                         LogEntries (size (newChecksums st))])%list
                Returned
          end
      end.

(** ** Decidable equality *)

#[global] Instance Path_eq_dec : EqDecision Path.
Proof. solve_decision. Defined.

#[global] Instance File_eq_dec : EqDecision File.
Proof. solve_decision. Defined.

#[global] Instance Node_eq_dec : EqDecision Node.
Proof. solve_decision. Defined.

#[global] Instance Event_eq_dec : EqDecision Event.
Proof. solve_decision. Defined.

(** ** Notions the statements use *)

(** The manifest [writeChecksums] prints. *)
Definition manifestText (checksums : gmap string string) : string :=
  printLines checksums (sortedPaths checksums).

(** Whether the callback opens the entry to hash it. *)
Definition hashes (existing : gmap string string) (lastRun : Z)
    (e : string * Node) : bool :=
  match e.2 with
  | Regular info =>
      negb (HasSuffix e.1 MD5TimestampFile)
      && needsUpdate existing lastRun e.1 info
  | _ => false
  end.

(** The digest the callback gets for the entry, if any. *)
Definition digests (fs : FS) (existing : gmap string string) (lastRun : Z)
    (e : string * Node) : option string :=
  if hashes existing lastRun e then fileMD5 fs (Inside e.1) else None.

(** The digest the callback stores for the entry, if any. *)
Definition stores (fs : FS) (existing : gmap string string) (lastRun : Z)
    (e : string * Node) : option string :=
  match digests fs existing lastRun e with
  | Some sum =>
      if String.eqb (mapGet existing e.1) sum then None else Some sum
  | None => None
  end.

(** The working map holds a digest the loaded map does not. *)
Definition differs (existing : gmap string string) (st : Scan) : Prop :=
  exists k sum, newChecksums st !! k = Some sum /\ existing !! k <> Some sum.

(** ** Lines that are read back as they were written *)

(** Whether the string starts with a white-space rune ([back]: whether
    the reversed string ends with one). *)
Definition headSpace (back : bool) (s : string) : bool :=
  match s with
  | EmptyString => false
  | String c r1 =>
      asciiSpace c
      || match r1 with
         | EmptyString => false
         | String d r2 =>
             (if back then space2 d c else space2 c d)
             || match r2 with
                | EmptyString => false
                | String e _ => if back then space3 e d c else space3 c d e
                end
         end
  end.

(** No line feed in the string. *)
Fixpoint noLF (s : string) : bool :=
  match s with
  | EmptyString => true
  | String c r => negb (Ascii.eqb c "010") && noLF r
  end.

(** A line that [bufio.Scanner] delivers whole and that
    [strings.TrimSpace] leaves as it is. *)
Definition canonical (line : string) : bool :=
  negb (headSpace false line) && negb (headSpace true (String.rev line))
  && noLF line && fitsBuffer line.

(** An entry whose line is read back as the same entry. *)
Definition readable (sum path : string) : Prop :=
  canonical (sum ++ "  " ++ path) = true
  /\ SplitN2 (sum ++ "  " ++ path) "  " = [sum; path].

(** A relative path that can be listed in a manifest: not empty, without
    line feed, not ending with a white-space rune, and short enough for
    the line to fit the scanner's buffer. *)
Definition plainPath (rel : string) : bool :=
  negb (String.eqb rel "")
  && noLF rel
  && negb (headSpace true (String.rev rel))
  && (N.of_nat (String.length rel) <? MaxScanTokenSize - 34)%N.

(** The digits of [hex.EncodeToString]. *)
Definition isHex (c : ascii) : bool :=
  let b := byte_of_ascii c in
  ((48 <=? b) && (b <=? 57)) || ((97 <=? b) && (b <=? 102)).

Fixpoint hexOnly (s : string) : bool :=
  match s with
  | EmptyString => true
  | String c r => isHex c && hexOnly r
  end.

(** ** Sample worlds *)

Definition LF : string := String "010" "".

Definition outPath : Path := Outside "/srv/md5sums.txt".

(** A directory with one file and neither manifest nor marker. *)
Definition fsFresh : FS :=
  mkFS true {[ "a.txt" := Regular (mkFile 5 (Some "hi")) ]} ∅.

(** The same directory with a file that cannot be read. *)
Definition fsUnreadable : FS :=
  mkFS true {[ "a.txt" := Regular (mkFile 5 None) ]} ∅.

(** After a run at instant 10: marker and manifest are in place. *)
Definition fsScanned : FS :=
  mkFS true
    {[ "a.txt" := Regular (mkFile 5 (Some "hi"));
       ".md5sum-timestamp" := Regular (mkFile 10 (Some "")) ]}
    {[ "/srv/md5sums.txt" :=
         Regular (mkFile 10
           (Some ("49f68a5c8493ec2c0bf489821c21fc3b  a.txt" ++ LF))) ]}.

(** [a.txt] was touched at instant 12, its bytes are the same. *)
Definition fsTouched : FS :=
  mkFS true
    {[ "a.txt" := Regular (mkFile 12 (Some "hi"));
       ".md5sum-timestamp" := Regular (mkFile 10 (Some "")) ]}
    {[ "/srv/md5sums.txt" :=
         Regular (mkFile 10
           (Some ("49f68a5c8493ec2c0bf489821c21fc3b  a.txt" ++ LF))) ]}.

(** A manifest that lists the marker file, and a new file [b.txt]. *)
Definition fsListed : FS :=
  mkFS true
    {[ "b.txt" := Regular (mkFile 5 (Some "bye"));
       ".md5sum-timestamp" := Regular (mkFile 10 (Some "")) ]}
    {[ "/srv/md5sums.txt" :=
         Regular (mkFile 10
           (Some ("d41d8cd98f00b204e9800998ecf8427e  .md5sum-timestamp"
                  ++ LF))) ]}.

Definition env10 : Env := mkEnv 10 noFaults.
Definition env20 : Env := mkEnv 20 noFaults.

(** The manifest at its default place, inside the scanned directory. *)
Definition inTree : Path := Inside "md5sums.txt".

(** A file whose name ends with a space. *)
Definition fsSpace : FS :=
  mkFS true {[ "a.txt " := Regular (mkFile 5 (Some "hi")) ]} ∅.

(** A marker dated 100, a manifest with an outdated digest for [a.txt],
    and a new file [b.txt]. *)
Definition fsAhead : FS :=
  mkFS true
    {[ "a.txt" := Regular (mkFile 50 (Some "hi"));
       "b.txt" := Regular (mkFile 10 (Some "bye"));
       ".md5sum-timestamp" := Regular (mkFile 100 (Some "")) ]}
    {[ "/srv/md5sums.txt" :=
         Regular (mkFile 100
           (Some ("00000000000000000000000000000000  a.txt" ++ LF))) ]}.

(** A tree with sub-directories. *)
Definition fsDeep : FS :=
  mkFS true
    {[ "a.txt" := Regular (mkFile 1 (Some ""));
       "a-b" := Directory 1;
       "a-b/y" := Regular (mkFile 1 (Some ""));
       "a" := Directory 1;
       "a/x" := Regular (mkFile 1 (Some "")) ]} ∅.


(** ** Further notions and sample worlds *)

(** The entries of the working manifest the existing one does not have. *)
Definition changedEntries (existing current : gmap string string)
  : gmap string string :=
  filter (fun kv => existing !! kv.1 <> Some kv.2) current.

(** [a.txt] was edited at instant 12: its recorded digest is outdated. *)
Definition fsEdited : FS :=
  mkFS true
    {[ "a.txt" := Regular (mkFile 12 (Some "bye"));
       ".md5sum-timestamp" := Regular (mkFile 10 (Some "")) ]}
    {[ "/srv/md5sums.txt" :=
         Regular (mkFile 10
           (Some ("49f68a5c8493ec2c0bf489821c21fc3b  a.txt" ++ LF))) ]}.

(** A manifest that also lists a file that is gone. *)
Definition fsGone : FS :=
  mkFS true
    {[ "a.txt" := Regular (mkFile 5 (Some "hi"));
       ".md5sum-timestamp" := Regular (mkFile 10 (Some "")) ]}
    {[ "/srv/md5sums.txt" :=
         Regular (mkFile 10
           (Some ("49f68a5c8493ec2c0bf489821c21fc3b  a.txt" ++ LF
                  ++ "bfa99df33b137bc8fb5f5407d7e58da8  old.txt" ++ LF))) ]}.

(** A line of 65536 bytes, one more than the scanner takes. *)
Definition longLine : string :=
  string_of_list_ascii (repeat "a"%char (N.to_nat MaxScanTokenSize)).

(** The marker has been deleted; manifest and file are as they were. *)
Definition fsNoMarker : FS :=
  mkFS true
    {[ "a.txt" := Regular (mkFile 5 (Some "hi")) ]}
    {[ "/srv/md5sums.txt" :=
         Regular (mkFile 10
           (Some ("49f68a5c8493ec2c0bf489821c21fc3b  a.txt" ++ LF))) ]}.

(** Whether a call of [writeChecksums] on these checksums meets a failing
    system call: [os.Create], one of the [Fprintf] it gets to, or
    [os.Rename]. *)
Definition writeFails (env : Env) (checksums : gmap string string) : bool :=
  createFails (faults env)
  || match printfFails (faults env) with
     | Some k => (k <? length (sortedPaths checksums))%nat
     | None => false
     end
  || renameFails (faults env).

(** The two fields of a line of a manifest: what precedes and what
    follows its first two consecutive spaces. *)
Definition fields (line : string) : option (string * string) :=
  match SplitN2 line "  " with
  | [sum; path] => Some (sum, path)
  | _ => None
  end.

(** The marker's path given as [--output]: the marker holds a manifest,
    and [a.txt] was touched after it. *)
Definition fsSelf : FS :=
  mkFS true
    {[ "a.txt" := Regular (mkFile 12 (Some "hi"));
       ".md5sum-timestamp" :=
         Regular (mkFile 10
           (Some ("49f68a5c8493ec2c0bf489821c21fc3b  a.txt" ++ LF))) ]}
    ∅.

(** A file whose name holds a line feed followed by what reads as a line
    of a manifest, and a file [b]. *)
Definition fsNewline : FS :=
  mkFS true
    {[ "a" ++ LF ++ "00000000000000000000000000000000  z" :=
         Regular (mkFile 5 (Some "hi"));
       "b" := Regular (mkFile 5 (Some "bye")) ]}
    ∅.

(** A file whose name is two lines. *)
Definition fsTwoLines : FS :=
  mkFS true {[ "x" ++ LF ++ "y" := Regular (mkFile 5 (Some "hi")) ]} ∅.

(** A file whose name is the marker's followed by a space. *)
Definition fsMarkerSpace : FS :=
  mkFS true {[ ".md5sum-timestamp " := Regular (mkFile 5 (Some "hi")) ]} ∅.

(** A file whose name holds, between two line feeds, a line for the
    marker. *)
Definition fsMarkerLine : FS :=
  mkFS true
    {[ "x" ++ LF ++ "00000000000000000000000000000000  .md5sum-timestamp"
           ++ LF ++ "y" :=
         Regular (mkFile 5 (Some "hi")) ]}
    ∅.

(** A run at instant 20 in which [os.Create] fails. *)
Definition envNoCreate : Env :=
  mkEnv 20 (mkFaults true None false false false false).

(** A run at instant 20 in which [os.Rename] fails. *)
Definition envNoRename : Env :=
  mkEnv 20 (mkFaults false None true false false false).

(** A scanned file at the path of the temporary file of the manifest,
    when the manifest is at its default place. *)
Definition fsTmp : FS :=
  mkFS true
    {[ "a.txt" := Regular (mkFile 5 (Some "hi"));
       "md5sums.txt.tmp" := Regular (mkFile 5 (Some "draft")) ]}
    ∅.
(** * Properties *)

(** ** The library functions on examples *)

Example md5_empty : md5hex "" = "d41d8cd98f00b204e9800998ecf8427e".
Proof. vm_compute. reflexivity. Qed.

Example md5_hi : md5hex "hi" = "49f68a5c8493ec2c0bf489821c21fc3b".
Proof. vm_compute. reflexivity. Qed.

Example md5_abc : md5hex "abc" = "900150983cd24fb0d6963f7d28e17f72".
Proof. vm_compute. reflexivity. Qed.

Example md5_two_blocks :
  md5hex "12345678901234567890123456789012345678901234567890123456789012345678901234567890"
  = "57edf4a22be3c955ac49da2e2107b67a".
Proof. vm_compute. reflexivity. Qed.

Example HasSuffix_marker : HasSuffix "sub/.md5sum-timestamp" ".md5sum-timestamp" = true.
Proof. reflexivity. Qed.

Example TrimSpace_ascii : TrimSpace "  ab  c  " = "ab  c".
Proof. reflexivity. Qed.

Example TrimSpace_unicode :
  TrimSpace (String "194" (String "160" ("a b" ++ String "226"
               (String "128" (String "168" (String "013" ""))))))
  = "a b".
Proof. reflexivity. Qed.

Example TrimSpace_not_a_rune :
  TrimSpace (String "160" ("a" ++ String "194" ""))
  = String "160" ("a" ++ String "194" "").
Proof. reflexivity. Qed.

Example plainPath_examples :
  plainPath "sub/a b.txt" = true /\ plainPath "a.txt " = false
  /\ plainPath ("a" ++ LF ++ "b") = false.
Proof. repeat split; vm_compute; reflexivity. Qed.

Example SplitN2_line : SplitN2 "abc  x  y" "  " = ["abc"; "x  y"].
Proof. reflexivity. Qed.

Example SplitN2_none : SplitN2 "abc x" "  " = ["abc x"].
Proof. reflexivity. Qed.

Example scanLines_ex :
  scanLines (String "a" (String "013" (String "010" (String "010" "b"))))
  = ["a"; ""; "b"].
Proof. reflexivity. Qed.

Example sortStrings_ex : sortStrings ["b"; "a/x"; "a.txt"; "B"] = ["B"; "a.txt"; "a/x"; "b"].
Proof. vm_compute. reflexivity. Qed.

Example Walk_order :
  (Walk fsDeep).*1 = ["a"; "a/x"; "a-b"; "a-b/y"; "a.txt"].
Proof. vm_compute. reflexivity. Qed.

(** ** Go maps and their model *)

Lemma copyMap_id (m : gmap string string) : copyMap m = m.
Proof.
  unfold copyMap. rewrite <- (list_to_map_to_list m) at 2.
  induction (map_to_list m) as [|[k v] l IH]; simpl; [done|].
  by rewrite IH.
Qed.

Lemma mapsEqual_true (a b : gmap string string) :
  mapsEqual a b = true <-> a = b.
Proof.
  unfold mapsEqual. split.
  - destruct (size a =? size b)%nat eqn:Hsz; simpl; [|done].
    apply Nat.eqb_eq in Hsz. intros Hall.
    apply map_subseteq_size_eq; [|lia].
    apply map_subseteq_spec. intros k v Hk.
    rewrite forallb_forall in Hall.
    specialize (Hall (k, v)). simpl in Hall.
    destruct (b !! k) as [bv|] eqn:Hb.
    + f_equal. apply String.eqb_eq. apply Hall.
      apply list_elem_of_In, elem_of_map_to_list, Hk.
    + exfalso. enough (false = true) by done. apply Hall.
      apply list_elem_of_In, elem_of_map_to_list, Hk.
  - intros ->. rewrite Nat.eqb_refl. simpl.
    apply forallb_forall. intros [k v] Hin.
    apply list_elem_of_In, elem_of_map_to_list in Hin. rewrite Hin.
    apply String.eqb_refl.
Qed.

Lemma mapsEqual_false (a b : gmap string string) :
  mapsEqual a b = false <-> a <> b.
Proof.
  rewrite <- mapsEqual_true. destruct (mapsEqual a b); split; congruence.
Qed.

Lemma mapGet_Some (m : gmap string string) k v :
  m !! k = Some v -> mapGet m k = v.
Proof. unfold mapGet. by intros ->. Qed.

Lemma fileExistsInChecksums_true k (m : gmap string string) :
  fileExistsInChecksums k m = true <-> is_Some (m !! k).
Proof.
  unfold fileExistsInChecksums. destruct (m !! k); split; done.
Qed.

(** ** The digest is never the empty string *)

Lemma md5hex_nonempty (s : string) : md5hex s <> "".
Proof. unfold md5hex, MD5.sum. by cbn. Qed.

Lemma fileMD5_nonempty fs p sum : fileMD5 fs p = Some sum -> sum <> "".
Proof.
  unfold fileMD5. destruct (ReadFile fs p); [|done].
  intros [= <-]. apply md5hex_nonempty.
Qed.

(** ** The walk *)

Lemma elem_of_Walk fs rel node :
  (rel, node) ∈ Walk fs <-> inside fs !! rel = Some node.
Proof.
  unfold Walk. rewrite merge_sort_Permutation. apply elem_of_map_to_list.
Qed.

Lemma NoDup_Walk fs : NoDup (Walk fs).*1.
Proof.
  unfold Walk. rewrite merge_sort_Permutation. apply NoDup_fst_map_to_list.
Qed.

(** ** The callback, entry by entry *)

Section Scan.

Variable fs : FS.
Variable existing : gmap string string.
Variable lastRun : Z.

Local Abbreviation step := (walkFn fs existing lastRun).

(** The cases of the callback on an entry. *)
Ltac callback_cases e :=
  let rel := fresh "rel" in
  let info := fresh "info" in
  let sum := fresh "sum" in
  destruct e as [rel [info| |]];
  unfold stores, digests, hashes, walkFn, Rel; simpl;
  [ destruct (HasSuffix rel MD5TimestampFile); simpl;
    [ | destruct (needsUpdate existing lastRun rel info); simpl;
        [ destruct (fileMD5 fs (Inside rel)) as [sum|]; simpl;
          [ destruct (String.eqb (mapGet existing rel) sum); simpl | ]
        | ] ]
  | | ].

Lemma step_changed st e :
  changed (step st e)
  = changed st || bool_decide (is_Some (stores fs existing lastRun e)).
Proof.
  callback_cases e; rewrite ?orb_false_r, ?orb_true_r; done.
Qed.

Lemma step_neededUpdate st e :
  neededUpdate (step st e)
  = neededUpdate st || bool_decide (is_Some (digests fs existing lastRun e)).
Proof.
  callback_cases e; rewrite ?orb_false_r, ?orb_true_r; done.
Qed.

Lemma step_newChecksums st e :
  newChecksums (step st e)
  = match stores fs existing lastRun e with
    | Some sum => <[e.1 := sum]> (newChecksums st)
    | None => newChecksums st
    end.
Proof. callback_cases e; done. Qed.

Lemma step_processedCount st e :
  processedCount (step st e)
  = match stores fs existing lastRun e with
    | Some _ => incr (processedCount st)
    | None => processedCount st
    end.
Proof. callback_cases e; done. Qed.

Lemma step_events st e :
  exists evs,
    events (step st e) = (events st ++ evs)%list
    /\ forall p, OpenToHash p ∈ evs <-> p = Inside e.1 /\ hashes existing lastRun e = true.
Proof.
  destruct e as [rel [info| |]]; unfold hashes, walkFn, Rel; simpl.
  2,3: exists []; rewrite app_nil_r; split; [done|];
       intros p; rewrite elem_of_nil; naive_solver.
  destruct (HasSuffix rel MD5TimestampFile); simpl.
  { exists [LogChecking rel; LogSkipping]. rewrite <- app_assoc.
    split; [done|]. intros p. rewrite !elem_of_cons, elem_of_nil.
    naive_solver. }
  destruct (needsUpdate existing lastRun rel info); simpl.
  2:{ exists [LogChecking rel]. split; [done|].
      intros p. rewrite !elem_of_cons, elem_of_nil. naive_solver. }
  destruct (fileMD5 fs (Inside rel)) as [sum|]; simpl.
  - exists [LogChecking rel; OpenToHash (Inside rel)].
    split.
    + destruct (String.eqb (mapGet existing rel) sum); simpl;
        by rewrite <- app_assoc.
    + intros p. rewrite !elem_of_cons, elem_of_nil. naive_solver.
  - exists [LogChecking rel; OpenToHash (Inside rel);
            LogChecksumFailed (Inside rel)].
    rewrite <- !app_assoc. split; [done|].
    intros p. rewrite !elem_of_cons, elem_of_nil. naive_solver.
Qed.

(** *** The whole walk *)

Lemma walk_changed l st :
  changed (fold_left step l st) = true
  <-> changed st = true \/ exists e, e ∈ l /\ is_Some (stores fs existing lastRun e).
Proof.
  revert st. induction l as [|e l IH]; intros st; simpl.
  - split; [auto|]. intros [?|(e & He & _)]; [done|].
    by apply elem_of_nil in He.
  - rewrite IH, step_changed, orb_true_iff, bool_decide_eq_true.
    split.
    + intros [[?|?]|(e' & ? & ?)]; [by left|right..].
      * exists e. split; [left|done].
      * exists e'. split; [by right|done].
    + intros [?|(e' & [->|?]%elem_of_cons & ?)]; [by left; left| |].
      * by left; right.
      * right. by exists e'.
Qed.

Lemma walk_neededUpdate l st :
  neededUpdate (fold_left step l st) = true
  <-> neededUpdate st = true \/ exists e, e ∈ l /\ is_Some (digests fs existing lastRun e).
Proof.
  revert st. induction l as [|e l IH]; intros st; simpl.
  - split; [auto|]. intros [?|(e & He & _)]; [done|].
    by apply elem_of_nil in He.
  - rewrite IH, step_neededUpdate, orb_true_iff, bool_decide_eq_true.
    split.
    + intros [[?|?]|(e' & ? & ?)]; [by left|right..].
      * exists e. split; [left|done].
      * exists e'. split; [by right|done].
    + intros [?|(e' & [->|?]%elem_of_cons & ?)]; [by left; left| |].
      * by left; right.
      * right. by exists e'.
Qed.

Lemma walk_lookup_other l st k :
  k ∉ l.*1 ->
  newChecksums (fold_left step l st) !! k = newChecksums st !! k.
Proof.
  revert st. induction l as [|e l IH]; intros st Hk; simpl; [done|].
  rewrite fmap_cons, not_elem_of_cons in Hk. destruct Hk as [Hne Hk].
  rewrite IH by done. rewrite step_newChecksums.
  destruct (stores fs existing lastRun e); [|done]. by rewrite lookup_insert_ne.
Qed.

Lemma walk_lookup l st e :
  NoDup l.*1 -> e ∈ l ->
  newChecksums (fold_left step l st) !! e.1
  = match stores fs existing lastRun e with
    | Some sum => Some sum
    | None => newChecksums st !! e.1
    end.
Proof.
  revert st. induction l as [|e' l IH]; intros st Hnd He; simpl.
  { by apply elem_of_nil in He. }
  rewrite fmap_cons in Hnd. apply NoDup_cons in Hnd as [Hnotin Hnd].
  apply elem_of_cons in He as [->|He].
  - rewrite walk_lookup_other by done. rewrite step_newChecksums.
    destruct (stores fs existing lastRun e'); [|done]. by rewrite lookup_insert_eq.
  - rewrite IH by done. rewrite step_newChecksums.
    destruct (stores fs existing lastRun e); [done|].
    destruct (stores fs existing lastRun e'); [|done].
    rewrite lookup_insert_ne; [done|].
    intros Heq. apply Hnotin. rewrite Heq.
    by apply list_elem_of_fmap_2.
Qed.

Lemma walk_dom l st :
  dom (newChecksums st) ⊆ dom (newChecksums (fold_left step l st)).
Proof.
  revert st. induction l as [|e l IH]; intros st; simpl; [done|].
  etrans; [|apply IH]. rewrite step_newChecksums.
  destruct (stores fs existing lastRun e); [|done]. rewrite dom_insert_L. set_solver.
Qed.

Lemma walk_hashed l st p :
  OpenToHash p ∈ events (fold_left step l st)
  <-> OpenToHash p ∈ events st
      \/ exists e, e ∈ l /\ p = Inside e.1 /\ hashes existing lastRun e = true.
Proof.
  revert st. induction l as [|e l IH]; intros st; simpl.
  - split; [auto|]. intros [?|(e & He & _)]; [done|].
    by apply elem_of_nil in He.
  - rewrite IH. destruct (step_events st e) as (evs & -> & Hevs).
    rewrite elem_of_app, Hevs. split.
    + intros [[?|[? ?]]|(e' & ? & ?)]; [by left|right..].
      * exists e. split; [left|done].
      * exists e'. split; [by right|done].
    + intros [?|(e' & [->|?]%elem_of_cons & ?)]; [by left; left| |].
      * by left; right.
      * right. by exists e'.
Qed.

Lemma stores_differs e sum :
  stores fs existing lastRun e = Some sum -> existing !! e.1 <> Some sum.
Proof.
  unfold stores. destruct (digests fs existing lastRun e) as [s|]; [|done].
  destruct (String.eqb (mapGet existing e.1) s) eqn:Heq; [done|].
  intros [= <-] Hex. apply String.eqb_neq in Heq.
  by rewrite (mapGet_Some _ _ _ Hex) in Heq.
Qed.

Lemma walk_differs l st :
  (changed st = true -> differs existing st) ->
  (changed st = false -> newChecksums st = existing) ->
  let st' := fold_left step l st in
  (changed st' = true -> differs existing st')
  /\ (changed st' = false -> newChecksums st' = existing).
Proof.
  revert st. induction l as [|e l IH]; intros st Ht Hf; simpl; [done|].
  apply IH.
  - unfold differs. rewrite step_changed, step_newChecksums.
    destruct (stores fs existing lastRun e) as [sum|] eqn:Hst.
    + intros _. exists e.1, sum. rewrite lookup_insert_eq.
      split; [done|]. by apply stores_differs.
    + rewrite orb_false_r. apply Ht.
  - rewrite step_changed, step_newChecksums.
    destruct (stores fs existing lastRun e) as [sum|] eqn:Hst.
    + rewrite bool_decide_eq_true_2 by eauto. by rewrite orb_true_r.
    + rewrite orb_false_r. apply Hf.
Qed.

End Scan.

(** ** The file system operations *)


Lemma statFS_putFS fs p n : statFS (putFS fs p n) p = Some n.
Proof. destruct p; simpl; apply lookup_insert_eq. Qed.

Lemma statFS_putFS_ne fs p q n :
  p <> q -> statFS (putFS fs p n) q = statFS fs q.
Proof.
  intros Hne. destruct p, q; simpl; try done;
    apply lookup_insert_ne; congruence.
Qed.

Lemma statFS_removeFS_ne fs p q :
  p <> q -> statFS (removeFS fs p) q = statFS fs q.
Proof.
  intros Hne. destruct p, q; simpl; try done;
    apply lookup_delete_ne; congruence.
Qed.

Lemma statFS_removeFS fs p : statFS (removeFS fs p) p = None.
Proof. destruct p; simpl; apply lookup_delete_eq. Qed.

Lemma length_append (s t : string) :
  String.length (s ++ t) = (String.length s + String.length t)%nat.
Proof. induction s as [|c s IH]; simpl; [done|]. by rewrite IH. Qed.

Lemma pathAppend_ne p : pathAppend p ".tmp" <> p.
Proof.
  assert (forall s, s ++ ".tmp" <> s) as Hs.
  { intros s Heq. apply (f_equal String.length) in Heq.
    rewrite length_append in Heq. simpl in Heq. lia. }
  destruct p; simpl; intros [= Heq]; by apply Hs in Heq.
Qed.


Lemma writeChecksums_ok env fs path checksums fs' :
  writeChecksums env fs path checksums = (fs', true) ->
  statFS fs' path
  = Some (Regular (mkFile (now env) (Some (manifestText checksums))))
  /\ statFS fs' (pathAppend path ".tmp") = None
  /\ forall q, q <> path -> q <> pathAppend path ".tmp" ->
               statFS fs' q = statFS fs q.
Proof.
  unfold writeChecksums, manifestText.
  destruct (createFails (faults env)); [done|].
  assert (forall text,
    let fs1 := putFS fs (pathAppend path ".tmp")
                 (Regular (mkFile (now env) (Some text))) in
    (if renameFails (faults env) then (fs1, false)
     else (putFS (removeFS fs1 (pathAppend path ".tmp")) path
             (Regular (mkFile (now env) (Some text))), true)) = (fs', true) ->
    statFS fs' path = Some (Regular (mkFile (now env) (Some text)))
    /\ statFS fs' (pathAppend path ".tmp") = None
    /\ forall q, q <> path -> q <> pathAppend path ".tmp" ->
                 statFS fs' q = statFS fs q) as Hren.
  { intros text fs1. subst fs1. destruct (renameFails (faults env)); [done|].
    intros [= <-]. split; [apply statFS_putFS|]. split.
    - rewrite statFS_putFS_ne by (symmetry; apply pathAppend_ne).
      apply statFS_removeFS.
    - intros q Hq Hq'. rewrite statFS_putFS_ne by done.
      rewrite statFS_removeFS_ne by done.
      by rewrite statFS_putFS_ne. }
  destruct (printfFails (faults env)) as [k|]; [|apply Hren].
  destruct (k <? length (sortedPaths checksums))%nat; [done|apply Hren].
Qed.

Lemma writeChecksums_other env fs path checksums q :
  q <> path -> q <> pathAppend path ".tmp" ->
  statFS (writeChecksums env fs path checksums).1 q = statFS fs q.
Proof.
  intros Hq Hq'. unfold writeChecksums.
  destruct (createFails (faults env)); [done|].
  assert (forall text,
    statFS (if renameFails (faults env)
            then (putFS fs (pathAppend path ".tmp")
                    (Regular (mkFile (now env) (Some text))), false)
            else (putFS (removeFS (putFS fs (pathAppend path ".tmp")
                    (Regular (mkFile (now env) (Some text))))
                    (pathAppend path ".tmp")) path
                    (Regular (mkFile (now env) (Some text))), true)).1 q
    = statFS fs q) as Hren.
  { intros text. destruct (renameFails (faults env)); simpl.
    - by rewrite statFS_putFS_ne.
    - rewrite statFS_putFS_ne by done. rewrite statFS_removeFS_ne by done.
      by rewrite statFS_putFS_ne. }
  destruct (printfFails (faults env)) as [k|]; [|apply Hren].
  destruct (k <? length (sortedPaths checksums))%nat; [|apply Hren].
  simpl. by rewrite statFS_putFS_ne.
Qed.

Lemma updateLastRun_ok env fs path fs' :
  updateLastRun env fs path = (fs', true) ->
  fs' = putFS fs path (Regular (mkFile (now env) (Some ""))).
Proof.
  unfold updateLastRun.
  destruct (mkdirFails (faults env)); [done|].
  destruct (openFails (faults env)); [done|].
  destruct (chtimesFails (faults env)); [done|]. by intros [= <-].
Qed.

Lemma updateLastRun_other env fs path q :
  q <> path -> statFS (updateLastRun env fs path).1 q = statFS fs q.
Proof.
  intros Hq. unfold updateLastRun.
  destruct (mkdirFails (faults env)); [done|].
  destruct (openFails (faults env)); [done|].
  destruct (chtimesFails (faults env)); simpl; by rewrite statFS_putFS_ne.
Qed.

(** ** The two branches of [main] *)

Lemma scan_start fs o :
  scan fs o
  = fold_left
      (walkFn fs (readChecksums fs o)
         (getLastRunTime fs (Inside MD5TimestampFile)))
      (Walk fs)
      (mkScan false false 0 (readChecksums fs o) []).
Proof. unfold scan, startScan. by rewrite copyMap_id. Qed.

Lemma scan_differs fs o :
  (changed (scan fs o) = true
   -> differs (readChecksums fs o) (scan fs o))
  /\ (changed (scan fs o) = false
      -> newChecksums (scan fs o) = readChecksums fs o).
Proof. rewrite scan_start. by apply walk_differs. Qed.

Lemma differs_ne existing st : differs existing st -> newChecksums st <> existing.
Proof. intros (k & sum & Hk & Hne) Heq. by rewrite Heq in Hk. Qed.

Lemma main_keeps env o fs :
  rootExists fs = true ->
  changed (scan fs o) = false ->
  main env o fs
  = let st := scan fs o in
    let out := (events st ++ [LogNoChanges o; LogTotalDuration])%list in
    if neededUpdate st then
      match updateLastRun env fs (Inside MD5TimestampFile) with
      | (fs1, true) =>
          mkOutcome fs1
            (out ++ [LogUpdatedLastRun (Inside MD5TimestampFile)])%list
            Returned
      | (fs1, false) =>
          mkOutcome fs1
            ((out ++ [LogUpdatedLastRun (Inside MD5TimestampFile)])
             ++ [LogFatal])%list Fatal
      end
    else mkOutcome fs out Returned.
Proof.
  intros Hroot Hch. unfold main. rewrite Hroot, Hch. simpl.
  destruct (scan_differs fs o) as [_ Heq]. rewrite (Heq Hch).
  by rewrite (proj2 (mapsEqual_true _ _) eq_refl).
Qed.

Lemma main_writes env o fs :
  rootExists fs = true ->
  changed (scan fs o) = true ->
  main env o fs
  = let st := scan fs o in
    let out := (events st ++ [CreateFile (pathAppend o ".tmp")])%list in
    match writeChecksums env fs o (newChecksums st) with
    | (fs1, false) => mkOutcome fs1 (out ++ [LogFatal])%list Fatal
    | (fs1, true) =>
        match updateLastRun env fs1 (Inside MD5TimestampFile) with
        | (fs2, false) => mkOutcome fs2 (out ++ [LogFatal])%list Fatal
        | (fs2, true) =>
            mkOutcome fs2
              (out ++ [LogUpdatedChecksums;
                       match ReadFile fs2 o with
                       | Some text => PrintContent text
                       | None => LogReadFailed
                       end;
                       LogProcessed (processedCount st);
                       LogEntries (size (newChecksums st))])%list
              Returned
        end
    end.
Proof. intros Hroot Hch. unfold main. by rewrite Hroot, Hch. Qed.

Lemma main_hashed env o fs p :
  OpenToHash p ∈ output (main env o fs) -> OpenToHash p ∈ events (scan fs o).
Proof.
  assert (forall l l', OpenToHash p ∈ (l ++ l')%list ->
            (forall ev, ev ∈ l' -> ev <> OpenToHash p) -> OpenToHash p ∈ l)
    as Hsplit.
  { intros l l' [?|Hin]%elem_of_app Hl'; [done|]. by apply Hl' in Hin. }
  destruct (rootExists fs) eqn:Hroot.
  2:{ unfold main. rewrite Hroot. simpl.
      rewrite elem_of_cons, elem_of_nil. naive_solver. }
  destruct (changed (scan fs o)) eqn:Hch.
  - rewrite main_writes by done. simpl.
    destruct (writeChecksums _ _ _ _) as [fs1 [|]]; simpl.
    + destruct (updateLastRun _ _ _) as [fs2 [|]]; simpl.
      * rewrite <- app_assoc. intros Hin. apply (Hsplit _ _ Hin).
        intros ev. simpl. destruct (ReadFile fs2 o);
          rewrite !elem_of_cons, elem_of_nil; naive_solver.
      * rewrite <- app_assoc. intros Hin. apply (Hsplit _ _ Hin).
        intros ev. simpl. rewrite !elem_of_cons, elem_of_nil. naive_solver.
    + rewrite <- app_assoc. intros Hin. apply (Hsplit _ _ Hin).
      intros ev. simpl. rewrite !elem_of_cons, elem_of_nil. naive_solver.
  - rewrite main_keeps by done. simpl.
    destruct (neededUpdate (scan fs o)); simpl.
    + destruct (updateLastRun _ _ _) as [fs2 [|]]; simpl;
        rewrite <- ?app_assoc; intros Hin; apply (Hsplit _ _ Hin);
        intros ev; simpl; rewrite !elem_of_cons, elem_of_nil; naive_solver.
    + intros Hin. apply (Hsplit _ _ Hin).
      intros ev. simpl. rewrite !elem_of_cons, elem_of_nil. naive_solver.
Qed.

Lemma scan_hashed fs o rel :
  OpenToHash (Inside rel) ∈ events (scan fs o)
  <-> exists info,
        inside fs !! rel = Some (Regular info)
        /\ HasSuffix rel MD5TimestampFile = false
        /\ needsUpdate (readChecksums fs o)
             (getLastRunTime fs (Inside MD5TimestampFile)) rel info = true.
Proof.
  rewrite scan_start, walk_hashed. simpl. rewrite elem_of_nil. split.
  - intros [[]|([rel' node] & Hin & [= <-] & Hh)].
    apply elem_of_Walk in Hin. unfold hashes in Hh. simpl in Hh.
    destruct node as [info| |]; try done.
    apply andb_true_iff in Hh as [Hs Hn]. apply negb_true_iff in Hs.
    by exists info.
  - intros (info & Hin & Hs & Hn). right. exists (rel, Regular info).
    split; [by apply elem_of_Walk|]. split; [done|].
    unfold hashes. simpl. by rewrite Hs, Hn.
Qed.

Lemma scan_lookup fs o rel node :
  inside fs !! rel = Some node ->
  newChecksums (scan fs o) !! rel
  = match stores fs (readChecksums fs o)
            (getLastRunTime fs (Inside MD5TimestampFile)) (rel, node) with
    | Some sum => Some sum
    | None => readChecksums fs o !! rel
    end.
Proof.
  intros Hin. rewrite scan_start.
  pose proof (walk_lookup fs (readChecksums fs o)
    (getLastRunTime fs (Inside MD5TimestampFile)) (Walk fs)
    (mkScan false false 0 (readChecksums fs o) []) (rel, node)) as Hl.
  simpl in Hl. apply Hl; [apply NoDup_Walk|by apply elem_of_Walk].
Qed.

Lemma scan_lookup_absent fs o rel :
  inside fs !! rel = None ->
  newChecksums (scan fs o) !! rel = readChecksums fs o !! rel.
Proof.
  intros Hin. rewrite scan_start. rewrite walk_lookup_other; [done|].
  intros ([rel' node] & -> & Hin')%list_elem_of_fmap.
  apply elem_of_Walk in Hin'. simpl in Hin. congruence.
Qed.

(** ** The saved manifest *)

Lemma elem_of_sortedPaths (m : gmap string string) k :
  k ∈ sortedPaths m <-> is_Some (m !! k).
Proof.
  unfold sortedPaths, sortStrings. rewrite merge_sort_Permutation.
  rewrite list_elem_of_fmap. split.
  - intros ([k' v] & -> & Hin). apply elem_of_map_to_list in Hin. eauto.
  - intros [v Hv]. exists (k, v). split; [done|].
    by apply elem_of_map_to_list.
Qed.

Lemma NoDup_sortedPaths (m : gmap string string) : NoDup (sortedPaths m).
Proof.
  unfold sortedPaths, sortStrings. rewrite merge_sort_Permutation.
  apply NoDup_fst_map_to_list.
Qed.

Lemma le_ne_ltb (a b : string) :
  String.le a b -> a <> b -> String.ltb a b = true.
Proof.
  unfold String.le, String.leb, String.ltb. intros Hle Hne.
  destruct (String.compare a b) eqn:Hc; [|done..].
  by apply String.compare_eq_iff in Hc.
Qed.

Lemma sortedPaths_ascending (m : gmap string string) :
  StronglySorted (fun a b => String.ltb a b = true) (sortedPaths m).
Proof.
  pose proof (NoDup_sortedPaths m) as Hnd.
  assert (StronglySorted String.le (sortedPaths m)) as Hs.
  { unfold sortedPaths, sortStrings. apply StronglySorted_merge_sort; apply _. }
  induction Hs as [|x l Hs IH Hall]; [constructor|].
  apply NoDup_cons in Hnd as [Hx Hnd]. constructor; [by apply IH|].
  rewrite Forall_forall in Hall |- *. intros y Hy.
  apply le_ne_ltb; [by apply Hall|]. intros ->. done.
Qed.

(** ** The end of [main] *)

Lemma step_created fs existing lastRun st e p :
  CreateFile p ∈ events (walkFn fs existing lastRun st e) ->
  CreateFile p ∈ events st.
Proof.
  destruct e as [rel [info| |]]; unfold walkFn, Rel, emit; simpl; try done.
  repeat case_match; simpl;
    rewrite ?elem_of_app, ?elem_of_cons, ?elem_of_nil; naive_solver.
Qed.

Lemma scan_created fs o p : CreateFile p ∉ events (scan fs o).
Proof.
  unfold scan.
  assert (forall l st, CreateFile p ∈ events
            (fold_left (walkFn fs (readChecksums fs o)
               (getLastRunTime fs (Inside MD5TimestampFile))) l st)
          -> CreateFile p ∈ events st) as Hfold.
  { induction l as [|e l IH]; intros st; simpl; [done|].
    intros Hin. by apply IH, step_created in Hin. }
  intros Hin. apply Hfold in Hin. simpl in Hin. by apply elem_of_nil in Hin.
Qed.

(** ** Two runs in succession *)

Lemma rootExists_putFS fs p n : rootExists (putFS fs p n) = rootExists fs.
Proof. by destruct p. Qed.

Lemma rootExists_removeFS fs p : rootExists (removeFS fs p) = rootExists fs.
Proof. by destruct p. Qed.

Lemma rootExists_updateLastRun env fs p :
  rootExists (updateLastRun env fs p).1 = rootExists fs.
Proof.
  unfold updateLastRun. repeat case_match; simpl;
    by rewrite ?rootExists_putFS.
Qed.

Lemma rootExists_writeChecksums env fs p m :
  rootExists (writeChecksums env fs p m).1 = rootExists fs.
Proof.
  unfold writeChecksums. repeat case_match; simpl;
    by rewrite ?rootExists_putFS, ?rootExists_removeFS, ?rootExists_putFS.
Qed.

Lemma substring_all s : substring 0 (String.length s) s = s.
Proof. induction s as [|c s IH]; simpl; [done|]. by rewrite IH. Qed.

Lemma HasSuffix_refl s : HasSuffix s s = true.
Proof.
  unfold HasSuffix. rewrite Nat.leb_refl, Nat.sub_diag. simpl.
  apply String.eqb_eq, substring_all.
Qed.

(** What a run that returns leaves for the next one, when the manifest
    lies outside the scanned tree. *)
Lemma returned_run_leaves env abs fs :
  exit (main env (Outside abs) fs) = Returned ->
  getLastRunTime fs (Inside MD5TimestampFile) <= now env ->
  parseChecksums (manifestText (newChecksums (scan fs (Outside abs))))
  = newChecksums (scan fs (Outside abs)) ->
  let fs1 := finalFS (main env (Outside abs) fs) in
  rootExists fs1 = true
  /\ readChecksums fs1 (Outside abs) = newChecksums (scan fs (Outside abs))
  /\ (forall rel, rel <> MD5TimestampFile ->
                  inside fs1 !! rel = inside fs !! rel)
  /\ getLastRunTime fs (Inside MD5TimestampFile)
     <= getLastRunTime fs1 (Inside MD5TimestampFile).
Proof.
  intros Hexit Hclock Hround fs1. subst fs1.
  destruct (rootExists fs) eqn:Hroot.
  2:{ unfold main in Hexit. by rewrite Hroot in Hexit. }
  assert (forall fs0 : FS,
    rootExists fs0 = true ->
    (forall rel, statFS fs0 (Inside rel) = statFS fs (Inside rel)) ->
    readChecksums fs0 (Outside abs) = newChecksums (scan fs (Outside abs)) ->
    let fs1 := putFS fs0 (Inside MD5TimestampFile)
                 (Regular (mkFile (now env) (Some ""))) in
    rootExists fs1 = true
    /\ readChecksums fs1 (Outside abs) = newChecksums (scan fs (Outside abs))
    /\ (forall rel, rel <> MD5TimestampFile ->
                    inside fs1 !! rel = inside fs !! rel)
    /\ getLastRunTime fs (Inside MD5TimestampFile)
       <= getLastRunTime fs1 (Inside MD5TimestampFile)) as Hmark.
  { intros fs0 Hr Hins Hread fs1. subst fs1. simpl.
    split; [done|]. split; [done|]. split.
    - intros rel Hrel. rewrite lookup_insert_ne by done. apply (Hins rel).
    - unfold getLastRunTime at 2. simpl. by rewrite lookup_insert_eq. }
  destruct (changed (scan fs (Outside abs))) eqn:Hch.
  - rewrite main_writes in Hexit |- * by done. simpl in Hexit |- *.
    pose proof (rootExists_writeChecksums env fs (Outside abs)
                  (newChecksums (scan fs (Outside abs)))) as Hr.
    pose proof (fun rel => writeChecksums_other env fs (Outside abs)
                  (newChecksums (scan fs (Outside abs))) (Inside rel))
      as Hins.
    destruct (writeChecksums _ _ _ _) as [fsw [|]] eqn:Hw; [|done].
    destruct (updateLastRun _ _ _) as [fs2 [|]] eqn:Hu; [|done].
    simpl in Hr, Hins |- *. apply updateLastRun_ok in Hu as ->.
    apply Hmark.
    + by rewrite Hr.
    + intros rel. by apply Hins.
    + apply writeChecksums_ok in Hw as (Hfile & _ & _).
      unfold readChecksums, ReadFile. rewrite Hfile. simpl. apply Hround.
  - destruct (scan_differs fs (Outside abs)) as [_ Hsame].
    rewrite main_keeps in Hexit |- * by done. simpl in Hexit |- *.
    destruct (neededUpdate (scan fs (Outside abs))).
    + destruct (updateLastRun _ _ _) as [fs2 [|]] eqn:Hu; [|done].
      simpl. apply updateLastRun_ok in Hu as ->.
      apply Hmark; [done..|]. by rewrite Hsame.
    + simpl. split; [done|]. split; [by rewrite Hsame|]. split; [done|lia].
Qed.

(** With the manifest of the first run as the existing one and the marker
    not moved back, no entry of the walk stores a digest. *)
Lemma settled_entry_stores_nothing fs abs fs1 rel node :
  (forall rel, rel <> MD5TimestampFile ->
               inside fs1 !! rel = inside fs !! rel) ->
  getLastRunTime fs (Inside MD5TimestampFile)
  <= getLastRunTime fs1 (Inside MD5TimestampFile) ->
  inside fs1 !! rel = Some node ->
  stores fs1 (newChecksums (scan fs (Outside abs)))
    (getLastRunTime fs1 (Inside MD5TimestampFile)) (rel, node) = None.
Proof.
  intros Hins Hclock Hin.
  unfold stores, digests, hashes. simpl.
  destruct node as [info| |]; try done.
  destruct (HasSuffix rel MD5TimestampFile) eqn:Hsuffix; [done|]. simpl.
  assert (rel <> MD5TimestampFile) as Hrel.
  { intros ->. by rewrite HasSuffix_refl in Hsuffix. }
  rewrite (Hins rel Hrel) in Hin.
  destruct (needsUpdate _ _ rel info) eqn:Hstale2; [|done].
  assert (fileMD5 fs1 (Inside rel) = fileMD5 fs (Inside rel)) as ->.
  { unfold fileMD5, ReadFile. simpl. by rewrite (Hins rel Hrel). }
  destruct (fileMD5 fs (Inside rel)) as [sum|] eqn:Hsum; [|done].
  enough (mapGet (newChecksums (scan fs (Outside abs))) rel = sum) as ->.
  { by rewrite String.eqb_refl. }
  pose proof (scan_lookup fs (Outside abs) rel _ Hin) as Hlook.
  unfold stores, digests, hashes in Hlook. simpl in Hlook.
  rewrite Hsuffix in Hlook. simpl in Hlook.
  destruct (needsUpdate (readChecksums fs (Outside abs))
              (getLastRunTime fs (Inside MD5TimestampFile)) rel info)
    eqn:Hstale1.
  - simpl in Hlook. rewrite Hsum in Hlook.
    destruct (String.eqb (mapGet (readChecksums fs (Outside abs)) rel) sum)
      eqn:Heq; simpl in Hlook.
    + pose proof (proj1 (String.eqb_eq _ _) Heq) as <-.
      unfold mapGet. by rewrite Hlook.
    + by apply mapGet_Some.
  - simpl in Hlook. exfalso. unfold needsUpdate in Hstale1, Hstale2.
    apply orb_false_iff in Hstale1 as [Hafter Hknown].
    apply negb_false_iff, fileExistsInChecksums_true in Hknown.
    apply orb_true_iff in Hstale2 as [Hafter2|Hnew].
    + unfold After in *. apply Z.ltb_ge in Hafter.
      apply Z.ltb_lt in Hafter2. lia.
    + apply negb_true_iff in Hnew.
      unfold fileExistsInChecksums in Hnew. rewrite Hlook in Hnew.
      destruct Hknown as [v Hv]. by rewrite Hv in Hnew.
Qed.


(** ** Strings *)

Lemma append_cons (c : ascii) (a b : string) :
  String c a ++ b = String c (a ++ b).
Proof. reflexivity. Qed.

Lemma append_nil_l (a : string) : "" ++ a = a.
Proof. reflexivity. Qed.

Lemma append_assoc (a b c : string) : (a ++ b) ++ c = a ++ (b ++ c).
Proof.
  induction a as [|x a IH]; [done|]. by rewrite !append_cons, IH.
Qed.

Lemma append_nil_r (a : string) : a ++ "" = a.
Proof. induction a as [|x a IH]; [done|]. by rewrite append_cons, IH. Qed.

Lemma rev_app_spec (s acc : string) :
  String.rev_app s acc = String.rev s ++ acc.
Proof.
  unfold String.rev. revert acc.
  induction s as [|c s IH]; intros acc; simpl; [done|].
  rewrite (IH (String c acc)), (IH (String c "")). by rewrite append_assoc.
Qed.

Lemma rev_cons (c : ascii) (s : string) :
  String.rev (String c s) = String.rev s ++ String c "".
Proof. unfold String.rev at 1. simpl. apply rev_app_spec. Qed.

Lemma rev_append (a b : string) :
  String.rev (a ++ b) = String.rev b ++ String.rev a.
Proof.
  induction a as [|c a IH].
  - by rewrite append_nil_l, append_nil_r.
  - by rewrite append_cons, !rev_cons, IH, append_assoc.
Qed.

Lemma rev_involutive (s : string) : String.rev (String.rev s) = s.
Proof.
  induction s as [|c s IH]; [done|].
  by rewrite rev_cons, rev_append, IH.
Qed.

Lemma length_rev (s : string) : String.length (String.rev s) = String.length s.
Proof.
  induction s as [|c s IH]; [done|].
  rewrite rev_cons, length_append, IH. simpl. lia.
Qed.

Lemma noLF_append (a b : string) : noLF (a ++ b) = noLF a && noLF b.
Proof.
  induction a as [|c a IH]; [done|].
  rewrite append_cons. simpl. by rewrite IH, andb_assoc.
Qed.

Lemma noLF_rev (s : string) : noLF (String.rev s) = noLF s.
Proof.
  induction s as [|c s IH]; [done|].
  rewrite rev_cons, noLF_append, IH. simpl.
  rewrite andb_true_r. apply andb_comm.
Qed.

Lemma string_length_ind (P : string -> Prop) :
  (forall s, (forall t, (String.length t < String.length s)%nat -> P t) -> P s) ->
  forall s, P s.
Proof.
  intros Hstep s.
  induction s as [s IH] using (induction_ltof1 _ String.length).
  apply Hstep. intros t Ht. by apply IH.
Qed.

(** ** [strings.TrimSpace] *)

Lemma trimFront_clean back s : headSpace back s = false -> trimFront back s = s.
Proof.
  destruct s as [|c [|d [|e r]]]; simpl; try done.
  - by intros ->%orb_false_elim%proj1.
  - intros [-> [-> _]%orb_false_elim]%orb_false_elim. done.
  - intros [-> [-> ->]%orb_false_elim]%orb_false_elim. done.
Qed.

Lemma trimFront_suffix back s : exists p, s = p ++ trimFront back s.
Proof.
  induction s as [s IH] using string_length_ind.
  destruct s as [|c r1]; [by exists ""|]. simpl.
  destruct (asciiSpace c).
  { destruct (IH r1) as [p Hp]; [simpl; lia|].
    exists (String c p). by rewrite append_cons, <- Hp. }
  destruct r1 as [|d r2]; [by exists ""|].
  destruct (if back then space2 d c else space2 c d).
  { destruct (IH r2) as [p Hp]; [simpl; lia|].
    exists (String c (String d p)). by rewrite !append_cons, <- Hp. }
  destruct r2 as [|e r3]; [by exists ""|].
  destruct (if back then space3 e d c else space3 c d e); [|by exists ""].
  destruct (IH r3) as [p Hp]; [simpl; lia|].
  exists (String c (String d (String e p))). by rewrite !append_cons, <- Hp.
Qed.

Lemma trimFront_head back s : headSpace back (trimFront back s) = false.
Proof.
  induction s as [s IH] using string_length_ind.
  destruct s as [|c r1]; [done|]. simpl.
  destruct (asciiSpace c) eqn:Hc; [apply IH; simpl; lia|].
  destruct r1 as [|d r2]; [by simpl; rewrite Hc|].
  destruct (if back then space2 d c else space2 c d) eqn:Hd;
    [apply IH; simpl; lia|].
  destruct r2 as [|e r3]; [by simpl; rewrite Hc, Hd|].
  destruct (if back then space3 e d c else space3 c d e) eqn:He;
    [apply IH; simpl; lia|].
  simpl. by rewrite Hc, Hd, He.
Qed.

Lemma headSpace_prefix back p q :
  headSpace back (p ++ q) = false -> headSpace back p = false.
Proof.
  destruct p as [|c [|d [|e r]]]; rewrite ?append_cons, ?append_nil_l;
    simpl; try done.
  - intros [-> _]%orb_false_elim. done.
  - intros [-> [-> _]%orb_false_elim]%orb_false_elim. done.
Qed.

Lemma TrimSpace_inside t : exists a b, t = a ++ TrimSpace t ++ b.
Proof.
  unfold TrimSpace.
  destruct (trimFront_suffix false t) as [a Ha].
  destruct (trimFront_suffix true (String.rev (trimFront false t)))
    as [p Hp].
  exists a, (String.rev p).
  rewrite <- rev_append, <- Hp, rev_involutive. done.
Qed.

Lemma TrimSpace_head t : headSpace false (TrimSpace t) = false.
Proof.
  unfold TrimSpace.
  destruct (trimFront_suffix true (String.rev (trimFront false t)))
    as [p Hp].
  apply (headSpace_prefix false _ (String.rev p)).
  rewrite <- rev_append, <- Hp, rev_involutive. apply trimFront_head.
Qed.

Lemma TrimSpace_tail t : headSpace true (String.rev (TrimSpace t)) = false.
Proof. unfold TrimSpace. rewrite rev_involutive. apply trimFront_head. Qed.

Lemma TrimSpace_clean x :
  headSpace false x = false -> headSpace true (String.rev x) = false ->
  TrimSpace x = x.
Proof.
  intros Hh Ht. unfold TrimSpace.
  rewrite (trimFront_clean false x Hh), (trimFront_clean true _ Ht).
  apply rev_involutive.
Qed.

Lemma dropCR_clean x : headSpace true (String.rev x) = false -> dropCR x = x.
Proof.
  unfold dropCR. destruct (String.rev x) as [|c r]; [done|].
  intros Hh. simpl in Hh. apply orb_false_elim in Hh as [Hc _].
  destruct c as [[] [] [] [] [] [] [] []]; try done.
Qed.

(** ** [strings.SplitN] *)

Lemma substring_0_0 s : substring 0 0 s = "".
Proof. by destruct s. Qed.

Lemma prefix_split a s :
  String.prefix a s = true ->
  s = a ++ substring (String.length a) (String.length s - String.length a) s.
Proof.
  revert s. induction a as [|c a IH]; intros s; simpl.
  - intros _. rewrite Nat.sub_0_r. by rewrite substring_all.
  - destruct s as [|c' s]; [done|]. simpl.
    destruct (ascii_dec c c') as [<-|]; [|done].
    intros Hp. rewrite append_cons. f_equal. by apply IH.
Qed.

Lemma Index_split s sep i :
  Index s sep = Some i ->
  s = substring 0 i s ++ sep
      ++ substring (i + String.length sep)
           (String.length s - (i + String.length sep)) s.
Proof.
  revert i. induction s as [|c s IH]; intros i.
  - destruct sep; [|done]. by intros [= <-].
  - unfold Index; fold Index.
    destruct (String.prefix sep (String c s)) eqn:Hp.
    + intros [= <-]. rewrite append_nil_l. by apply prefix_split in Hp.
    + destruct (Index s sep) as [j|] eqn:Hj; [|done].
      intros [= <-]. simpl. rewrite append_cons. f_equal. by apply IH.
Qed.

Lemma substring_append_l v r : substring 0 (String.length v) (v ++ r) = v.
Proof.
  induction v as [|c v IH].
  - apply substring_0_0.
  - rewrite append_cons. simpl. by rewrite IH.
Qed.

Lemma substring_append_r v r n m :
  substring (String.length v + n) m (v ++ r) = substring n m r.
Proof. induction v as [|c v IH]; [done|]. by rewrite append_cons. Qed.

Lemma SplitN2_join x sum path :
  SplitN2 x "  " = [sum; path] -> x = sum ++ "  " ++ path.
Proof.
  unfold SplitN2. destruct (Index x "  ") as [i|] eqn:Hi; [|done].
  intros [= <- <-]. by apply Index_split in Hi.
Qed.

(** ** The digits of a digest *)

Lemma hexdigit_isHex n : isHex (hexdigit n) = true.
Proof.
  unfold hexdigit. generalize (Z.to_nat n). intros k.
  do 17 (destruct k as [|k]; [reflexivity|]). reflexivity.
Qed.

Lemma hexOnly_EncodeToString bs : hexOnly (EncodeToString bs) = true.
Proof.
  induction bs as [|b bs IH]; [done|]. simpl.
  by rewrite !hexdigit_isHex, IH.
Qed.

Lemma isHex_plain c :
  isHex c = true ->
  asciiSpace c = false /\ c <> " "%char /\ Ascii.eqb c "010" = false
  /\ (forall d, space2 c d = false) /\ (forall d e, space3 c d e = false).
Proof.
  destruct c as [[] [] [] [] [] [] [] []]; try discriminate;
    intros _; repeat split; done.
Qed.

Lemma hexOnly_noLF v : hexOnly v = true -> noLF v = true.
Proof.
  induction v as [|c v IH]; [done|]. simpl.
  intros [Hc Hv]%andb_true_iff.
  apply isHex_plain in Hc as (_ & _ & -> & _). simpl. by apply IH.
Qed.

Lemma hexOnly_head v r :
  hexOnly v = true -> v <> "" -> headSpace false (v ++ r) = false.
Proof.
  destruct v as [|c v]; [done|]. simpl.
  intros [Hc _]%andb_true_iff _.
  apply isHex_plain in Hc as (Hs & _ & _ & H2 & H3).
  rewrite ?append_cons. simpl. rewrite Hs. simpl.
  destruct (v ++ r) as [|d [|e t]]; [done|..]; by rewrite ?H2, ?H3.
Qed.

Lemma Index_cons c r sep :
  Index (String c r) sep
  = if String.prefix sep (String c r) then Some O else S <$> Index r sep.
Proof. reflexivity. Qed.

Lemma hexOnly_Index v r :
  hexOnly v = true -> Index (v ++ "  " ++ r) "  " = Some (String.length v).
Proof.
  induction v as [|c v IH]; [by destruct r|].
  intros [Hc Hv]%andb_true_iff.
  apply isHex_plain in Hc as (_ & Hne & _).
  rewrite append_cons, Index_cons, (IH Hv).
  assert (String.prefix "  " (String c (v ++ "  " ++ r)) = false) as ->; [|done].
  cbn [String.prefix].
  destruct (ascii_dec " " c) as [Heq|_]; [by destruct Hne|done].
Qed.

Lemma hexOnly_SplitN2 v r :
  hexOnly v = true -> SplitN2 (v ++ "  " ++ r) "  " = [v; r].
Proof.
  intros Hv. unfold SplitN2. rewrite (hexOnly_Index v r Hv).
  rewrite substring_append_l. f_equal. f_equal.
  rewrite substring_append_r.
  change (substring 2 ?m ("  " ++ r)) with (substring 0 m r).
  rewrite !length_append. simpl.
  replace (String.length v + S (S (String.length r))
           - (String.length v + 2))%nat with (String.length r) by lia.
  apply substring_all.
Qed.

Lemma md5hex_hexOnly s : hexOnly (md5hex s) = true.
Proof. apply hexOnly_EncodeToString. Qed.

Lemma md5hex_length s : String.length (md5hex s) = 32%nat.
Proof. reflexivity. Qed.

(** ** [bufio.Scanner] on a manifest *)

Lemma splitLines_line x rest :
  noLF x = true -> splitLines (x ++ LF ++ rest) = x :: splitLines rest.
Proof.
  induction x as [|c x IH]; [done|]. simpl.
  intros [Hc Hx]%andb_true_iff. apply negb_true_iff in Hc.
  rewrite ?append_cons. simpl. by rewrite Hc, (IH Hx).
Qed.

Lemma splitLines_noLF text l : l ∈ splitLines text -> noLF l = true.
Proof.
  revert l. induction text as [|c text IH]; intros l; simpl.
  { by intros ?%elem_of_nil. }
  destruct (Ascii.eqb c "010") eqn:Hc.
  - intros [->|Hl]%elem_of_cons; [done|by apply IH].
  - destruct (splitLines text) as [|l0 ls].
    + intros ->%list_elem_of_singleton. simpl. by rewrite Hc.
    + intros [->|Hl]%elem_of_cons.
      * simpl. rewrite Hc. simpl. apply IH. left.
      * apply IH. by right.
Qed.

Lemma elem_of_whilst {A} (p : A -> bool) l x :
  x ∈ whilst p l -> x ∈ l /\ p x = true.
Proof.
  induction l as [|y l IH]; simpl; [by intros ?%elem_of_nil|].
  destruct (p y) eqn:Hy; [|by intros ?%elem_of_nil].
  intros [->|Hx]%elem_of_cons; [split; [left|done]|].
  destruct (IH Hx). split; [by right|done].
Qed.

Lemma whilst_all {A} (p : A -> bool) l :
  (forall x, x ∈ l -> p x = true) -> whilst p l = l.
Proof.
  induction l as [|y l IH]; intros Hall; simpl; [done|].
  rewrite (Hall y) by left. f_equal. apply IH. intros x Hx.
  apply Hall. by right.
Qed.

Lemma dropCR_prefix s : exists b, s = dropCR s ++ b.
Proof.
  unfold dropCR. destruct (String.rev s) as [|c r] eqn:Hr.
  { exists "". by rewrite append_nil_r. }
  destruct (Ascii.eqb c "013") eqn:Hc.
  - apply Ascii.eqb_eq in Hc as ->. exists (String "013" "").
    by rewrite <- rev_cons, <- Hr, rev_involutive.
  - exists "". rewrite append_nil_r.
    destruct c as [[] [] [] [] [] [] [] []]; done.
Qed.

Lemma concat_cons a l : String.concat "" (a :: l) = a ++ String.concat "" l.
Proof. destruct l; simpl; [by rewrite append_nil_r|done]. Qed.

Lemma canonical_spec x :
  canonical x = true
  <-> headSpace false x = false
      /\ headSpace true (String.rev x) = false
      /\ noLF x = true /\ fitsBuffer x = true.
Proof.
  unfold canonical. rewrite !andb_true_iff, !negb_true_iff. tauto.
Qed.

Lemma scanLines_lines lines :
  (forall x, x ∈ lines -> canonical x = true) ->
  scanLines (String.concat "" (map (fun x => x ++ LF) lines)) = lines.
Proof.
  intros Hall. unfold scanLines.
  assert (splitLines (String.concat "" (map (fun x => x ++ LF) lines))
          = lines) as ->.
  { induction lines as [|x lines IH]; [done|].
    cbn [map]. rewrite concat_cons, append_assoc.
    rewrite splitLines_line.
    - f_equal. apply IH. intros y Hy. apply Hall. by right.
    - apply canonical_spec, Hall. left. }
  rewrite whilst_all by (intros x Hx; by apply canonical_spec, Hall).
  induction lines as [|x lines IH]; [done|]. simpl. f_equal.
  - apply dropCR_clean, canonical_spec, Hall. left.
  - apply IH. intros y Hy. apply Hall. by right.
Qed.

(** ** Entries that are read back *)

Lemma readLine_readable m sum path :
  readable sum path -> readLine m (sum ++ "  " ++ path) = <[path := sum]> m.
Proof.
  intros [Hc Hs]. apply canonical_spec in Hc as (Hh & Ht & _).
  unfold readLine. by rewrite (TrimSpace_clean _ Hh Ht), Hs.
Qed.

Lemma fitsBuffer_shorter a x b :
  fitsBuffer (a ++ x ++ b) = true -> fitsBuffer x = true.
Proof.
  unfold fitsBuffer. rewrite !length_append. intros H%N.ltb_lt.
  apply N.ltb_lt. lia.
Qed.

Lemma readLine_keeps_readable m t :
  noLF t = true -> fitsBuffer t = true ->
  (forall k v, m !! k = Some v -> readable v k) ->
  forall k v, readLine m t !! k = Some v -> readable v k.
Proof.
  intros Hlf Hfit Hm k v. unfold readLine.
  destruct (SplitN2 (TrimSpace t) "  ") as [|sum [|path [|? ?]]] eqn:Hs;
    try apply Hm.
  destruct (decide (path = k)) as [->|Hne].
  2:{ rewrite lookup_insert_ne by done. apply Hm. }
  rewrite lookup_insert_eq. intros [= ->].
  pose proof (SplitN2_join _ _ _ Hs) as Hjoin.
  destruct (TrimSpace_inside t) as (a & b & Hab).
  unfold readable. rewrite <- Hjoin. split; [|done].
  apply canonical_spec. split; [apply TrimSpace_head|].
  split; [apply TrimSpace_tail|].
  rewrite Hab in Hlf, Hfit. split.
  - rewrite !noLF_append in Hlf.
    by apply andb_true_iff in Hlf as [_ [? _]%andb_true_iff].
  - by apply fitsBuffer_shorter in Hfit.
Qed.

Lemma parseChecksums_readable text k v :
  parseChecksums text !! k = Some v -> readable v k.
Proof.
  unfold parseChecksums.
  assert (forall t, t ∈ scanLines text -> noLF t = true /\ fitsBuffer t = true)
    as Hlines.
  { intros t. unfold scanLines.
    intros (raw & -> & Hraw)%list_elem_of_fmap.
    apply elem_of_whilst in Hraw as [Hraw Hfit].
    apply splitLines_noLF in Hraw.
    destruct (dropCR_prefix raw) as [b Hb].
    rewrite Hb in Hraw, Hfit. split.
    - rewrite noLF_append in Hraw. by apply andb_true_iff in Hraw as [? _].
    - apply (fitsBuffer_shorter "" _ b). by rewrite append_nil_l. }
  revert k v.
  assert (forall k v, (∅ : gmap string string) !! k = Some v -> readable v k)
    as Hm by done.
  revert Hm. generalize (∅ : gmap string string).
  induction (scanLines text) as [|t lines IH]; intros m Hm; simpl; [done|].
  apply IH.
  - intros t' Ht'. apply Hlines. by right.
  - apply readLine_keeps_readable; [apply Hlines; left..|done].
Qed.

Lemma headSpace_back_spaces p q :
  headSpace true p = false -> p <> "" ->
  headSpace true (p ++ "  " ++ q) = false.
Proof.
  destruct p as [|c [|d [|e r]]]; [done|..]; intros Hp _;
    rewrite ?append_cons, ?append_nil_l; simpl in *.
  - apply orb_false_elim in Hp as [-> _]. done.
  - apply orb_false_elim in Hp as [-> [-> _]%orb_false_elim]. done.
  - done.
Qed.

Lemma stored_readable bytes rel :
  plainPath rel = true -> readable (md5hex bytes) rel.
Proof.
  unfold plainPath. rewrite !andb_true_iff, !negb_true_iff.
  intros [[[Hne Hlf] Htail] Hlen].
  apply String.eqb_neq in Hne. apply N.ltb_lt in Hlen.
  pose proof (md5hex_hexOnly bytes) as Hhex.
  split; [|by apply hexOnly_SplitN2].
  apply canonical_spec. split; [|split; [|split]].
  - apply hexOnly_head; [done|apply md5hex_nonempty].
  - rewrite rev_append, (rev_append "  " rel).
    change (String.rev "  ") with "  ". rewrite append_assoc.
    apply headSpace_back_spaces; [done|].
    intros Hrev. apply Hne. by rewrite <- (rev_involutive rel), Hrev.
  - rewrite !noLF_append, Hlf, (hexOnly_noLF _ Hhex). done.
  - unfold fitsBuffer. rewrite !length_append, md5hex_length.
    apply N.ltb_lt. unfold MaxScanTokenSize in *. simpl String.length. lia.
Qed.

(** ** Saving and loading *)

Lemma fold_insert_lookup (M : gmap string string) (paths : list string)
    (acc : gmap string string) (k : string) :
  fold_left (fun (acc : gmap string string) p => <[p := mapGet M p]> acc)
    paths acc !! k
  = if decide (k ∈ paths) then Some (mapGet M k) else acc !! k.
Proof.
  revert acc. induction paths as [|p paths IH]; intros acc;
    cbn [fold_left].
  { destruct (decide (k ∈ [])) as [Hin|_]; [|done].
    by apply elem_of_nil in Hin. }
  rewrite IH.
  destruct (decide (k ∈ p :: paths)) as [Hin|Hnin];
    destruct (decide (k ∈ paths)) as [Hin'|Hnin']; try done.
  - apply elem_of_cons in Hin as [->|?]; [|done]. apply lookup_insert_eq.
  - destruct Hnin. by right.
  - apply lookup_insert_ne. intros ->. apply Hnin. left.
Qed.

(** A manifest all of whose entries are readable is loaded back from its
    text as it was. *)
Lemma parse_manifestText (m : gmap string string) :
  (forall k v, m !! k = Some v -> readable v k) ->
  parseChecksums (manifestText m) = m.
Proof.
  intros Hm. unfold parseChecksums, manifestText, printLines.
  assert (map (formatLine m) (sortedPaths m)
          = map (fun x => x ++ LF)
              (map (fun p => mapGet m p ++ "  " ++ p) (sortedPaths m))) as ->.
  { rewrite map_map. apply map_ext. intros p. unfold formatLine, LF.
    by rewrite !append_assoc. }
  assert (forall p, p ∈ sortedPaths m -> readable (mapGet m p) p) as Hread.
  { intros p [v Hv]%elem_of_sortedPaths.
    rewrite (mapGet_Some _ _ _ Hv). by apply Hm. }
  rewrite scanLines_lines.
  2:{ intros x Hx. apply list_elem_of_In, in_map_iff in Hx as (p & <- & Hp).
      apply list_elem_of_In in Hp. by apply Hread. }
  assert (forall acc,
    fold_left readLine
      (map (fun p => mapGet m p ++ "  " ++ p) (sortedPaths m)) acc
    = fold_left (fun (acc : gmap string string) p => <[p := mapGet m p]> acc)
        (sortedPaths m) acc)
    as ->.
  { induction (sortedPaths m) as [|p paths IH]; intros acc; [done|].
    simpl. rewrite readLine_readable by (apply Hread; left).
    apply IH. intros q Hq. apply Hread. by right. }
  apply map_eq. intros k. rewrite fold_insert_lookup.
  destruct (decide (k ∈ sortedPaths m)) as [Hin|Hnin].
  - apply elem_of_sortedPaths in Hin as [v Hv].
    by rewrite (mapGet_Some _ _ _ Hv).
  - rewrite lookup_empty. rewrite elem_of_sortedPaths in Hnin.
    destruct (m !! k); [|done]. destruct Hnin. eauto.
Qed.

(** The manifest a scan holds is readable when the regular files the
    walk does not skip have plain paths. *)
Lemma scan_readable fs o :
  (forall rel info, inside fs !! rel = Some (Regular info) ->
                    HasSuffix rel MD5TimestampFile = false ->
                    plainPath rel = true) ->
  forall k v, newChecksums (scan fs o) !! k = Some v -> readable v k.
Proof.
  intros Hplain k v.
  assert (readChecksums fs o !! k = Some v -> readable v k) as Hold.
  { unfold readChecksums. destruct (ReadFile fs o); [|done].
    apply parseChecksums_readable. }
  destruct (inside fs !! k) as [node|] eqn:Hin.
  2:{ by rewrite scan_lookup_absent. }
  rewrite (scan_lookup fs o k node Hin).
  destruct (stores _ _ _ _) as [sum|] eqn:Hst; [|done].
  intros [= <-]. unfold stores, digests, hashes in Hst. simpl in Hst.
  destruct node as [info| |]; try done.
  destruct (HasSuffix k MD5TimestampFile) eqn:Hsuffix; [done|].
  destruct (needsUpdate _ _ k info); [|done]. simpl in Hst.
  unfold fileMD5 in Hst. destruct (ReadFile fs (Inside k)); [|done].
  destruct (String.eqb _ _); [done|].
  injection Hst as <-. apply stored_readable. by apply (Hplain k info).
Qed.

(** ** What [main] does after the walk *)

Lemma scan_changed_iff fs o :
  changed (scan fs o) = true
  <-> newChecksums (scan fs o) <> readChecksums fs o.
Proof.
  destruct (scan_differs fs o) as [Ht Hf]. split.
  - intros Hch. by apply differs_ne, Ht.
  - intros Hne. destruct (changed (scan fs o)); [done|].
    by destruct Hne; apply Hf.
Qed.

Lemma main_creates_iff env o fs :
  rootExists fs = true ->
  CreateFile (pathAppend o ".tmp") ∈ output (main env o fs)
  <-> changed (scan fs o) = true.
Proof.
  intros Hroot. destruct (changed (scan fs o)) eqn:Hch.
  - rewrite main_writes by done. simpl. split; [done|]. intros _.
    destruct (writeChecksums _ _ _ _) as [fs1 [|]]; simpl.
    + destruct (updateLastRun _ _ _) as [fs2 [|]]; simpl;
        rewrite !elem_of_app, !elem_of_cons; tauto.
    + rewrite !elem_of_app, !elem_of_cons; tauto.
  - rewrite main_keeps by done. simpl. split; [|done]. intros Hin. exfalso.
    apply (scan_created fs o (pathAppend o ".tmp")).
    destruct (neededUpdate (scan fs o)); simpl in Hin.
    + destruct (updateLastRun _ _ _) as [fs2 [|]]; simpl in Hin;
        rewrite !elem_of_app, !elem_of_cons, !elem_of_nil in Hin;
        naive_solver.
    + rewrite !elem_of_app, !elem_of_cons, !elem_of_nil in Hin.
      naive_solver.
Qed.

Lemma writeChecksums_failed env fs path checksums fs' :
  writeChecksums env fs path checksums = (fs', false) ->
  statFS fs' path = statFS fs path.
Proof.
  unfold writeChecksums.
  destruct (createFails (faults env)); [by intros [= <-]|].
  pose proof (pathAppend_ne path) as Hne.
  destruct (printfFails (faults env)) as [k|].
  - destruct (k <? length (sortedPaths checksums))%nat.
    + intros [= <-]. by apply statFS_putFS_ne.
    + destruct (renameFails (faults env)); [|done].
      intros [= <-]. by apply statFS_putFS_ne.
  - destruct (renameFails (faults env)); [|done].
    intros [= <-]. by apply statFS_putFS_ne.
Qed.

Lemma main_saves env o fs :
  rootExists fs = true ->
  changed (scan fs o) = true ->
  (writeChecksums env fs o (newChecksums (scan fs o))).2 = true ->
  o <> Inside MD5TimestampFile ->
  statFS (finalFS (main env o fs)) o
  = Some (Regular (mkFile (now env)
                     (Some (manifestText (newChecksums (scan fs o)))))).
Proof.
  intros Hroot Hch. rewrite main_writes by done. simpl.
  destruct (writeChecksums _ _ _ _) as [fs1 [|]] eqn:Hw; simpl; [|done].
  intros _ Ho.
  pose proof (updateLastRun_other env fs1 (Inside MD5TimestampFile) o Ho)
    as Hother.
  apply writeChecksums_ok in Hw as (Hfile & _ & _).
  destruct (updateLastRun _ _ _) as [fs2 [|]]; simpl in *; congruence.
Qed.

Lemma main_fails_to_save env o fs :
  rootExists fs = true ->
  changed (scan fs o) = true ->
  (writeChecksums env fs o (newChecksums (scan fs o))).2 = false ->
  exit (main env o fs) = Fatal
  /\ statFS (finalFS (main env o fs)) o = statFS fs o.
Proof.
  intros Hroot Hch. rewrite main_writes by done. simpl.
  destruct (writeChecksums _ _ _ _) as [fs1 [|]] eqn:Hw; simpl; [done|].
  intros _. split; [done|]. by apply writeChecksums_failed in Hw.
Qed.

Lemma main_keeps_files env o fs :
  rootExists fs = true ->
  changed (scan fs o) = false ->
  (forall p, p <> Inside MD5TimestampFile ->
             statFS (finalFS (main env o fs)) p = statFS fs p)
  /\ (statFS (finalFS (main env o fs)) (Inside MD5TimestampFile)
      = statFS fs (Inside MD5TimestampFile)
      \/ statFS (finalFS (main env o fs)) (Inside MD5TimestampFile)
         = Some (Regular (mkFile (now env) (Some "")))).
Proof.
  intros Hroot Hch. rewrite main_keeps by done. simpl.
  destruct (neededUpdate (scan fs o)); simpl; [|by auto].
  pose proof (updateLastRun_other env fs (Inside MD5TimestampFile))
    as Hother.
  unfold updateLastRun in *.
  destruct (mkdirFails (faults env)); simpl; [by auto|].
  destruct (openFails (faults env)); simpl; [by auto|].
  destruct (chtimesFails (faults env)); simpl in *.
  - split; [by intros p Hp; apply Hother|].
    right. apply lookup_insert_eq.
  - split; [by intros p Hp; apply Hother|].
    right. apply lookup_insert_eq.
Qed.

Lemma main_reports_no_changes env o fs :
  rootExists fs = true ->
  changed (scan fs o) = false ->
  LogNoChanges o ∈ output (main env o fs).
Proof.
  intros Hroot Hch. rewrite main_keeps by done. simpl.
  destruct (neededUpdate _); simpl.
  - destruct (updateLastRun _ _ _) as [fs2 [|]]; simpl;
      rewrite !elem_of_app, !elem_of_cons; tauto.
  - rewrite !elem_of_app, !elem_of_cons; tauto.
Qed.

(** A second run over what a first run left changes nothing. *)
Lemma second_scan_unchanged env abs fs :
  exit (main env (Outside abs) fs) = Returned ->
  getLastRunTime fs (Inside MD5TimestampFile) <= now env ->
  (forall rel info, inside fs !! rel = Some (Regular info) ->
                    HasSuffix rel MD5TimestampFile = false ->
                    plainPath rel = true) ->
  rootExists (finalFS (main env (Outside abs) fs)) = true
  /\ changed (scan (finalFS (main env (Outside abs) fs)) (Outside abs))
     = false.
Proof.
  intros Hexit Hclock Hplain.
  assert (parseChecksums (manifestText (newChecksums (scan fs (Outside abs))))
          = newChecksums (scan fs (Outside abs))) as Hround.
  { apply parse_manifestText. by apply scan_readable. }
  destruct (returned_run_leaves env abs fs Hexit Hclock Hround)
    as (Hroot & Hread & Hins & Hlast).
  split; [done|].
  destruct (changed (scan _ (Outside abs))) eqn:Hch; [|done].
  rewrite scan_start in Hch. apply walk_changed in Hch.
  destruct Hch as [Hch|([rel node] & Hin & Hst)]; [done|].
  apply elem_of_Walk in Hin. rewrite Hread in Hst.
  rewrite (settled_entry_stores_nothing fs abs _ rel node) in Hst by done.
  by destruct Hst.
Qed.

(** ** The calls of the store that fail *)

Lemma writeChecksums_flag env fs path (checksums : gmap string string) :
  (writeChecksums env fs path checksums).2 = negb (writeFails env checksums).
Proof.
  unfold writeChecksums, writeFails.
  destruct (createFails (faults env)); [done|]. simpl.
  destruct (printfFails (faults env)) as [k|]; simpl.
  - destruct (k <? length (sortedPaths checksums))%nat; [done|]. simpl.
    by destruct (renameFails (faults env)).
  - by destruct (renameFails (faults env)).
Qed.

Lemma tmp_is_not_marker o : pathAppend o ".tmp" <> Inside MD5TimestampFile.
Proof.
  destruct o as [rel|abs]; simpl; [|done].
  intros [= Heq]. apply (f_equal String.rev) in Heq.
  rewrite rev_append in Heq.
  change (String.rev ".tmp") with "pmt." in Heq.
  change (String.rev MD5TimestampFile) with "pmatsemit-mus5dm." in Heq.
  rewrite !append_cons in Heq. discriminate.
Qed.

(** A save that fails ends the run before the marker is reached: no path
    but the temporary file's is touched. *)
Lemma main_failed_save env o fs :
  rootExists fs = true ->
  changed (scan fs o) = true ->
  writeFails env (newChecksums (scan fs o)) = true ->
  exit (main env o fs) = Fatal
  /\ forall q, q <> pathAppend o ".tmp" ->
               statFS (finalFS (main env o fs)) q = statFS fs q.
Proof.
  intros Hroot Hch Hfail. rewrite main_writes by done. simpl.
  pose proof (writeChecksums_flag env fs o (newChecksums (scan fs o)))
    as Hflag.
  rewrite Hfail in Hflag. simpl in Hflag.
  pose proof (fun q => writeChecksums_other env fs o
                         (newChecksums (scan fs o)) q) as Hother.
  destruct (writeChecksums _ _ _ _) as [fs1 [|]] eqn:Hw; simpl in *; [done|].
  split; [done|]. intros q Hq.
  destruct (decide (q = o)) as [->|Hne].
  - by apply writeChecksums_failed in Hw.
  - by apply Hother.
Qed.

(** What a run leaves at the output path: the file as it was, the
    manifest it has saved, or the empty marker. *)
Lemma main_output_file env o fs :
  statFS (finalFS (main env o fs)) o = statFS fs o
  \/ statFS (finalFS (main env o fs)) o
     = Some (Regular (mkFile (now env)
                        (Some (manifestText (newChecksums (scan fs o))))))
  \/ statFS (finalFS (main env o fs)) o
     = Some (Regular (mkFile (now env) (Some ""))).
Proof.
  destruct (rootExists fs) eqn:Hroot.
  2:{ left. unfold main. by rewrite Hroot. }
  destruct (changed (scan fs o)) eqn:Hch.
  - rewrite main_writes by done. simpl.
    destruct (writeChecksums _ _ _ _) as [fs1 [|]] eqn:Hw; simpl.
    2:{ left. by apply writeChecksums_failed in Hw. }
    apply writeChecksums_ok in Hw as (Hfile & _ & _).
    destruct (decide (o = Inside MD5TimestampFile)) as [Ho|Ho].
    + rewrite <- Ho. unfold updateLastRun.
      destruct (mkdirFails (faults env)); simpl; [by auto|].
      destruct (openFails (faults env)); simpl; [by auto|].
      destruct (chtimesFails (faults env)); simpl;
        right; right; apply statFS_putFS.
    + pose proof (updateLastRun_other env fs1 (Inside MD5TimestampFile) o Ho)
        as Hother.
      right; left.
      destruct (updateLastRun _ _ _) as [fs2 [|]]; simpl in *; congruence.
  - destruct (main_keeps_files env o fs Hroot Hch) as [Hkeep Hmark].
    destruct (decide (o = Inside MD5TimestampFile)) as [->|Ho].
    + destruct Hmark; auto.
    + left. by apply Hkeep.
Qed.

(** ** The lines of a saved manifest *)

Lemma splitLines_records lines :
  (forall x, x ∈ lines -> noLF x = true) ->
  splitLines (String.concat "" (map (fun x => x ++ LF) lines)) = lines.
Proof.
  induction lines as [|x lines IH]; intros Hall; [done|].
  cbn [map]. rewrite concat_cons, append_assoc.
  rewrite splitLines_line by (apply Hall; left).
  f_equal. apply IH. intros y Hy. apply Hall. by right.
Qed.

Lemma prefix_nil s : String.prefix "" s = true.
Proof. by destruct s. Qed.

Lemma prefix_two_spaces a b r :
  String.prefix "  " (String a (String b r))
  = Ascii.eqb a " " && Ascii.eqb b " ".
Proof.
  cbn [String.prefix].
  destruct (ascii_dec " " a) as [<-|Ha].
  - destruct (ascii_dec " " b) as [<-|Hb].
    + by rewrite prefix_nil.
    + symmetry. apply andb_false_iff. right. apply Ascii.eqb_neq. congruence.
  - symmetry. apply andb_false_iff. left. apply Ascii.eqb_neq. congruence.
Qed.

(** A checksum without two consecutive spaces that does not end with a
    space: the separator is the first pair of spaces of the line. *)
Lemma Index_separator sum path :
  Index (sum ++ " ") "  " = None ->
  Index (sum ++ "  " ++ path) "  " = Some (String.length sum).
Proof.
  induction sum as [|a sum IH].
  - intros _. rewrite append_nil_l. by destruct path.
  - rewrite !(append_cons a sum), !Index_cons.
    destruct (String.prefix "  " (String a (sum ++ " "))) eqn:Hp; [done|].
    destruct (Index (sum ++ " ") "  ") eqn:Hi; [done|]. intros _.
    rewrite IH by done.
    assert (String.prefix "  " (String a (sum ++ "  " ++ path)) = false)
      as ->; [|done].
    destruct sum as [|b sum].
    + rewrite append_nil_l in *.
      change ("  " ++ path) with (String " " (String " " path)).
      change " "%string with (String " " "") in Hp.
      by rewrite prefix_two_spaces in *.
    + rewrite !(append_cons b sum) in *.
      by rewrite prefix_two_spaces in *.
Qed.

Lemma fields_record sum path :
  Index (sum ++ " ") "  " = None ->
  fields (sum ++ "  " ++ path) = Some (sum, path).
Proof.
  intros Hi. unfold fields, SplitN2. rewrite (Index_separator _ _ Hi).
  rewrite substring_append_l. f_equal. f_equal.
  rewrite substring_append_r.
  change (substring 2 ?m ("  " ++ path)) with (substring 0 m path).
  rewrite !length_append. simpl.
  replace (String.length sum + S (S (String.length path))
           - (String.length sum + 2))%nat with (String.length path) by lia.
  apply substring_all.
Qed.

Lemma text_of_lines (checksums : gmap string string) paths :
  printLines checksums paths
  = String.concat ""
      (map (fun x => x ++ LF)
         (map (fun p => mapGet checksums p ++ "  " ++ p) paths)).
Proof.
  unfold printLines. rewrite map_map. f_equal. apply map_ext.
  intros p. unfold formatLine, LF. by rewrite !append_assoc.
Qed.

(** * The claims *)

(** C1, as the code has it. When a visited file is determined stale and
    its hashing succeeds, the walk sets [neededUpdate], whether or not
    the digest differs from the recorded one; and a run that returns has
    then set the marker to the current instant, whether or not it wrote
    the manifest. *)
Theorem evaluated_file_advances_marker env o fs rel info sum :
  inside fs !! rel = Some (Regular info) ->
  HasSuffix rel MD5TimestampFile = false ->
  needsUpdate (readChecksums fs o)
    (getLastRunTime fs (Inside MD5TimestampFile)) rel info = true ->
  fileMD5 fs (Inside rel) = Some sum ->
  neededUpdate (scan fs o) = true
  /\ (exit (main env o fs) = Returned ->
      statFS (finalFS (main env o fs)) (Inside MD5TimestampFile)
      = Some (Regular (mkFile (now env) (Some "")))).
Proof.
  intros Hin Hsuffix Hstale Hsum.
  assert (neededUpdate (scan fs o) = true) as Hneeded.
  { rewrite scan_start. apply walk_neededUpdate. right.
    exists (rel, Regular info). split; [by apply elem_of_Walk|].
    unfold digests, hashes. simpl. rewrite Hsuffix, Hstale. simpl. eauto. }
  split; [done|].
  destruct (rootExists fs) eqn:Hroot.
  2:{ unfold main. by rewrite Hroot. }
  destruct (changed (scan fs o)) eqn:Hch.
  - rewrite main_writes by done. simpl.
    destruct (writeChecksums _ _ _ _) as [fs1 [|]]; simpl; [|done].
    destruct (updateLastRun _ _ _) as [fs2 [|]] eqn:Hu; simpl; [|done].
    intros _. apply updateLastRun_ok in Hu as ->. apply lookup_insert_eq.
  - rewrite main_keeps by done. simpl. rewrite Hneeded.
    destruct (updateLastRun _ _ _) as [fs2 [|]] eqn:Hu; simpl; [|done].
    intros _. apply updateLastRun_ok in Hu as ->. apply lookup_insert_eq.
Qed.

Lemma evaluated_file_advances_marker_witness :
  neededUpdate (scan fsTouched outPath) = true
  /\ (exit (main env20 outPath fsTouched) = Returned ->
      statFS (finalFS (main env20 outPath fsTouched))
        (Inside MD5TimestampFile)
      = Some (Regular (mkFile (now env20) (Some "")))).
Proof.
  apply (evaluated_file_advances_marker env20 outPath fsTouched "a.txt"
           (mkFile 12 (Some "hi")) "49f68a5c8493ec2c0bf489821c21fc3b").
  - vm_compute. reflexivity.
  - vm_compute. reflexivity.
  - vm_compute. reflexivity.
  - vm_compute. reflexivity.
Defined.

(** C1 as stated fails when hashing fails: the only file of the scan is
    determined stale, and yet [neededUpdate] stays false and the run
    returns without creating the marker. *)
Lemma stale_unreadable_file_leaves_marker :
  inside fsUnreadable !! "a.txt" = Some (Regular (mkFile 5 None))
  /\ HasSuffix "a.txt" MD5TimestampFile = false
  /\ needsUpdate (readChecksums fsUnreadable outPath)
       (getLastRunTime fsUnreadable (Inside MD5TimestampFile)) "a.txt"
       (mkFile 5 None) = true
  /\ neededUpdate (scan fsUnreadable outPath) = false
  /\ exit (main env10 outPath fsUnreadable) = Returned
  /\ statFS (finalFS (main env10 outPath fsUnreadable))
       (Inside MD5TimestampFile) = None.
Proof. repeat split; vm_compute; reflexivity. Qed.

(** C2, as the code has it. When the manifest lies outside the scanned
    tree, the first run returns, the clock is not behind the marker, and
    the relative path of every regular file the walk does not skip is
    plain (not empty, no line feed, no white space at its end, short
    enough for a line of the scanner), then a second run over what the
    first run left,
    with nothing else changed, touches no path but the marker's (so the
    manifest file is the same, bytes and time), does not start writing,
    and logs that no changes were detected. *)
Theorem second_run_changes_nothing env1 env2 abs fs :
  let run1 := main env1 (Outside abs) fs in
  let run2 := main env2 (Outside abs) (finalFS run1) in
  exit run1 = Returned ->
  getLastRunTime fs (Inside MD5TimestampFile) <= now env1 ->
  (forall rel info, inside fs !! rel = Some (Regular info) ->
                    HasSuffix rel MD5TimestampFile = false ->
                    plainPath rel = true) ->
  (forall p, p <> Inside MD5TimestampFile ->
             statFS (finalFS run2) p = statFS (finalFS run1) p)
  /\ (CreateFile (Outside (abs ++ ".tmp")) ∉ output run2)
  /\ (LogNoChanges (Outside abs) ∈ output run2).
Proof.
  intros run1 run2 Hexit Hclock Hplain.
  destruct (second_scan_unchanged env1 abs fs Hexit Hclock Hplain)
    as [Hroot Hch].
  fold run1 in Hroot, Hch. split; [|split].
  - by apply main_keeps_files.
  - intros Hin. apply (main_creates_iff env2 (Outside abs)) in Hin; [|done].
    congruence.
  - by apply main_reports_no_changes.
Qed.

Lemma second_run_changes_nothing_witness :
  let run1 := main env10 outPath fsFresh in
  let run2 := main env20 outPath (finalFS run1) in
  (forall p, p <> Inside MD5TimestampFile ->
             statFS (finalFS run2) p = statFS (finalFS run1) p)
  /\ (CreateFile (Outside ("/srv/md5sums.txt" ++ ".tmp")) ∉ output run2)
  /\ (LogNoChanges outPath ∈ output run2).
Proof.
  apply (second_run_changes_nothing env10 env20 "/srv/md5sums.txt" fsFresh).
  - vm_compute. reflexivity.
  - vm_compute. discriminate.
  - intros rel info Hin _. simpl in Hin.
    apply lookup_singleton_Some in Hin as [<- _]. vm_compute. reflexivity.
Defined.

(** The scenario of the specification: the first run saves the digest of
    [a.txt] and creates the marker; the second one reports no changes. *)
Example two_runs_on_one_file :
  let run1 := main env10 outPath fsFresh in
  let run2 := main env20 outPath (finalFS run1) in
  statFS (finalFS run1) outPath
  = Some (Regular (mkFile 10
       (Some ("49f68a5c8493ec2c0bf489821c21fc3b  a.txt" ++ LF))))
  /\ statFS (finalFS run1) (Inside MD5TimestampFile)
     = Some (Regular (mkFile 10 (Some "")))
  /\ statFS (finalFS run2) outPath = statFS (finalFS run1) outPath
  /\ output run2
     = [LogChecking ".md5sum-timestamp"; LogSkipping; LogChecking "a.txt";
        LogNoChanges outPath; LogTotalDuration].
Proof. repeat split; vm_compute; reflexivity. Qed.

(** The third run of that scenario: [a.txt] now holds "bye", and the
    manifest is updated to the new digest only. *)
Example third_run_after_edit :
  let fs2 := finalFS (main env20 outPath
                        (finalFS (main env10 outPath fsFresh))) in
  let edited := putFS fs2 (Inside "a.txt")
                  (Regular (mkFile 25 (Some "bye"))) in
  ReadFile (finalFS (main (mkEnv 30 noFaults) outPath edited)) outPath
  = Some ("bfa99df33b137bc8fb5f5407d7e58da8  a.txt" ++ LF).
Proof. vm_compute. reflexivity. Qed.

(** C2 as stated fails with the default flags, which put the manifest
    inside the scanned directory: the first run creates it, the second
    run finds it as a new file, hashes it and writes a second, longer
    manifest, without reporting that nothing changed. *)
Lemma second_run_rewrites_manifest_in_tree :
  let run1 := main env10 inTree fsFresh in
  let run2 := main env20 inTree (finalFS run1) in
  exit run1 = Returned
  /\ exit run2 = Returned
  /\ ReadFile (finalFS run1) inTree
     = Some ("49f68a5c8493ec2c0bf489821c21fc3b  a.txt" ++ LF)
  /\ ReadFile (finalFS run2) inTree
     = Some ("49f68a5c8493ec2c0bf489821c21fc3b  a.txt" ++ LF
             ++ "4017e984ab42029b1f9c75380d171a57  md5sums.txt" ++ LF)
  /\ ReadFile (finalFS run1) inTree <> ReadFile (finalFS run2) inTree
  /\ (CreateFile (pathAppend inTree ".tmp") ∈ output run2)
  /\ (LogNoChanges inTree ∉ output run2).
Proof.
  repeat split; try (vm_compute; reflexivity).
  - vm_compute. discriminate.
  - apply (bool_decide_unpack _). vm_compute. exact I.
  - apply (bool_decide_unpack _). vm_compute. exact I.
Qed.

(** Outside the tree too the two manifests differ when a name does not
    survive [strings.TrimSpace]. *)
Example second_run_rewrites_manifest_trimmed_name :
  let run1 := main env10 outPath fsSpace in
  let run2 := main env20 outPath (finalFS run1) in
  ReadFile (finalFS run1) outPath
  = Some ("49f68a5c8493ec2c0bf489821c21fc3b  a.txt " ++ LF)
  /\ ReadFile (finalFS run2) outPath
     = Some ("49f68a5c8493ec2c0bf489821c21fc3b  a.txt" ++ LF
             ++ "49f68a5c8493ec2c0bf489821c21fc3b  a.txt " ++ LF).
Proof. repeat split; vm_compute; reflexivity. Qed.

(** And when the clock of the first run is behind the marker: what was
    not stale in the first run becomes stale in the second. *)
Example second_run_rewrites_manifest_clock_behind :
  let run1 := main env20 outPath fsAhead in
  let run2 := main (mkEnv 30 noFaults) outPath (finalFS run1) in
  ReadFile (finalFS run1) outPath
  = Some ("00000000000000000000000000000000  a.txt" ++ LF
          ++ "bfa99df33b137bc8fb5f5407d7e58da8  b.txt" ++ LF)
  /\ ReadFile (finalFS run2) outPath
     = Some ("49f68a5c8493ec2c0bf489821c21fc3b  a.txt" ++ LF
             ++ "bfa99df33b137bc8fb5f5407d7e58da8  b.txt" ++ LF).
Proof. repeat split; vm_compute; reflexivity. Qed.

(** C3. A visited regular file whose modification time is not after the
    last-run instant and whose relative path is a key of the existing
    manifest fails the staleness test and is not hashed during the run. *)
Theorem known_unmodified_file_is_not_hashed env o fs rel info :
  inside fs !! rel = Some (Regular info) ->
  After (modTime info) (getLastRunTime fs (Inside MD5TimestampFile)) = false ->
  is_Some (readChecksums fs o !! rel) ->
  needsUpdate (readChecksums fs o)
    (getLastRunTime fs (Inside MD5TimestampFile)) rel info = false
  /\ (OpenToHash (Inside rel) ∉ events (scan fs o))
  /\ (OpenToHash (Inside rel) ∉ output (main env o fs)).
Proof.
  intros Hin Hafter Hkey.
  assert (needsUpdate (readChecksums fs o)
            (getLastRunTime fs (Inside MD5TimestampFile)) rel info = false)
    as Hstale.
  { unfold needsUpdate. rewrite Hafter. simpl. apply negb_false_iff.
    by apply fileExistsInChecksums_true. }
  assert (OpenToHash (Inside rel) ∉ events (scan fs o)) as Hscan.
  { rewrite scan_hashed. intros (info' & Hin' & _ & Hn). congruence. }
  split; [done|]. split; [done|].
  intros Hout. by apply Hscan, (main_hashed env).
Qed.

Lemma known_unmodified_file_is_not_hashed_witness :
  needsUpdate (readChecksums fsScanned outPath)
    (getLastRunTime fsScanned (Inside MD5TimestampFile)) "a.txt"
    (mkFile 5 (Some "hi")) = false
  /\ (OpenToHash (Inside "a.txt") ∉ events (scan fsScanned outPath))
  /\ (OpenToHash (Inside "a.txt") ∉ output (main env20 outPath fsScanned)).
Proof.
  apply (known_unmodified_file_is_not_hashed env20 outPath fsScanned "a.txt"
           (mkFile 5 (Some "hi"))).
  - vm_compute. reflexivity.
  - vm_compute. reflexivity.
  - eexists. vm_compute. reflexivity.
Defined.

(** C4, as the code has it. A visited regular file whose relative path
    does not end with the marker filename and is not a key of the existing
    manifest passes the staleness test whatever its modification time, is
    opened to be hashed, and when hashing succeeds the digest is its entry
    in the working manifest at the end of the walk. *)
Theorem new_file_is_hashed_and_added fs o rel info :
  inside fs !! rel = Some (Regular info) ->
  HasSuffix rel MD5TimestampFile = false ->
  readChecksums fs o !! rel = None ->
  needsUpdate (readChecksums fs o)
    (getLastRunTime fs (Inside MD5TimestampFile)) rel info = true
  /\ (OpenToHash (Inside rel) ∈ events (scan fs o))
  /\ forall sum, fileMD5 fs (Inside rel) = Some sum ->
                 newChecksums (scan fs o) !! rel = Some sum.
Proof.
  intros Hin Hsuffix Hnew.
  assert (needsUpdate (readChecksums fs o)
            (getLastRunTime fs (Inside MD5TimestampFile)) rel info = true)
    as Hstale.
  { unfold needsUpdate, fileExistsInChecksums. rewrite Hnew.
    apply orb_true_r. }
  split; [done|]. split.
  - apply scan_hashed. by exists info.
  - intros sum Hsum. rewrite (scan_lookup fs o rel _ Hin).
    unfold stores, digests, hashes. simpl.
    rewrite Hsuffix, Hstale, Hsum. simpl.
    unfold mapGet. rewrite Hnew. simpl.
    pose proof (fileMD5_nonempty _ _ _ Hsum) as Hne.
    by destruct sum.
Qed.

Lemma new_file_is_hashed_and_added_witness :
  needsUpdate (readChecksums fsFresh outPath)
    (getLastRunTime fsFresh (Inside MD5TimestampFile)) "a.txt"
    (mkFile 5 (Some "hi")) = true
  /\ (OpenToHash (Inside "a.txt") ∈ events (scan fsFresh outPath))
  /\ forall sum, fileMD5 fsFresh (Inside "a.txt") = Some sum ->
                 newChecksums (scan fsFresh outPath) !! "a.txt" = Some sum.
Proof.
  apply (new_file_is_hashed_and_added fsFresh outPath "a.txt"
           (mkFile 5 (Some "hi"))).
  - vm_compute. reflexivity.
  - vm_compute. reflexivity.
  - vm_compute. reflexivity.
Defined.

(** C4 as stated fails on the marker file: it is a visited regular file,
    its path is not a key of the existing manifest, it can be hashed, and
    yet it is neither opened nor added. *)
Lemma marker_file_is_new_but_not_hashed :
  inside fsScanned !! MD5TimestampFile = Some (Regular (mkFile 10 (Some "")))
  /\ readChecksums fsScanned outPath !! MD5TimestampFile = None
  /\ fileMD5 fsScanned (Inside MD5TimestampFile)
     = Some "d41d8cd98f00b204e9800998ecf8427e"
  /\ (OpenToHash (Inside MD5TimestampFile) ∉ events (scan fsScanned outPath))
  /\ newChecksums (scan fsScanned outPath) !! MD5TimestampFile = None.
Proof.
  repeat split; try (vm_compute; reflexivity).
  apply (bool_decide_unpack _). vm_compute. exact I.
Qed.

(** C5. A visited file that is stale only because its modification time
    is after the last-run instant, and whose fresh digest is the one the
    existing manifest records for its path: whatever the state of the
    walk, visiting it leaves the flag [changed], the working manifest and
    the counter of processed files as they were; and at the end of the
    walk the entry of that path is still the recorded one. *)
Theorem touched_file_changes_nothing fs o rel info sum :
  inside fs !! rel = Some (Regular info) ->
  After (modTime info) (getLastRunTime fs (Inside MD5TimestampFile)) = true ->
  readChecksums fs o !! rel = Some sum ->
  fileMD5 fs (Inside rel) = Some sum ->
  (forall st,
     let st' := walkFn fs (readChecksums fs o)
                  (getLastRunTime fs (Inside MD5TimestampFile)) st
                  (rel, Regular info) in
     changed st' = changed st
     /\ newChecksums st' = newChecksums st
     /\ processedCount st' = processedCount st)
  /\ newChecksums (scan fs o) !! rel = Some sum.
Proof.
  intros Hin Hafter Hold Hsum.
  assert (stores fs (readChecksums fs o)
            (getLastRunTime fs (Inside MD5TimestampFile)) (rel, Regular info)
          = None) as Hstores.
  { unfold stores, digests. simpl.
    destruct (hashes _ _ _); [|done]. rewrite Hsum.
    by rewrite (mapGet_Some _ _ _ Hold), String.eqb_refl. }
  split.
  - intros st st'. subst st'.
    rewrite step_changed, step_newChecksums, step_processedCount, Hstores.
    rewrite bool_decide_eq_false_2 by (by intros [? ?]).
    by rewrite orb_false_r.
  - by rewrite (scan_lookup fs o rel _ Hin), Hstores.
Qed.

Lemma touched_file_changes_nothing_witness :
  (forall st,
     let st' := walkFn fsTouched (readChecksums fsTouched outPath)
                  (getLastRunTime fsTouched (Inside MD5TimestampFile)) st
                  ("a.txt", Regular (mkFile 12 (Some "hi"))) in
     changed st' = changed st
     /\ newChecksums st' = newChecksums st
     /\ processedCount st' = processedCount st)
  /\ newChecksums (scan fsTouched outPath) !! "a.txt"
     = Some "49f68a5c8493ec2c0bf489821c21fc3b".
Proof.
  apply (touched_file_changes_nothing fsTouched outPath "a.txt"
           (mkFile 12 (Some "hi")) "49f68a5c8493ec2c0bf489821c21fc3b").
  - vm_compute. reflexivity.
  - vm_compute. reflexivity.
  - vm_compute. reflexivity.
  - vm_compute. reflexivity.
Defined.

(** C6, as the code has it. Let the output path be another path than the
    marker's, and the output file not be one last modified at the very
    instant of the run. When the run ends, the output file is the working
    manifest, saved at that instant, exactly when the flag [changed] is
    set or the working manifest differs from the existing one (which is
    what the test of [main] decides) and no system call of
    [writeChecksums] fails. When one fails, the run ends fatally with the
    output file as it was. When neither signal holds, no path other than
    the marker's is touched, the output file included, and the marker is
    either left as it was or set to the current instant. *)
Theorem manifest_written_iff_changed env o fs :
  rootExists fs = true ->
  o <> Inside MD5TimestampFile ->
  (forall f, statFS fs o = Some (Regular f) -> modTime f <> now env) ->
  let st := scan fs o in
  let out := main env o fs in
  let triggered :=
    changed st = true \/ newChecksums st <> readChecksums fs o in
  let written :=
    statFS (finalFS out) o
    = Some (Regular (mkFile (now env)
                       (Some (manifestText (newChecksums st))))) in
  (written <-> triggered /\ writeFails env (newChecksums st) = false)
  /\ (triggered
      <-> negb (changed st)
          && mapsEqual (readChecksums fs o) (newChecksums st) = false)
  /\ (triggered -> writeFails env (newChecksums st) = true ->
      exit out = Fatal /\ statFS (finalFS out) o = statFS fs o)
  /\ (~ triggered ->
      (forall p, p <> Inside MD5TimestampFile ->
                 statFS (finalFS out) p = statFS fs p)
      /\ (statFS (finalFS out) (Inside MD5TimestampFile)
          = statFS fs (Inside MD5TimestampFile)
          \/ statFS (finalFS out) (Inside MD5TimestampFile)
             = Some (Regular (mkFile (now env) (Some ""))))).
Proof.
  intros Hroot Ho Hclock st out triggered written.
  assert (triggered <-> changed (scan fs o) = true) as Htrig.
  { unfold triggered, st. rewrite <- scan_changed_iff. tauto. }
  assert (statFS (finalFS (main env o fs)) o = statFS fs o -> ~ written)
    as Hsame.
  { intros Heq Hw. unfold written, out in Hw. rewrite Heq in Hw.
    by apply Hclock in Hw. }
  pose proof (writeChecksums_flag env fs o (newChecksums (scan fs o)))
    as Hflag.
  split; [|split; [|split]].
  - split.
    + intros Hw. destruct (changed (scan fs o)) eqn:Hch.
      * split; [by apply Htrig|].
        destruct (writeFails env (newChecksums st)) eqn:Hfail; [|done].
        destruct (main_failed_save env o fs Hroot Hch Hfail) as [_ Hkeep].
        destruct (Hsame (Hkeep o (not_eq_sym (pathAppend_ne o))) Hw).
      * destruct (main_keeps_files env o fs Hroot Hch) as [Hkeep _].
        destruct (Hsame (Hkeep o Ho) Hw).
    + intros [Ht%Htrig Hfail]. apply main_saves; try done.
      rewrite Hflag. unfold st in Hfail. by rewrite Hfail.
  - rewrite Htrig. unfold st. destruct (changed (scan fs o)) eqn:Hch.
    + done.
    + simpl. destruct (scan_differs fs o) as [_ Heq].
      rewrite (Heq Hch), (proj2 (mapsEqual_true _ _) eq_refl). done.
  - intros Ht%Htrig Hfail.
    destruct (main_failed_save env o fs Hroot Ht Hfail) as [Hexit Hkeep].
    split; [done|]. apply Hkeep. apply not_eq_sym, pathAppend_ne.
  - intros Hnt. apply main_keeps_files; [done|].
    destruct (changed (scan fs o)); [|done]. by destruct Hnt; apply Htrig.
Qed.

Lemma manifest_written_iff_changed_witness :
  let st := scan fsEdited outPath in
  let out := main env20 outPath fsEdited in
  let triggered :=
    changed st = true \/ newChecksums st <> readChecksums fsEdited outPath in
  let written :=
    statFS (finalFS out) outPath
    = Some (Regular (mkFile 20 (Some (manifestText (newChecksums st))))) in
  (written <-> triggered /\ writeFails env20 (newChecksums st) = false)
  /\ (triggered
      <-> negb (changed st)
          && mapsEqual (readChecksums fsEdited outPath) (newChecksums st)
          = false)
  /\ (triggered -> writeFails env20 (newChecksums st) = true ->
      exit out = Fatal
      /\ statFS (finalFS out) outPath = statFS fsEdited outPath)
  /\ (~ triggered ->
      (forall p, p <> Inside MD5TimestampFile ->
                 statFS (finalFS out) p = statFS fsEdited p)
      /\ (statFS (finalFS out) (Inside MD5TimestampFile)
          = statFS fsEdited (Inside MD5TimestampFile)
          \/ statFS (finalFS out) (Inside MD5TimestampFile)
             = Some (Regular (mkFile 20 (Some ""))))).
Proof.
  apply (manifest_written_iff_changed env20 outPath fsEdited).
  - vm_compute. reflexivity.
  - discriminate.
  - intros f Hf. vm_compute in Hf. injection Hf as <-. vm_compute.
    discriminate.
Defined.

(** In that world [a.txt] was edited: the flag is set, no call fails, and
    the run replaces the manifest of instant 10 by the one of instant 20
    with the new digest. *)
Example edited_file_is_saved :
  changed (scan fsEdited outPath) = true
  /\ writeFails env20 (newChecksums (scan fsEdited outPath)) = false
  /\ statFS fsEdited outPath
     = Some (Regular (mkFile 10
          (Some ("49f68a5c8493ec2c0bf489821c21fc3b  a.txt" ++ LF))))
  /\ statFS (finalFS (main env20 outPath fsEdited)) outPath
     = Some (Regular (mkFile 20
          (Some ("bfa99df33b137bc8fb5f5407d7e58da8  a.txt" ++ LF))))
  /\ exit (main env20 outPath fsEdited) = Returned.
Proof. repeat split; vm_compute; reflexivity. Qed.

(** When [a.txt] was only touched, neither signal holds: the manifest of
    instant 10 is left as it is and the marker is set to instant 20. *)
Example touched_file_is_not_saved :
  changed (scan fsTouched outPath) = false
  /\ newChecksums (scan fsTouched outPath) = readChecksums fsTouched outPath
  /\ statFS (finalFS (main env20 outPath fsTouched)) outPath
     = statFS fsTouched outPath
  /\ statFS (finalFS (main env20 outPath fsTouched)) (Inside MD5TimestampFile)
     = Some (Regular (mkFile 20 (Some ""))).
Proof. repeat split; vm_compute; reflexivity. Qed.

(** When [os.Create] or [os.Rename] fails, the edit of [a.txt] is
    detected but the manifest is not written: the run is fatal and the
    manifest of instant 10 stays. *)
Example failed_store_is_not_saved :
  changed (scan fsEdited outPath) = true
  /\ exit (main envNoCreate outPath fsEdited) = Fatal
  /\ statFS (finalFS (main envNoCreate outPath fsEdited)) outPath
     = statFS fsEdited outPath
  /\ exit (main envNoRename outPath fsEdited) = Fatal
  /\ statFS (finalFS (main envNoRename outPath fsEdited)) outPath
     = statFS fsEdited outPath.
Proof. repeat split; vm_compute; reflexivity. Qed.

(** C6 as stated fails when the output path is the marker's path: with
    [a.txt] touched but not edited neither signal holds, and yet the run
    empties the output file, since updating the marker truncates it. *)
Lemma marker_as_output_is_emptied :
  let o := Inside MD5TimestampFile in
  let st := scan fsSelf o in
  changed st = false
  /\ newChecksums st = readChecksums fsSelf o
  /\ mapsEqual (readChecksums fsSelf o) (newChecksums st) = true
  /\ ReadFile fsSelf o
     = Some ("49f68a5c8493ec2c0bf489821c21fc3b  a.txt" ++ LF)
  /\ exit (main env20 o fsSelf) = Returned
  /\ ReadFile (finalFS (main env20 o fsSelf)) o = Some "".
Proof. repeat split; vm_compute; reflexivity. Qed.

(** C7, as the code has it. Let no path and no checksum of the map hold a
    line feed, and no checksum hold two consecutive spaces or end with a
    space. Then the file [writeChecksums] has saved is made of its lines,
    each followed by a line feed; there is one line per entry of the map,
    made of the checksum, two spaces and the path, and the two fields of
    that line, taken at its first two spaces, are that checksum and that
    path; and from line to line the paths are in strictly ascending byte
    order, without duplicates. *)
Theorem saved_manifest_is_sorted env fs path checksums fs' :
  writeChecksums env fs path checksums = (fs', true) ->
  (forall p c, checksums !! p = Some c ->
     noLF p = true /\ noLF c = true /\ Index (c ++ " ") "  " = None) ->
  exists text,
    ReadFile fs' path = Some text
    /\ text
       = String.concat "" (map (fun line => line ++ LF) (splitLines text))
    /\ exists entries : list (string * string),
         splitLines text = map (fun e => e.2 ++ "  " ++ e.1) entries
         /\ map fields (splitLines text)
            = map (fun e => Some (e.2, e.1)) entries
         /\ StronglySorted (fun a b => String.ltb a b = true) entries.*1
         /\ NoDup entries.*1
         /\ forall p c, (p, c) ∈ entries <-> checksums !! p = Some c.
Proof.
  intros Hw Hplain. apply writeChecksums_ok in Hw as (Hfile & _ & _).
  exists (manifestText checksums). split.
  { unfold ReadFile. by rewrite Hfile. }
  assert (forall p, p ∈ sortedPaths checksums ->
            checksums !! p = Some (mapGet checksums p)) as Hkey.
  { intros p [v Hv]%elem_of_sortedPaths. by rewrite (mapGet_Some _ _ _ Hv). }
  assert (splitLines (manifestText checksums)
          = map (fun p => mapGet checksums p ++ "  " ++ p)
              (sortedPaths checksums)) as Hlines.
  { unfold manifestText. rewrite text_of_lines. apply splitLines_records.
    intros x Hx. apply list_elem_of_In, in_map_iff in Hx as (p & <- & Hp).
    apply list_elem_of_In, Hkey, Hplain in Hp as (Hp & Hc & _).
    by rewrite !noLF_append, Hp, Hc. }
  split.
  { rewrite Hlines. unfold manifestText. apply text_of_lines. }
  exists (map (fun p => (p, mapGet checksums p)) (sortedPaths checksums)).
  assert ((map (fun p => (p, mapGet checksums p)) (sortedPaths checksums)).*1
          = sortedPaths checksums) as Hfst.
  { generalize (sortedPaths checksums). intros l.
    induction l as [|p l IH]; [done|].
    cbn [map]. rewrite fmap_cons. simpl. by rewrite IH. }
  rewrite Hfst, Hlines. split; [|split; [|split; [|split]]].
  - by rewrite map_map.
  - rewrite !map_map. apply map_ext_in.
    intros p Hp. simpl. apply fields_record.
    by apply list_elem_of_In, Hkey, Hplain in Hp as (_ & _ & Hi).
  - apply sortedPaths_ascending.
  - apply NoDup_sortedPaths.
  - intros p c. rewrite list_elem_of_In, in_map_iff. split.
    + intros (p' & [= -> <-] & Hin). by apply Hkey, list_elem_of_In.
    + intros Hp. exists p. cbv beta. rewrite (mapGet_Some _ _ _ Hp).
      split; [done|]. apply list_elem_of_In, elem_of_sortedPaths. eauto.
Qed.

Lemma saved_manifest_is_sorted_witness :
  exists text,
    ReadFile (writeChecksums env10 fsFresh outPath
                {[ "b" := "bfa99df33b137bc8fb5f5407d7e58da8";
                   "a" := "49f68a5c8493ec2c0bf489821c21fc3b" ]}).1 outPath
    = Some text
    /\ text
       = String.concat "" (map (fun line => line ++ LF) (splitLines text))
    /\ exists entries : list (string * string),
         splitLines text = map (fun e => e.2 ++ "  " ++ e.1) entries
         /\ map fields (splitLines text)
            = map (fun e => Some (e.2, e.1)) entries
         /\ StronglySorted (fun a b => String.ltb a b = true) entries.*1
         /\ NoDup entries.*1
         /\ forall p c,
              (p, c) ∈ entries
              <-> ({[ "b" := "bfa99df33b137bc8fb5f5407d7e58da8";
                      "a" := "49f68a5c8493ec2c0bf489821c21fc3b" ]}
                   : gmap string string) !! p = Some c.
Proof.
  apply (saved_manifest_is_sorted env10 fsFresh outPath
           {[ "b" := "bfa99df33b137bc8fb5f5407d7e58da8";
              "a" := "49f68a5c8493ec2c0bf489821c21fc3b" ]}).
  - vm_compute. reflexivity.
  - intros p c Hp.
    apply lookup_insert_Some in Hp as [[<- <-]|[_ Hp]].
    + repeat split; vm_compute; reflexivity.
    + apply lookup_singleton_Some in Hp as [<- <-].
      repeat split; vm_compute; reflexivity.
Defined.

(** The lines and the fields of a saved manifest. *)
Example saved_manifest_text :
  let text := "11  a.txt" ++ LF ++ "33  a/x" ++ LF ++ "22  b" ++ LF in
  ReadFile (writeChecksums env10 fsFresh outPath
              {[ "b" := "22"; "a/x" := "33"; "a.txt" := "11" ]}).1 outPath
  = Some text
  /\ splitLines text = ["11  a.txt"; "33  a/x"; "22  b"]
  /\ map fields (splitLines text)
     = [Some ("11", "a.txt"); Some ("33", "a/x"); Some ("22", "b")].
Proof. repeat split; vm_compute; reflexivity. Qed.

(** C7 as stated fails for the names [filepath.Walk] can deliver: a file
    name may hold a line feed. The first run over a directory with such
    a file and a file [b] saves three lines, whose paths are [a], [z] and
    [b]: they are not in ascending order. *)
Lemma saved_paths_out_of_order :
  let text := "49f68a5c8493ec2c0bf489821c21fc3b  a" ++ LF
              ++ "00000000000000000000000000000000  z" ++ LF
              ++ "bfa99df33b137bc8fb5f5407d7e58da8  b" ++ LF in
  exit (main env10 outPath fsNewline) = Returned
  /\ readChecksums fsNewline outPath = ∅
  /\ ReadFile (finalFS (main env10 outPath fsNewline)) outPath = Some text
  /\ splitLines text
     = ["49f68a5c8493ec2c0bf489821c21fc3b  a";
        "00000000000000000000000000000000  z";
        "bfa99df33b137bc8fb5f5407d7e58da8  b"]
  /\ map fields (splitLines text)
     = [Some ("49f68a5c8493ec2c0bf489821c21fc3b", "a");
        Some ("00000000000000000000000000000000", "z");
        Some ("bfa99df33b137bc8fb5f5407d7e58da8", "b")]
  /\ String.ltb "z" "b" = false.
Proof. repeat split; vm_compute; reflexivity. Qed.

(** Nor has every line the form checksum, two spaces, path: the name
    made of the lines [x] and [y] is saved as a line for [x] and a line
    [y] without checksum. *)
Example saved_line_without_checksum :
  ReadFile (finalFS (main env10 outPath fsTwoLines)) outPath
  = Some ("49f68a5c8493ec2c0bf489821c21fc3b  x" ++ LF ++ "y" ++ LF)
  /\ map fields
       (splitLines ("49f68a5c8493ec2c0bf489821c21fc3b  x" ++ LF ++ "y" ++ LF))
     = [Some ("49f68a5c8493ec2c0bf489821c21fc3b", "x"); None].
Proof. repeat split; vm_compute; reflexivity. Qed.

(** C8, as the code has it. A relative path that ends with the marker
    filename is skipped by the callback: the visit only logs, the path is
    not opened to be hashed during the run, and the walk leaves the entry
    of that path in the working manifest as the existing manifest has it.
    Such a path is therefore among the paths [writeChecksums] is given
    only when it was already a key of the existing manifest. And when
    the regular files the walk does not skip have plain paths,
    [readChecksums] finds such a path as a key in the output file the
    run leaves only with the checksum it had in the existing manifest. *)
Theorem marker_path_is_skipped env o fs rel :
  HasSuffix rel MD5TimestampFile = true ->
  (forall existing lastRun st info,
     walkFn fs existing lastRun st (rel, Regular info)
     = mkScan (changed st) (neededUpdate st) (processedCount st)
         (newChecksums st) (events st ++ [LogChecking rel; LogSkipping]))
  /\ (OpenToHash (Inside rel) ∉ output (main env o fs))
  /\ newChecksums (scan fs o) !! rel = readChecksums fs o !! rel
  /\ (rel ∈ sortedPaths (newChecksums (scan fs o))
      -> is_Some (readChecksums fs o !! rel))
  /\ ((forall r info, inside fs !! r = Some (Regular info) ->
                      HasSuffix r MD5TimestampFile = false ->
                      plainPath r = true) ->
      forall v,
        readChecksums (finalFS (main env o fs)) o !! rel = Some v ->
        readChecksums fs o !! rel = Some v).
Proof.
  intros Hsuffix.
  assert (newChecksums (scan fs o) !! rel = readChecksums fs o !! rel)
    as Hkeep.
  { destruct (inside fs !! rel) as [node|] eqn:Hin.
    - rewrite (scan_lookup fs o rel _ Hin).
      unfold stores, digests, hashes. simpl. rewrite Hsuffix.
      by destruct node.
    - by apply scan_lookup_absent. }
  split; [|split; [|split; [|split]]].
  - intros existing lastRun st info. unfold walkFn, Rel, emit. simpl.
    rewrite Hsuffix. by rewrite <- app_assoc.
  - intros Hout. apply main_hashed, scan_hashed in Hout.
    destruct Hout as (info & _ & Hs & _). congruence.
  - done.
  - rewrite elem_of_sortedPaths. by rewrite Hkeep.
  - intros Hplain v.
    destruct (main_output_file env o fs) as [Hfile|[Hfile|Hfile]];
      unfold readChecksums at 1; unfold ReadFile; rewrite Hfile.
    + done.
    + simpl. rewrite parse_manifestText by (by apply scan_readable).
      by rewrite Hkeep.
    + simpl. change (parseChecksums "") with (∅ : gmap string string).
      by rewrite lookup_empty.
Qed.

Lemma marker_path_is_skipped_witness :
  (forall existing lastRun st info,
     walkFn fsListed existing lastRun st (MD5TimestampFile, Regular info)
     = mkScan (changed st) (neededUpdate st) (processedCount st)
         (newChecksums st)
         (events st ++ [LogChecking MD5TimestampFile; LogSkipping]))
  /\ (OpenToHash (Inside MD5TimestampFile)
      ∉ output (main env20 outPath fsListed))
  /\ newChecksums (scan fsListed outPath) !! MD5TimestampFile
     = readChecksums fsListed outPath !! MD5TimestampFile
  /\ (MD5TimestampFile ∈ sortedPaths (newChecksums (scan fsListed outPath))
      -> is_Some (readChecksums fsListed outPath !! MD5TimestampFile))
  /\ (forall v,
        readChecksums (finalFS (main env20 outPath fsListed)) outPath
          !! MD5TimestampFile = Some v ->
        readChecksums fsListed outPath !! MD5TimestampFile = Some v).
Proof.
  destruct (marker_path_is_skipped env20 outPath fsListed MD5TimestampFile)
    as (Hvisit & Hopen & Hentry & Hpaths & Hfile).
  - vm_compute. reflexivity.
  - repeat split; try assumption.
    apply Hfile. intros r info Hin Hs. simpl in Hin.
    apply lookup_insert_Some in Hin as [[<- _]|[_ Hin]].
    + vm_compute. reflexivity.
    + apply lookup_singleton_Some in Hin as [<- _].
      vm_compute in Hs. discriminate.
Defined.

(** In that world the marker is not opened although it is a file of the
    directory, and the run, which saves a manifest for the new file
    [b.txt], returns. *)
Example marker_is_not_opened :
  output (main env20 outPath fsListed)
  = [LogChecking ".md5sum-timestamp"; LogSkipping; LogChecking "b.txt";
     OpenToHash (Inside "b.txt");
     CreateFile (Outside "/srv/md5sums.txt.tmp"); LogUpdatedChecksums;
     PrintContent
       ("d41d8cd98f00b204e9800998ecf8427e  .md5sum-timestamp" ++ LF
        ++ "bfa99df33b137bc8fb5f5407d7e58da8  b.txt" ++ LF);
     LogProcessed 1; LogEntries 2]
  /\ exit (main env20 outPath fsListed) = Returned.
Proof. repeat split; vm_compute; reflexivity. Qed.

(** Without plain paths the file can hold the marker as a key that no
    manifest had: a file named as the marker followed by a space is not
    skipped, and its line is read back under the marker's name; a file
    whose name holds a line for the marker between two line feeds puts
    that line into the file. *)
Example marker_key_from_other_names :
  readChecksums fsMarkerSpace outPath = ∅
  /\ ReadFile (finalFS (main env10 outPath fsMarkerSpace)) outPath
     = Some ("49f68a5c8493ec2c0bf489821c21fc3b  .md5sum-timestamp " ++ LF)
  /\ readChecksums (finalFS (main env10 outPath fsMarkerSpace)) outPath
       !! MD5TimestampFile
     = Some "49f68a5c8493ec2c0bf489821c21fc3b"
  /\ readChecksums fsMarkerLine outPath = ∅
  /\ ReadFile (finalFS (main env10 outPath fsMarkerLine)) outPath
     = Some ("49f68a5c8493ec2c0bf489821c21fc3b  x" ++ LF
             ++ "00000000000000000000000000000000  .md5sum-timestamp" ++ LF
             ++ "y" ++ LF)
  /\ readChecksums (finalFS (main env10 outPath fsMarkerLine)) outPath
       !! MD5TimestampFile
     = Some "00000000000000000000000000000000".
Proof. repeat split; vm_compute; reflexivity. Qed.

(** C8 as stated fails when the existing manifest already lists the
    marker file: the run that adds [b.txt] saves a manifest whose first
    line is the marker's. *)
Lemma marker_listed_in_saved_manifest :
  exit (main env20 outPath fsListed) = Returned
  /\ ReadFile (finalFS (main env20 outPath fsListed)) outPath
     = Some ("d41d8cd98f00b204e9800998ecf8427e  .md5sum-timestamp" ++ LF
             ++ "bfa99df33b137bc8fb5f5407d7e58da8  b.txt" ++ LF)
  /\ parseChecksums
       ("d41d8cd98f00b204e9800998ecf8427e  .md5sum-timestamp" ++ LF
        ++ "bfa99df33b137bc8fb5f5407d7e58da8  b.txt" ++ LF)
     !! MD5TimestampFile
     = Some "d41d8cd98f00b204e9800998ecf8427e".
Proof. repeat split; vm_compute; reflexivity. Qed.

(** C9. The working manifest starts as a copy of the existing one; after
    any part of the walk its key set contains the key set of the existing
    manifest; and every key of the existing manifest is among the paths
    that are saved. *)
Theorem existing_keys_are_kept fs o :
  newChecksums (startScan (readChecksums fs o)) = readChecksums fs o
  /\ (forall visited rest,
        Walk fs = (visited ++ rest)%list ->
        dom (readChecksums fs o)
        ⊆ dom (newChecksums
                 (fold_left
                    (walkFn fs (readChecksums fs o)
                       (getLastRunTime fs (Inside MD5TimestampFile)))
                    visited (startScan (readChecksums fs o)))))
  /\ (forall k, is_Some (readChecksums fs o !! k) ->
                k ∈ sortedPaths (newChecksums (scan fs o))).
Proof.
  split; [apply copyMap_id|]. split.
  - intros visited rest _. etrans; [|apply walk_dom].
    simpl. by rewrite copyMap_id.
  - intros k Hk. apply elem_of_sortedPaths, elem_of_dom.
    apply elem_of_dom in Hk.
    pose proof (walk_dom fs (readChecksums fs o)
      (getLastRunTime fs (Inside MD5TimestampFile)) (Walk fs)
      (startScan (readChecksums fs o))) as Hsub.
    simpl in Hsub. rewrite copyMap_id in Hsub. unfold scan. set_solver.
Qed.

Lemma existing_keys_are_kept_witness :
  ".md5sum-timestamp" ∈ sortedPaths (newChecksums (scan fsListed outPath)).
Proof.
  apply (existing_keys_are_kept fsListed outPath).
  eexists. vm_compute. reflexivity.
Defined.

(** C10. When the walk returns, the flag [changed] is set exactly when
    the working manifest differs from the existing one; [mapsEqual]
    therefore never decides the test that triggers the write. *)
Theorem changed_iff_manifests_differ fs o :
  (changed (scan fs o) = true
   <-> newChecksums (scan fs o) <> readChecksums fs o)
  /\ mapsEqual (readChecksums fs o) (newChecksums (scan fs o))
     = negb (changed (scan fs o))
  /\ negb (changed (scan fs o))
     && mapsEqual (readChecksums fs o) (newChecksums (scan fs o))
     = negb (changed (scan fs o)).
Proof.
  pose proof (scan_changed_iff fs o) as Hiff.
  assert (mapsEqual (readChecksums fs o) (newChecksums (scan fs o))
          = negb (changed (scan fs o))) as Heq.
  { destruct (changed (scan fs o)) eqn:Hch; simpl.
    - apply mapsEqual_false. intros Heq. by apply Hiff.
    - apply mapsEqual_true. symmetry.
      by apply (proj2 (scan_differs fs o)). }
  split; [done|]. split; [done|]. rewrite Heq. by rewrite andb_diag.
Qed.

(** * Further properties of the program *)

(** X1. [mapsEqual] decides the equality of two maps: it answers true
    exactly when they have the same keys with the same values, and it
    does not depend on the order of its arguments. *)
Theorem mapsEqual_decides_equality (a b : gmap string string) :
  (mapsEqual a b = true <-> a = b) /\ mapsEqual a b = mapsEqual b a.
Proof.
  split; [apply mapsEqual_true|].
  destruct (mapsEqual a b) eqn:Hab; destruct (mapsEqual b a) eqn:Hba;
    try done.
  - apply mapsEqual_true in Hab. apply mapsEqual_false in Hba. congruence.
  - apply mapsEqual_false in Hab. apply mapsEqual_true in Hba. congruence.
Qed.

(** X2. [fileMD5] fails exactly when the file cannot be read; the digest
    it returns otherwise is made of 32 lower-case hexadecimal digits. *)
Theorem fileMD5_digest_format fs path :
  (fileMD5 fs path = None <-> ReadFile fs path = None)
  /\ forall sum, fileMD5 fs path = Some sum ->
                 String.length sum = 32%nat /\ hexOnly sum = true.
Proof.
  unfold fileMD5. destruct (ReadFile fs path) as [bytes|]; split; try done.
  intros sum [= <-]. split; [apply md5hex_length|apply md5hex_hexOnly].
Qed.

Lemma fileMD5_digest_format_witness :
  String.length "49f68a5c8493ec2c0bf489821c21fc3b" = 32%nat
  /\ hexOnly "49f68a5c8493ec2c0bf489821c21fc3b" = true.
Proof.
  apply (proj2 (fileMD5_digest_format fsFresh (Inside "a.txt"))).
  vm_compute. reflexivity.
Defined.

(** X3. [writeChecksums] touches two paths only, the destination and its
    temporary file. When it succeeds the destination holds the manifest
    and the temporary file is gone; when it fails the destination is as
    it was. *)
Theorem writeChecksums_is_atomic env fs path checksums :
  let fs' := (writeChecksums env fs path checksums).1 in
  let ok := (writeChecksums env fs path checksums).2 in
  (forall q, q <> path -> q <> pathAppend path ".tmp" ->
             statFS fs' q = statFS fs q)
  /\ (ok = true ->
      statFS fs' path
      = Some (Regular (mkFile (now env) (Some (manifestText checksums))))
      /\ statFS fs' (pathAppend path ".tmp") = None)
  /\ (ok = false -> statFS fs' path = statFS fs path).
Proof.
  intros fs' ok. subst fs' ok. split; [|split].
  - intros q Hq Hq'. by apply writeChecksums_other.
  - destruct (writeChecksums env fs path checksums) as [fs1 b] eqn:Hw.
    simpl. intros ->. by apply writeChecksums_ok in Hw as (? & ? & _).
  - destruct (writeChecksums env fs path checksums) as [fs1 b] eqn:Hw.
    simpl. intros ->. by apply writeChecksums_failed in Hw.
Qed.

(** X4. In an existing directory, where [os.MkdirAll] finds nothing to
    create, [updateLastRun] on the marker's path, which is how [main]
    calls it, touches that path only. It returns exactly when none of
    its three system calls fails. When it returns, [getLastRunTime]
    reads back the instant of the update and the marker is an empty
    file; when it ends the process, the marker is either as it was or
    that new empty file. *)
Theorem updateLastRun_then_getLastRunTime env fs :
  rootExists fs = true ->
  let path := Inside MD5TimestampFile in
  let fs' := (updateLastRun env fs path).1 in
  let ok := (updateLastRun env fs path).2 in
  (forall q, q <> path -> statFS fs' q = statFS fs q)
  /\ rootExists fs' = true
  /\ (ok = true
      <-> mkdirFails (faults env) = false /\ openFails (faults env) = false
          /\ chtimesFails (faults env) = false)
  /\ (ok = true ->
      getLastRunTime fs' path = now env /\ ReadFile fs' path = Some "")
  /\ (ok = false ->
      statFS fs' path = statFS fs path
      \/ statFS fs' path = Some (Regular (mkFile (now env) (Some "")))).
Proof.
  intros Hroot path fs' ok. subst path fs' ok.
  split; [|split; [|split; [|split]]].
  - intros q Hq. by apply updateLastRun_other.
  - by rewrite rootExists_updateLastRun.
  - unfold updateLastRun.
    destruct (mkdirFails (faults env)); [naive_solver|].
    destruct (openFails (faults env)); [naive_solver|].
    destruct (chtimesFails (faults env)); naive_solver.
  - destruct (updateLastRun env fs (Inside MD5TimestampFile))
      as [fs1 b] eqn:Hu. simpl.
    intros ->. apply updateLastRun_ok in Hu as ->.
    unfold getLastRunTime, ReadFile. by rewrite statFS_putFS.
  - unfold updateLastRun.
    destruct (mkdirFails (faults env)); [by left|].
    destruct (openFails (faults env)); [by left|].
    destruct (chtimesFails (faults env)); simpl; [|done].
    intros _. right. apply lookup_insert_eq.
Qed.

Lemma updateLastRun_then_getLastRunTime_witness :
  let path := Inside MD5TimestampFile in
  let fs' := (updateLastRun env20 fsScanned path).1 in
  let ok := (updateLastRun env20 fsScanned path).2 in
  (forall q, q <> path -> statFS fs' q = statFS fsScanned q)
  /\ rootExists fs' = true
  /\ (ok = true
      <-> mkdirFails (faults env20) = false
          /\ openFails (faults env20) = false
          /\ chtimesFails (faults env20) = false)
  /\ (ok = true ->
      getLastRunTime fs' path = 20 /\ ReadFile fs' path = Some "")
  /\ (ok = false ->
      statFS fs' path = statFS fsScanned path
      \/ statFS fs' path = Some (Regular (mkFile 20 (Some "")))).
Proof.
  apply (updateLastRun_then_getLastRunTime env20 fsScanned).
  vm_compute. reflexivity.
Defined.

(** The marker of instant 10 becomes the marker of instant 20. *)
Example marker_is_advanced :
  getLastRunTime fsScanned (Inside MD5TimestampFile) = 10
  /\ (updateLastRun env20 fsScanned (Inside MD5TimestampFile)).2 = true
  /\ getLastRunTime
       (updateLastRun env20 fsScanned (Inside MD5TimestampFile)).1
       (Inside MD5TimestampFile) = 20.
Proof. repeat split; vm_compute; reflexivity. Qed.

(** X5. At the end of the walk, a regular file that is not skipped, is
    stale and can be read has the MD5 digest of its bytes as its entry in
    the working manifest, whatever entry it had before. *)
Theorem stale_file_gets_current_digest fs o rel info bytes :
  inside fs !! rel = Some (Regular info) ->
  HasSuffix rel MD5TimestampFile = false ->
  needsUpdate (readChecksums fs o)
    (getLastRunTime fs (Inside MD5TimestampFile)) rel info = true ->
  content info = Some bytes ->
  newChecksums (scan fs o) !! rel = Some (md5hex bytes).
Proof.
  intros Hin Hsuffix Hstale Hbytes.
  rewrite (scan_lookup fs o rel _ Hin).
  unfold stores, digests, hashes, fileMD5, ReadFile. simpl.
  rewrite Hsuffix, Hstale, Hin, Hbytes. simpl.
  destruct (String.eqb _ _) eqn:Heq; [|done].
  apply String.eqb_eq in Heq. unfold mapGet in Heq.
  destruct (readChecksums fs o !! rel) as [v|]; simpl in Heq; [by subst|].
  symmetry in Heq. by apply md5hex_nonempty in Heq.
Qed.

Lemma stale_file_gets_current_digest_witness :
  newChecksums (scan fsEdited outPath) !! "a.txt"
  = Some (md5hex "bye").
Proof.
  apply (stale_file_gets_current_digest fsEdited outPath "a.txt"
           (mkFile 12 (Some "bye")) "bye").
  - vm_compute. reflexivity.
  - vm_compute. reflexivity.
  - vm_compute. reflexivity.
  - reflexivity.
Defined.

(** X6. At the end of the walk, every other path has the entry of the
    existing manifest, or none if it had none: a path with no regular
    file in the tree (a deleted file stays listed), a skipped path, a
    file that is not stale, and a stale file whose hashing fails. *)
Theorem other_entries_are_kept fs o k :
  (forall info,
     inside fs !! k = Some (Regular info) ->
     HasSuffix k MD5TimestampFile = true
     \/ needsUpdate (readChecksums fs o)
          (getLastRunTime fs (Inside MD5TimestampFile)) k info = false
     \/ content info = None) ->
  newChecksums (scan fs o) !! k = readChecksums fs o !! k.
Proof.
  intros Hk. destruct (inside fs !! k) as [node|] eqn:Hin.
  2:{ by apply scan_lookup_absent. }
  rewrite (scan_lookup fs o k _ Hin).
  unfold stores, digests, hashes, fileMD5, ReadFile. simpl.
  destruct node as [info| |]; try done.
  rewrite Hin. simpl.
  destruct (Hk info eq_refl) as [->| [->| ->]]; simpl; try done.
  - by rewrite andb_false_r.
  - by destruct (_ && _).
Qed.

Lemma other_entries_are_kept_witness :
  newChecksums (scan fsGone outPath) !! "old.txt"
  = readChecksums fsGone outPath !! "old.txt".
Proof.
  apply (other_entries_are_kept fsGone outPath "old.txt").
  intros info Hin. vm_compute in Hin. discriminate.
Defined.

(** X7. A run touches no path other than the manifest's, that of its
    temporary file and the marker's: at every other path, inside the
    scanned directory or not, the file system is as it was. The three
    paths themselves are not covered, also when a scanned file is at one
    of them. *)
Theorem main_touches_only_its_files env o fs q :
  q <> o -> q <> pathAppend o ".tmp" -> q <> Inside MD5TimestampFile ->
  statFS (finalFS (main env o fs)) q = statFS fs q.
Proof.
  intros Hq Htmp Hmark.
  destruct (rootExists fs) eqn:Hroot.
  2:{ unfold main. by rewrite Hroot. }
  destruct (changed (scan fs o)) eqn:Hch.
  - rewrite main_writes by done. simpl.
    pose proof (writeChecksums_other env fs o (newChecksums (scan fs o)) q
                  Hq Htmp) as Hw.
    destruct (writeChecksums _ _ _ _) as [fs1 [|]]; simpl in *; [|done].
    pose proof (updateLastRun_other env fs1 (Inside MD5TimestampFile) q Hmark)
      as Hu.
    destruct (updateLastRun _ _ _) as [fs2 [|]]; simpl in *; congruence.
  - by apply main_keeps_files.
Qed.

Lemma main_touches_only_its_files_witness :
  statFS (finalFS (main env20 outPath fsEdited)) (Inside "a.txt")
  = statFS fsEdited (Inside "a.txt").
Proof.
  apply (main_touches_only_its_files env20 outPath fsEdited (Inside "a.txt"));
    discriminate.
Defined.

(** At the three paths a scanned file is not safe: with the manifest
    at its default place, a scanned file [md5sums.txt.tmp] is hashed,
    then truncated by [os.Create] and moved away by [os.Rename]. *)
Example scanned_temporary_file_is_removed :
  statFS fsTmp (Inside "md5sums.txt.tmp")
  = Some (Regular (mkFile 5 (Some "draft")))
  /\ exit (main env10 inTree fsTmp) = Returned
  /\ statFS (finalFS (main env10 inTree fsTmp)) (Inside "md5sums.txt.tmp")
     = None
  /\ is_Some (newChecksums (scan fsTmp inTree) !! "md5sums.txt.tmp").
Proof. repeat split; try (vm_compute; reflexivity). vm_compute. eauto. Qed.

(** X8. When the directory exists and no file of the walk is stale, the
    run opens no file to hash, reports that nothing changed, returns, and
    leaves the file system exactly as it was, marker included. *)
Theorem run_without_stale_file_is_idle env o fs :
  rootExists fs = true ->
  (forall rel info,
     inside fs !! rel = Some (Regular info) ->
     HasSuffix rel MD5TimestampFile = false ->
     needsUpdate (readChecksums fs o)
       (getLastRunTime fs (Inside MD5TimestampFile)) rel info = false) ->
  finalFS (main env o fs) = fs
  /\ exit (main env o fs) = Returned
  /\ (LogNoChanges o ∈ output (main env o fs))
  /\ forall p, OpenToHash p ∉ output (main env o fs).
Proof.
  intros Hroot Hfresh.
  assert (forall e, e ∈ Walk fs ->
            hashes (readChecksums fs o)
              (getLastRunTime fs (Inside MD5TimestampFile)) e = false)
    as Hnone.
  { intros [rel node] Hin%elem_of_Walk. unfold hashes. simpl.
    destruct node as [info| |]; try done.
    destruct (HasSuffix rel MD5TimestampFile) eqn:Hs; [done|].
    simpl. by apply Hfresh. }
  assert (neededUpdate (scan fs o) = false) as Hneeded.
  { destruct (neededUpdate (scan fs o)) eqn:Hn; [|done].
    rewrite scan_start in Hn. apply walk_neededUpdate in Hn.
    destruct Hn as [Hn|(e & He & Hd)]; [done|].
    unfold digests in Hd. rewrite (Hnone e He) in Hd. by destruct Hd. }
  assert (changed (scan fs o) = false) as Hch.
  { destruct (changed (scan fs o)) eqn:Hc; [|done].
    rewrite scan_start in Hc. apply walk_changed in Hc.
    destruct Hc as [Hc|(e & He & Hd)]; [done|].
    unfold stores, digests in Hd. rewrite (Hnone e He) in Hd.
    by destruct Hd. }
  split; [|split; [|split]].
  - rewrite main_keeps by done. simpl. by rewrite Hneeded.
  - rewrite main_keeps by done. simpl. by rewrite Hneeded.
  - by apply main_reports_no_changes.
  - intros p Hp. apply main_hashed in Hp.
    rewrite scan_start in Hp. apply walk_hashed in Hp. simpl in Hp.
    destruct Hp as [Hp|(e & He & _ & Hh)]; [by apply elem_of_nil in Hp|].
    by rewrite (Hnone e He) in Hh.
Qed.

Lemma run_without_stale_file_is_idle_witness :
  finalFS (main env20 outPath fsScanned) = fsScanned
  /\ exit (main env20 outPath fsScanned) = Returned
  /\ (LogNoChanges outPath ∈ output (main env20 outPath fsScanned))
  /\ forall p, OpenToHash p ∉ output (main env20 outPath fsScanned).
Proof.
  apply (run_without_stale_file_is_idle env20 outPath fsScanned).
  - reflexivity.
  - intros rel info Hin Hs. simpl in Hin.
    apply lookup_insert_Some in Hin as [[<- [= <-]]|[_ Hin]].
    + vm_compute. reflexivity.
    + apply lookup_singleton_Some in Hin as [<- _].
      vm_compute in Hs. discriminate.
Defined.

(** X9. When a write is triggered and a system call of
    [writeChecksums] fails, the run ends with [log.Fatal] before
    [updateLastRun] is reached: no path but the temporary file's is
    touched, so that the output file and the marker are as they were,
    and the updated checksums are not printed. *)
Theorem failed_save_leaves_marker env o fs :
  rootExists fs = true ->
  changed (scan fs o) = true ->
  writeFails env (newChecksums (scan fs o)) = true ->
  let out := main env o fs in
  exit out = Fatal
  /\ (forall q, q <> pathAppend o ".tmp" ->
                statFS (finalFS out) q = statFS fs q)
  /\ statFS (finalFS out) o = statFS fs o
  /\ getLastRunTime (finalFS out) (Inside MD5TimestampFile)
     = getLastRunTime fs (Inside MD5TimestampFile)
  /\ output out
     = (events (scan fs o)
        ++ [CreateFile (pathAppend o ".tmp"); LogFatal])%list.
Proof.
  intros Hroot Hch Hfail out. subst out.
  destruct (main_failed_save env o fs Hroot Hch Hfail) as [Hexit Hkeep].
  split; [done|]. split; [done|]. split; [|split].
  - apply Hkeep, not_eq_sym, pathAppend_ne.
  - unfold getLastRunTime.
    by rewrite (Hkeep _ (not_eq_sym (tmp_is_not_marker o))).
  - rewrite main_writes by done. simpl.
    pose proof (writeChecksums_flag env fs o (newChecksums (scan fs o)))
      as Hflag.
    rewrite Hfail in Hflag.
    destruct (writeChecksums _ _ _ _) as [fs1 [|]]; [done|]. simpl.
    by rewrite <- app_assoc.
Qed.

Lemma failed_save_leaves_marker_witness :
  let out := main envNoRename outPath fsEdited in
  exit out = Fatal
  /\ (forall q, q <> pathAppend outPath ".tmp" ->
                statFS (finalFS out) q = statFS fsEdited q)
  /\ statFS (finalFS out) outPath = statFS fsEdited outPath
  /\ getLastRunTime (finalFS out) (Inside MD5TimestampFile)
     = getLastRunTime fsEdited (Inside MD5TimestampFile)
  /\ output out
     = (events (scan fsEdited outPath)
        ++ [CreateFile (pathAppend outPath ".tmp"); LogFatal])%list.
Proof.
  apply (failed_save_leaves_marker envNoRename outPath fsEdited);
    vm_compute; reflexivity.
Defined.

(** In that run [os.Rename] fails: the new manifest stays in the
    temporary file, the manifest and the marker of instant 10 are as they
    were. *)
Example failed_rename_leaves_temporary_file :
  let out := main envNoRename outPath fsEdited in
  ReadFile (finalFS out) (Outside "/srv/md5sums.txt.tmp")
  = Some ("bfa99df33b137bc8fb5f5407d7e58da8  a.txt" ++ LF)
  /\ ReadFile (finalFS out) outPath
     = Some ("49f68a5c8493ec2c0bf489821c21fc3b  a.txt" ++ LF)
  /\ getLastRunTime (finalFS out) (Inside MD5TimestampFile) = 10.
Proof. repeat split; vm_compute; reflexivity. Qed.

(** X10. The outcome of the walk does not depend on the order in which
    the entries are visited: in any other order the flags [changed] and
    [neededUpdate] and the working manifest are the same. *)
Theorem walk_order_is_irrelevant fs o entries :
  entries ≡ₚ Walk fs ->
  let st := fold_left
              (walkFn fs (readChecksums fs o)
                 (getLastRunTime fs (Inside MD5TimestampFile)))
              entries (startScan (readChecksums fs o)) in
  changed st = changed (scan fs o)
  /\ neededUpdate st = neededUpdate (scan fs o)
  /\ newChecksums st = newChecksums (scan fs o).
Proof.
  intros Hperm st. subst st. unfold scan.
  set (existing := readChecksums fs o).
  set (lastRun := getLastRunTime fs (Inside MD5TimestampFile)).
  set (st0 := startScan existing).
  assert (forall b1 b2 : bool, (b1 = true <-> b2 = true) -> b1 = b2) as Hbool.
  { intros [] [] [? ?]; auto. symmetry. auto. }
  split; [|split].
  - apply Hbool. rewrite !walk_changed. by setoid_rewrite Hperm.
  - apply Hbool. rewrite !walk_neededUpdate. by setoid_rewrite Hperm.
  - apply map_eq. intros k.
    assert (NoDup (Walk fs).*1) as Hnd by apply NoDup_Walk.
    assert (NoDup entries.*1) as Hnd' by by rewrite Hperm.
    destruct (decide (k ∈ (Walk fs).*1)) as [Hk|Hk].
    + apply list_elem_of_fmap in Hk as (e & -> & He).
      rewrite !walk_lookup; try done. by rewrite Hperm.
    + rewrite !walk_lookup_other; try done. by rewrite Hperm.
Qed.

Lemma walk_order_is_irrelevant_witness :
  let st := fold_left
              (walkFn fsDeep (readChecksums fsDeep outPath)
                 (getLastRunTime fsDeep (Inside MD5TimestampFile)))
              (reverse (Walk fsDeep))
              (startScan (readChecksums fsDeep outPath)) in
  changed st = changed (scan fsDeep outPath)
  /\ neededUpdate st = neededUpdate (scan fsDeep outPath)
  /\ newChecksums st = newChecksums (scan fsDeep outPath).
Proof.
  apply (walk_order_is_irrelevant fsDeep outPath (reverse (Walk fsDeep))).
  apply reverse_Permutation.
Defined.

(** ** The counter of processed files *)

Lemma incr_small n : 0 <= n -> n + 1 < 2 ^ 63 -> incr n = n + 1.
Proof. intros H0 H1. unfold incr. rewrite Z.mod_small; lia. Qed.

Lemma changedEntries_same (m : gmap string string) : changedEntries m m = ∅.
Proof.
  apply map_eq. intros k. rewrite lookup_empty.
  apply map_lookup_filter_None. right. intros v Hv. simpl. by intros [].
Qed.

Lemma walk_processedCount fs existing lastRun l st :
  NoDup l.*1 ->
  (forall k, k ∈ l.*1 ->
             changedEntries existing (newChecksums st) !! k = None) ->
  processedCount st
  = Z.of_nat (size (changedEntries existing (newChecksums st))) ->
  Z.of_nat (size (changedEntries existing (newChecksums st)))
  + Z.of_nat (length l) < 2 ^ 63 ->
  processedCount (fold_left (walkFn fs existing lastRun) l st)
  = Z.of_nat
      (size (changedEntries existing
               (newChecksums (fold_left (walkFn fs existing lastRun) l st)))).
Proof.
  revert st. induction l as [|e l IH]; intros st Hnd Hfresh Hcount Hbound;
    simpl; [done|].
  rewrite fmap_cons in Hnd. apply NoDup_cons in Hnd as [Hnotin Hnd].
  cbn [length] in Hbound. rewrite Nat2Z.inj_succ in Hbound.
  assert (changedEntries existing (newChecksums st) !! e.1 = None) as He.
  { apply Hfresh. rewrite fmap_cons. left. }
  apply IH; [done|..].
  - intros k Hk. rewrite step_newChecksums.
    assert (changedEntries existing (newChecksums st) !! k = None) as Hk'.
    { apply Hfresh. rewrite fmap_cons. by right. }
    destruct (stores fs existing lastRun e) as [sum|] eqn:Hst; [|done].
    unfold changedEntries.
    rewrite map_filter_insert_True
      by (simpl; apply (stores_differs fs existing lastRun e sum Hst)).
    rewrite lookup_insert_ne; [done|]. by intros <-.
  - rewrite step_processedCount, step_newChecksums.
    destruct (stores fs existing lastRun e) as [sum|] eqn:Hst; [|done].
    unfold changedEntries.
    rewrite map_filter_insert_True
      by (simpl; apply (stores_differs fs existing lastRun e sum Hst)).
    rewrite map_size_insert_None by done.
    rewrite Hcount, incr_small; unfold changedEntries in *; lia.
  - rewrite step_newChecksums.
    destruct (stores fs existing lastRun e) as [sum|] eqn:Hst; [|lia].
    unfold changedEntries in *.
    rewrite map_filter_insert_True
      by (simpl; apply (stores_differs fs existing lastRun e sum Hst)).
    rewrite map_size_insert_None by done. lia.
Qed.

(** X11. As long as the counter does not overflow (fewer than 2^63
    entries under the directory), the number of processed files that a
    run reports is the number of entries of the working manifest that
    the existing manifest does not have: the paths added and the paths
    whose digest changed. *)
Theorem processedCount_counts_changed_entries fs o :
  Z.of_nat (size (inside fs)) < 2 ^ 63 ->
  processedCount (scan fs o)
  = Z.of_nat (size (changedEntries (readChecksums fs o)
                      (newChecksums (scan fs o)))).
Proof.
  intros Hbound. rewrite scan_start.
  apply walk_processedCount; simpl.
  - apply NoDup_Walk.
  - intros k _. by rewrite changedEntries_same.
  - by rewrite changedEntries_same.
  - rewrite changedEntries_same, map_size_empty.
    unfold Walk. rewrite merge_sort_Permutation, length_map_to_list. lia.
Qed.

Lemma processedCount_counts_changed_entries_witness :
  processedCount (scan fsEdited outPath)
  = Z.of_nat (size (changedEntries (readChecksums fsEdited outPath)
                      (newChecksums (scan fsEdited outPath)))).
Proof.
  apply (processedCount_counts_changed_entries fsEdited outPath).
  vm_compute. reflexivity.
Defined.

Example processedCount_of_edit : processedCount (scan fsEdited outPath) = 1.
Proof. vm_compute. reflexivity. Qed.

(** ** Saving and loading a manifest *)

Lemma checksum_readable sum path :
  String.length sum = 32%nat -> hexOnly sum = true -> plainPath path = true ->
  readable sum path.
Proof.
  intros Hlen Hhex. unfold plainPath.
  rewrite !andb_true_iff, !negb_true_iff.
  intros [[[Hne Hlf] Htail] Hshort].
  apply String.eqb_neq in Hne. apply N.ltb_lt in Hshort.
  split; [|by apply hexOnly_SplitN2].
  apply canonical_spec. split; [|split; [|split]].
  - apply hexOnly_head; [done|]. by intros ->.
  - rewrite rev_append, (rev_append "  " path).
    change (String.rev "  ") with "  ". rewrite append_assoc.
    apply headSpace_back_spaces; [done|].
    intros Hrev. apply Hne. by rewrite <- (rev_involutive path), Hrev.
  - rewrite !noLF_append, Hlf, (hexOnly_noLF _ Hhex). done.
  - unfold fitsBuffer. rewrite !length_append, Hlen.
    apply N.ltb_lt. unfold MaxScanTokenSize in *. simpl String.length. lia.
Qed.

(** X12. A manifest of 32-digit hexadecimal checksums and plain paths
    that [writeChecksums] has saved is loaded back by [readChecksums] as
    the same map. *)
Theorem written_manifest_reads_back env fs path checksums fs' :
  writeChecksums env fs path checksums = (fs', true) ->
  (forall k v, checksums !! k = Some v ->
               String.length v = 32%nat /\ hexOnly v = true
               /\ plainPath k = true) ->
  readChecksums fs' path = checksums.
Proof.
  intros Hw Hgood. apply writeChecksums_ok in Hw as (Hfile & _ & _).
  unfold readChecksums, ReadFile. rewrite Hfile. simpl.
  apply parse_manifestText. intros k v Hkv.
  destruct (Hgood k v Hkv) as (Hlen & Hhex & Hplain).
  by apply checksum_readable.
Qed.

Lemma written_manifest_reads_back_witness :
  readChecksums
    (writeChecksums env10 fsFresh outPath
       {[ "sub/a b.txt" := "49f68a5c8493ec2c0bf489821c21fc3b" ]}).1 outPath
  = {[ "sub/a b.txt" := "49f68a5c8493ec2c0bf489821c21fc3b" ]}.
Proof.
  apply (written_manifest_reads_back env10 fsFresh outPath
           {[ "sub/a b.txt" := "49f68a5c8493ec2c0bf489821c21fc3b" ]}).
  - vm_compute. reflexivity.
  - intros k v [<- <-]%lookup_singleton_Some.
    repeat split; vm_compute; reflexivity.
Defined.

(** X13. Whatever a manifest file holds, the map [readChecksums] loads
    from it is loaded back unchanged once [writeChecksums] has saved it:
    loading normalises, saving and loading again changes nothing. *)
Theorem loaded_manifest_is_stable env fs source fs0 path fs' :
  writeChecksums env fs path (readChecksums fs0 source) = (fs', true) ->
  readChecksums fs' path = readChecksums fs0 source.
Proof.
  intros Hw. apply writeChecksums_ok in Hw as (Hfile & _ & _).
  unfold readChecksums at 1. unfold ReadFile. rewrite Hfile. simpl.
  apply parse_manifestText. intros k v.
  unfold readChecksums. destruct (ReadFile fs0 source); [|done].
  apply parseChecksums_readable.
Qed.

Lemma loaded_manifest_is_stable_witness :
  readChecksums
    (writeChecksums env10 fsFresh (Outside "/srv/copy.txt")
       (readChecksums fsGone outPath)).1 (Outside "/srv/copy.txt")
  = readChecksums fsGone outPath.
Proof.
  apply (loaded_manifest_is_stable env10 fsFresh outPath fsGone
           (Outside "/srv/copy.txt")).
  vm_compute. reflexivity.
Defined.

(** X14. When a run returns and the manifest is not at the marker's
    path, the manifest file it leaves loads back as the working manifest
    of the run, provided the regular files the walk does not skip have
    plain paths. *)
Theorem manifest_on_disk_is_the_working_manifest env o fs :
  exit (main env o fs) = Returned ->
  o <> Inside MD5TimestampFile ->
  (forall rel info, inside fs !! rel = Some (Regular info) ->
                    HasSuffix rel MD5TimestampFile = false ->
                    plainPath rel = true) ->
  readChecksums (finalFS (main env o fs)) o = newChecksums (scan fs o).
Proof.
  intros Hexit Ho Hplain.
  destruct (rootExists fs) eqn:Hroot.
  2:{ unfold main in Hexit. by rewrite Hroot in Hexit. }
  destruct (changed (scan fs o)) eqn:Hch.
  - assert ((writeChecksums env fs o (newChecksums (scan fs o))).2 = true)
      as Hsaved.
    { rewrite main_writes in Hexit by done. simpl in Hexit.
      by destruct (writeChecksums _ _ _ _) as [fs1 [|]]. }
    unfold readChecksums at 1. unfold ReadFile.
    rewrite main_saves by done. simpl.
    apply parse_manifestText. by apply scan_readable.
  - destruct (main_keeps_files env o fs Hroot Hch) as [Hkeep _].
    unfold readChecksums at 1. unfold ReadFile. rewrite (Hkeep o Ho).
    symmetry. by apply scan_differs.
Qed.

Lemma manifest_on_disk_is_the_working_manifest_witness :
  readChecksums (finalFS (main env20 outPath fsEdited)) outPath
  = newChecksums (scan fsEdited outPath).
Proof.
  apply (manifest_on_disk_is_the_working_manifest env20 outPath fsEdited).
  - vm_compute. reflexivity.
  - discriminate.
  - intros rel info Hin Hs. simpl in Hin.
    apply lookup_insert_Some in Hin as [[<- _]|[_ Hin]].
    + vm_compute. reflexivity.
    + apply lookup_singleton_Some in Hin as [<- _].
      vm_compute in Hs. discriminate.
Defined.

(** X15. On a first run, with no manifest to load, the working manifest
    at the end of the walk lists exactly the regular files that are not
    skipped and can be read, each with the MD5 digest of its bytes. *)
Theorem first_manifest_lists_the_readable_files fs o k :
  ReadFile fs o = None ->
  newChecksums (scan fs o) !! k
  = match inside fs !! k with
    | Some (Regular info) =>
        if HasSuffix k MD5TimestampFile then None
        else md5hex <$> content info
    | _ => None
    end.
Proof.
  intros Hnone.
  assert (readChecksums fs o = ∅) as Hempty.
  { unfold readChecksums. by rewrite Hnone. }
  destruct (inside fs !! k) as [node|] eqn:Hin.
  2:{ by rewrite scan_lookup_absent, Hempty. }
  rewrite (scan_lookup fs o k _ Hin), Hempty.
  unfold stores, digests, hashes, needsUpdate, fileExistsInChecksums,
    fileMD5, ReadFile, mapGet. simpl.
  rewrite !lookup_empty, Hin. simpl.
  destruct node as [info| |]; try done.
  destruct (HasSuffix k MD5TimestampFile); simpl; [done|].
  rewrite orb_true_r. destruct (content info) as [bytes|]; simpl; [|done].
  pose proof (md5hex_nonempty bytes) as Hne.
  by destruct (md5hex bytes).
Qed.

Lemma first_manifest_lists_the_readable_files_witness :
  newChecksums (scan fsFresh outPath) !! "a.txt"
  = match inside fsFresh !! "a.txt" with
    | Some (Regular info) =>
        if HasSuffix "a.txt" MD5TimestampFile then None
        else md5hex <$> content info
    | _ => None
    end.
Proof.
  apply (first_manifest_lists_the_readable_files fsFresh outPath "a.txt").
  reflexivity.
Defined.

(** ** What [readChecksums] loads *)

Lemma prefix_length a s :
  String.prefix a s = true -> (String.length a <= String.length s)%nat.
Proof.
  intros Hp%prefix_split. apply (f_equal String.length) in Hp.
  rewrite length_append in Hp. lia.
Qed.

Lemma prefix_append a s r :
  String.prefix a s = true -> String.prefix a (s ++ r) = true.
Proof.
  revert s. induction a as [|c a IH]; intros s.
  - intros _. by destruct (s ++ r).
  - destruct s as [|c' s]; [done|]. rewrite append_cons. simpl.
    destruct (ascii_dec c c'); [apply IH|done].
Qed.

Lemma Index_bound s sep i :
  Index s sep = Some i -> (i + String.length sep <= String.length s)%nat.
Proof.
  revert i. induction s as [|c s IH]; intros i.
  - destruct sep; [|done]. by intros [= <-].
  - rewrite Index_cons.
    destruct (String.prefix sep (String c s)) eqn:Hp.
    + intros [= <-]. by apply prefix_length in Hp.
    + destruct (Index s sep) as [j|] eqn:Hj; [|done].
      intros [= <-]. specialize (IH j eq_refl). simpl. lia.
Qed.

Lemma length_substring_0 i s :
  (i <= String.length s)%nat -> String.length (substring 0 i s) = i.
Proof.
  revert s. induction i as [|i IH]; intros s Hi.
  - by rewrite substring_0_0.
  - destruct s as [|c s]; simpl in *; [lia|]. rewrite IH; [done|lia].
Qed.

Lemma Index_append s sep r j :
  Index s sep = Some j ->
  exists j', (j' <= j)%nat /\ Index (s ++ r) sep = Some j'.
Proof.
  revert j. induction s as [|c s IH]; intros j.
  - destruct sep; [|done]. intros [= <-]. exists O. split; [done|].
    rewrite append_nil_l. by destruct r.
  - rewrite append_cons, !Index_cons.
    destruct (String.prefix sep (String c s)) eqn:Hp.
    + intros [= <-]. exists O. split; [done|].
      apply (prefix_append _ _ r) in Hp. rewrite append_cons in Hp.
      by rewrite Hp.
    + destruct (Index s sep) as [j0|] eqn:Hj; [|done].
      intros [= <-]. destruct (IH j0 eq_refl) as (j' & Hle & Hj').
      destruct (String.prefix sep (String c (s ++ r))).
      * exists O. split; [lia|done].
      * exists (S j'). rewrite Hj'. split; [lia|done].
Qed.

Lemma readable_fields sum path :
  readable sum path ->
  path <> "" /\ sum <> ""
  /\ noLF path = true /\ noLF sum = true
  /\ headSpace false sum = false
  /\ headSpace true (String.rev path) = false
  /\ Index sum "  " = None.
Proof.
  intros [Hc Hs]. apply canonical_spec in Hc as (Hh & Ht & Hlf & _).
  rewrite !noLF_append in Hlf.
  apply andb_true_iff in Hlf as [Hlfs [_ Hlfp]%andb_true_iff].
  rewrite rev_append, (rev_append "  " path) in Ht.
  change (String.rev "  ") with "  " in Ht. rewrite append_assoc in Ht.
  split; [|split; [|split; [|split; [|split; [|split]]]]]; try done.
  - intros ->. by rewrite append_nil_l in Ht.
  - intros ->. by rewrite append_nil_l in Hh.
  - by apply headSpace_prefix in Hh.
  - by apply headSpace_prefix in Ht.
  - unfold SplitN2 in Hs.
    destruct (Index (sum ++ "  " ++ path) "  ") as [i|] eqn:Hi; [|done].
    injection Hs as Hsum _.
    pose proof (Index_bound _ _ _ Hi) as Hbound.
    assert (String.length sum = i) as Hlen.
    { rewrite <- Hsum at 1. apply length_substring_0. lia. }
    destruct (Index sum "  ") as [j|] eqn:Hj; [|done].
    pose proof (Index_bound _ _ _ Hj) as Hbj. simpl in Hbj.
    destruct (Index_append sum "  " ("  " ++ path) j Hj) as (j' & Hle & Hj').
    rewrite Hi in Hj'. injection Hj' as <-. lia.
Qed.

(** X16. Every entry [readChecksums] loads has a path and a checksum
    that are not empty and hold no line feed; the checksum does not start
    with white space and holds no two consecutive spaces, and the path
    does not end with white space. *)
Theorem loaded_entries_are_well_formed fs source k v :
  readChecksums fs source !! k = Some v ->
  k <> "" /\ v <> ""
  /\ noLF k = true /\ noLF v = true
  /\ headSpace false v = false
  /\ headSpace true (String.rev k) = false
  /\ Index v "  " = None.
Proof.
  unfold readChecksums. destruct (ReadFile fs source) as [text|]; [|done].
  intros Hkv. by apply readable_fields, (parseChecksums_readable text).
Qed.

Lemma loaded_entries_are_well_formed_witness :
  "old.txt" <> "" /\ "bfa99df33b137bc8fb5f5407d7e58da8" <> ""
  /\ noLF "old.txt" = true /\ noLF "bfa99df33b137bc8fb5f5407d7e58da8" = true
  /\ headSpace false "bfa99df33b137bc8fb5f5407d7e58da8" = false
  /\ headSpace true (String.rev "old.txt") = false
  /\ Index "bfa99df33b137bc8fb5f5407d7e58da8" "  " = None.
Proof.
  apply (loaded_entries_are_well_formed fsGone outPath).
  vm_compute. reflexivity.
Defined.

Example loaded_entries_ex :
  map_to_list (parseChecksums
    ("  11  a  " ++ LF ++ "no separator" ++ LF ++ LF
     ++ "22   b  c" ++ String "013" LF ++ "33  a"))
  ≡ₚ [("a", "33"); (" b  c", "22")].
Proof. vm_compute. apply Permutation_refl || apply perm_swap. Qed.

Lemma splitLines_ends a : splitLines (a ++ LF) <> [].
Proof.
  induction a as [|c a IH]; [done|]. rewrite append_cons. simpl.
  destruct (Ascii.eqb c "010"); [done|].
  by destruct (splitLines (a ++ LF)).
Qed.

Lemma splitLines_app a b :
  splitLines ((a ++ LF) ++ b) = (splitLines (a ++ LF) ++ splitLines b)%list.
Proof.
  induction a as [|c a IH]; [done|]. rewrite !append_cons. simpl.
  destruct (Ascii.eqb c "010"); [by rewrite IH|].
  rewrite IH. pose proof (splitLines_ends a) as Hne.
  by destruct (splitLines (a ++ LF)).
Qed.

Lemma whilst_app_all {A} (p : A -> bool) l1 l2 :
  forallb p l1 = true -> whilst p (l1 ++ l2) = (l1 ++ whilst p l2)%list.
Proof.
  induction l1 as [|x l1 IH]; simpl; [done|].
  intros [-> Hl]%andb_true_iff. by rewrite IH.
Qed.

Lemma whilst_app_stop {A} (p : A -> bool) l1 x l2 :
  p x = false -> whilst p (l1 ++ x :: l2) = whilst p l1.
Proof.
  intros Hx. induction l1 as [|y l1 IH]; simpl; [by rewrite Hx|].
  destruct (p y); [by rewrite IH|done].
Qed.

(** X17. A later line overrides the earlier ones: when the lines of a
    manifest fit the scanner, a well-formed line added after them gives
    its path the checksum it states, whatever the lines before say. *)
Theorem later_line_wins text sum path :
  forallb fitsBuffer (splitLines (text ++ LF)) = true ->
  String.length sum = 32%nat -> hexOnly sum = true ->
  plainPath path = true ->
  parseChecksums ((text ++ LF) ++ (sum ++ "  " ++ path) ++ LF) !! path
  = Some sum.
Proof.
  intros Hfit Hlen Hhex Hplain.
  pose proof (checksum_readable sum path Hlen Hhex Hplain) as Hread.
  pose proof Hread as [Hc _]. apply canonical_spec in Hc as (_ & Ht & Hlf & Hf).
  unfold parseChecksums, scanLines.
  rewrite splitLines_app.
  rewrite <- (append_nil_r LF) at 2.
  rewrite splitLines_line by done. simpl splitLines.
  rewrite whilst_app_all by done. simpl. rewrite Hf.
  rewrite map_app, fold_left_app. simpl.
  rewrite (dropCR_clean _ Ht), readLine_readable by done.
  apply lookup_insert_eq.
Qed.

Lemma later_line_wins_witness :
  parseChecksums
    (("00000000000000000000000000000000  a.txt" ++ LF)
     ++ ("49f68a5c8493ec2c0bf489821c21fc3b" ++ "  " ++ "a.txt") ++ LF)
  !! "a.txt"
  = Some "49f68a5c8493ec2c0bf489821c21fc3b".
Proof.
  apply (later_line_wins "00000000000000000000000000000000  a.txt"
           "49f68a5c8493ec2c0bf489821c21fc3b" "a.txt");
    vm_compute; reflexivity.
Defined.

(** X18. A line of 65536 bytes or more ends the loading without an
    error: [readChecksums] returns the entries of the lines before it and
    ignores every line after it. *)
Theorem long_line_ends_loading text line rest :
  fitsBuffer line = false -> noLF line = true ->
  parseChecksums ((text ++ LF) ++ line ++ LF ++ rest)
  = parseChecksums (text ++ LF)
  /\ parseChecksums (line ++ LF ++ rest) = ∅.
Proof.
  intros Hlong Hlf. unfold parseChecksums, scanLines. split.
  - rewrite splitLines_app, splitLines_line by done.
    by rewrite whilst_app_stop.
  - rewrite splitLines_line by done. simpl. by rewrite Hlong.
Qed.

Lemma long_line_ends_loading_witness :
  parseChecksums
    (("49f68a5c8493ec2c0bf489821c21fc3b  a.txt" ++ LF) ++ longLine ++ LF
     ++ "bfa99df33b137bc8fb5f5407d7e58da8  b.txt" ++ LF)
  = parseChecksums ("49f68a5c8493ec2c0bf489821c21fc3b  a.txt" ++ LF)
  /\ parseChecksums
       (longLine ++ LF ++ "bfa99df33b137bc8fb5f5407d7e58da8  b.txt" ++ LF)
     = ∅.
Proof.
  apply (long_line_ends_loading "49f68a5c8493ec2c0bf489821c21fc3b  a.txt"
           longLine ("bfa99df33b137bc8fb5f5407d7e58da8  b.txt" ++ LF));
    vm_compute; reflexivity.
Defined.

(** ** What sets the flags of a run *)

(** X19. Without a marker file the last-run instant is the zero instant:
    every regular file that is not skipped and was modified after it is
    opened to be hashed, listed in the manifest or not, and gets the
    digest of its bytes when it can be read. *)
Theorem missing_marker_forces_rehash fs o rel info :
  statFS fs (Inside MD5TimestampFile) = None ->
  inside fs !! rel = Some (Regular info) ->
  HasSuffix rel MD5TimestampFile = false ->
  zeroTime < modTime info ->
  getLastRunTime fs (Inside MD5TimestampFile) = zeroTime
  /\ (OpenToHash (Inside rel) ∈ events (scan fs o))
  /\ forall bytes, content info = Some bytes ->
                   newChecksums (scan fs o) !! rel = Some (md5hex bytes).
Proof.
  intros Hmarker Hin Hsuffix Htime.
  assert (getLastRunTime fs (Inside MD5TimestampFile) = zeroTime) as Hzero.
  { unfold getLastRunTime. by rewrite Hmarker. }
  assert (needsUpdate (readChecksums fs o)
            (getLastRunTime fs (Inside MD5TimestampFile)) rel info = true)
    as Hstale.
  { rewrite Hzero. unfold needsUpdate, After.
    by rewrite (proj2 (Z.ltb_lt _ _) Htime). }
  split; [done|]. split.
  - apply scan_hashed. by exists info.
  - intros bytes Hbytes. rewrite (scan_lookup fs o rel _ Hin).
    unfold stores, digests, hashes, fileMD5, ReadFile. simpl.
    rewrite Hsuffix, Hstale, Hin, Hbytes. simpl.
    destruct (String.eqb _ _) eqn:Heq; [|done].
    apply String.eqb_eq in Heq. unfold mapGet in Heq.
    destruct (readChecksums fs o !! rel) as [v|]; simpl in Heq; [by subst|].
    symmetry in Heq. by apply md5hex_nonempty in Heq.
Qed.

Lemma missing_marker_forces_rehash_witness :
  getLastRunTime fsNoMarker (Inside MD5TimestampFile) = zeroTime
  /\ (OpenToHash (Inside "a.txt") ∈ events (scan fsNoMarker outPath))
  /\ forall bytes, content (mkFile 5 (Some "hi")) = Some bytes ->
                   newChecksums (scan fsNoMarker outPath) !! "a.txt"
                   = Some (md5hex bytes).
Proof.
  apply (missing_marker_forces_rehash fsNoMarker outPath "a.txt"
           (mkFile 5 (Some "hi"))).
  - reflexivity.
  - reflexivity.
  - vm_compute. reflexivity.
  - reflexivity.
Defined.

(** X20. The walk sets [changed] exactly when some regular file that is
    not skipped, is stale and can be read has a digest that is not the
    entry of its path in the existing manifest. *)
Theorem changed_iff_some_digest_differs fs o :
  changed (scan fs o) = true
  <-> exists rel info bytes,
        inside fs !! rel = Some (Regular info)
        /\ HasSuffix rel MD5TimestampFile = false
        /\ needsUpdate (readChecksums fs o)
             (getLastRunTime fs (Inside MD5TimestampFile)) rel info = true
        /\ content info = Some bytes
        /\ readChecksums fs o !! rel <> Some (md5hex bytes).
Proof.
  rewrite scan_start, walk_changed. simpl. split.
  - intros [?|([rel node] & Hin%elem_of_Walk & [sum Hst])]; [done|].
    pose proof (stores_differs _ _ _ _ _ Hst) as Hne.
    unfold stores, digests, hashes, fileMD5, ReadFile in Hst.
    simpl in Hst, Hne. rewrite Hin in Hst.
    destruct node as [info| |]; try done.
    destruct (HasSuffix rel MD5TimestampFile) eqn:Hsuffix; [done|].
    destruct (needsUpdate _ _ rel info) eqn:Hstale; [|done]. simpl in Hst.
    destruct (content info) as [bytes|] eqn:Hbytes; [|done].
    destruct (String.eqb _ _); [done|]. injection Hst as <-.
    by exists rel, info, bytes.
  - intros (rel & info & bytes & Hin & Hsuffix & Hstale & Hbytes & Hne).
    right. exists (rel, Regular info). split; [by apply elem_of_Walk|].
    exists (md5hex bytes).
    unfold stores, digests, hashes, fileMD5, ReadFile. simpl.
    rewrite Hsuffix, Hstale, Hin, Hbytes. simpl.
    destruct (String.eqb _ _) eqn:Heq; [|done].
    apply String.eqb_eq in Heq. destruct Hne. unfold mapGet in Heq.
    destruct (readChecksums fs o !! rel) as [v|]; simpl in Heq; [by subst|].
    symmetry in Heq. by apply md5hex_nonempty in Heq.
Qed.

(** X21. The walk sets [neededUpdate] exactly when some regular file
    that is not skipped and is stale can be read. A run that returns has
    set the marker to the current instant in that case, and has left the
    marker as it was in the other. *)
Theorem marker_advances_iff_a_file_was_hashed env o fs :
  (neededUpdate (scan fs o) = true
   <-> exists rel info bytes,
         inside fs !! rel = Some (Regular info)
         /\ HasSuffix rel MD5TimestampFile = false
         /\ needsUpdate (readChecksums fs o)
              (getLastRunTime fs (Inside MD5TimestampFile)) rel info = true
         /\ content info = Some bytes)
  /\ (exit (main env o fs) = Returned ->
      statFS (finalFS (main env o fs)) (Inside MD5TimestampFile)
      = if neededUpdate (scan fs o)
        then Some (Regular (mkFile (now env) (Some "")))
        else statFS fs (Inside MD5TimestampFile)).
Proof.
  split.
  - rewrite scan_start, walk_neededUpdate. simpl. split.
    + intros [?|([rel node] & Hin%elem_of_Walk & [sum Hd])]; [done|].
      unfold digests, hashes, fileMD5, ReadFile in Hd. simpl in Hd.
      rewrite Hin in Hd. destruct node as [info| |]; try done.
      destruct (HasSuffix rel MD5TimestampFile) eqn:Hsuffix; [done|].
      destruct (needsUpdate _ _ rel info) eqn:Hstale; [|done]. simpl in Hd.
      destruct (content info) as [bytes|] eqn:Hbytes; [|done].
      by exists rel, info, bytes.
    + intros (rel & info & bytes & Hin & Hsuffix & Hstale & Hbytes).
      right. exists (rel, Regular info). split; [by apply elem_of_Walk|].
      exists (md5hex bytes).
      unfold digests, hashes, fileMD5, ReadFile. simpl.
      by rewrite Hsuffix, Hstale, Hin, Hbytes.
  - destruct (rootExists fs) eqn:Hroot.
    2:{ unfold main. by rewrite Hroot. }
    assert (changed (scan fs o) = true -> neededUpdate (scan fs o) = true)
      as Himp.
    { rewrite scan_start, walk_changed, walk_neededUpdate.
      intros [?|(e & He & Hst)]; [by left|]. right. exists e.
      split; [done|]. unfold stores in Hst.
      destruct (digests _ _ _ e); [by eauto|by destruct Hst]. }
    destruct (changed (scan fs o)) eqn:Hch.
    + rewrite (Himp eq_refl). rewrite main_writes by done. simpl.
      destruct (writeChecksums _ _ _ _) as [fs1 [|]]; simpl; [|done].
      destruct (updateLastRun _ _ _) as [fs2 [|]] eqn:Hu; simpl; [|done].
      intros _. apply updateLastRun_ok in Hu as ->. apply lookup_insert_eq.
    + rewrite main_keeps by done. simpl.
      destruct (neededUpdate (scan fs o)); [|done].
      destruct (updateLastRun _ _ _) as [fs2 [|]] eqn:Hu; simpl; [|done].
      intros _. apply updateLastRun_ok in Hu as ->. apply lookup_insert_eq.
Qed.

Lemma marker_advances_iff_a_file_was_hashed_witness :
  statFS (finalFS (main env20 outPath fsScanned)) (Inside MD5TimestampFile)
  = if neededUpdate (scan fsScanned outPath)
    then Some (Regular (mkFile (now env20) (Some "")))
    else statFS fsScanned (Inside MD5TimestampFile).
Proof.
  apply (proj2 (marker_advances_iff_a_file_was_hashed env20 outPath
                  fsScanned)).
  vm_compute. reflexivity.
Defined.
